(** * Vira Services field modifier: a shallow embedding

    The development follows [utilities/field_modifier.py] and
    [utilities/file_updater.py]:

    - Python values as they come out of [json.load] ([pyval]), with the
      dynamic checks of the operators the code uses ([in], subscription,
      [dict.get], [str.lower], truthiness, f-string formatting);
    - exceptions as an error monad ([result]);
    - the project tree and the backup directory as finite trees of files,
      threaded explicitly through the functions that touch the disk.

    Strings are byte strings; the case conversions and character classes
    are those of ASCII, and JSON numbers are integers. *)

From Stdlib Require Import ZArith Ascii String List Bool Lia Sorting.Sorted.
From stdpp Require Import base option list gmap strings pretty.

Set Warnings "-register-all".
Open Scope string_scope.

(** ** Characters and strings, as Python's [str] methods see them *)

Definition dquote : string := String (ascii_of_nat 34) EmptyString.
Definition backslash : string := String (ascii_of_nat 92) EmptyString.
Definition newline : string := String (ascii_of_nat 10) EmptyString.

Definition is_upper_char (c : ascii) : bool :=
  let n := nat_of_ascii c in (65 <=? n)%nat && (n <=? 90)%nat.
Definition is_lower_char (c : ascii) : bool :=
  let n := nat_of_ascii c in (97 <=? n)%nat && (n <=? 122)%nat.
Definition is_digit_char (c : ascii) : bool :=
  let n := nat_of_ascii c in (48 <=? n)%nat && (n <=? 57)%nat.
Definition is_alpha_char (c : ascii) : bool := is_upper_char c || is_lower_char c.
(** [str.isspace] on ASCII: tab, line feed, vertical tab, form feed,
    carriage return, the separators 28..31 and the space. *)
Definition is_space_char (c : ascii) : bool :=
  let n := nat_of_ascii c in
  ((9 <=? n)%nat && (n <=? 13)%nat) || ((28 <=? n)%nat && (n <=? 32)%nat).

Definition lower_char (c : ascii) : ascii :=
  if is_upper_char c then ascii_of_nat (nat_of_ascii c + 32) else c.
Definition upper_char (c : ascii) : ascii :=
  if is_lower_char c then ascii_of_nat (nat_of_ascii c - 32) else c.

Fixpoint map_string (f : ascii -> ascii) (s : string) : string :=
  match s with
  | EmptyString => EmptyString
  | String c r => String (f c) (map_string f r)
  end.

(** [s.lower()] and [s.upper()] *)
Definition lower (s : string) : string := map_string lower_char s.
Definition upper (s : string) : string := map_string upper_char s.

(** [s.capitalize()]: first character upper case, the others lower case *)
Definition capitalize (s : string) : string :=
  match s with
  | EmptyString => EmptyString
  | String c r => String (upper_char c) (lower r)
  end.

(** [s.startswith(p)] *)
Definition startswith (s p : string) : bool := String.prefix p s.

(** [p in s] on two strings *)
Fixpoint contains (p s : string) : bool :=
  String.prefix p s ||
  match s with
  | EmptyString => false
  | String _ r => contains p r
  end.

(** [s.endswith(p)]: [p] is one of the suffixes of [s] *)
Fixpoint endswith (s p : string) : bool :=
  String.eqb s p ||
  match s with
  | EmptyString => false
  | String _ r => endswith r p
  end.

(** [sep.join(parts)] *)
Fixpoint join (sep : string) (parts : list string) : string :=
  match parts with
  | [] => ""
  | [x] => x
  | x :: r => x ++ sep ++ join sep r
  end.

(** [s.split(c)] for a one-character separator *)
Fixpoint split_on (c : ascii) (s : string) : list string :=
  match s with
  | EmptyString => [""]
  | String d r =>
      if Ascii.eqb c d then "" :: split_on c r
      else match split_on c r with
           | [] => [String d ""]
           | w :: ws => String d w :: ws
           end
  end.

(** [s.count(c)] for a one-character pattern *)
Fixpoint count_char (c : ascii) (s : string) : nat :=
  match s with
  | EmptyString => 0
  | String d r => (if Ascii.eqb c d then 1 else 0) + count_char c r
  end.

Fixpoint lstrip (s : string) : string :=
  match s with
  | EmptyString => EmptyString
  | String c r => if is_space_char c then lstrip r else s
  end.

(** [s.strip()] *)
Definition strip (s : string) : string :=
  String.rev (lstrip (String.rev (lstrip s))).

(** [s.replace(a, b)] for one-character [a] and [b] *)
Definition replace_char (a b : ascii) (s : string) : string :=
  map_string (fun c => if Ascii.eqb c a then b else c) s.

(** [s.title()]: a letter that follows a non-letter is upper-cased, a
    letter that follows a letter is lower-cased. *)
Fixpoint title_from (prev_cased : bool) (s : string) : string :=
  match s with
  | EmptyString => EmptyString
  | String c r =>
      String (if is_alpha_char c
              then (if prev_cased then lower_char c else upper_char c)
              else c)
             (title_from (is_alpha_char c) r)
  end.
Definition title (s : string) : string := title_from false s.

(** ** Exceptions *)

Inductive exn : Type :=
  | ValueError (msg : string)
  | KeyError (key : string)
  | TypeError
  | AttributeError
  | EOFError
  | IndexError
  | MemoryError
  | OSError (msg : string)
  | TemplateError (msg : string).

Inductive result (A : Type) : Type :=
  | Ok (a : A)
  | Raise (e : exn).
Arguments Ok {A} a.
Arguments Raise {A} e.

#[global] Instance result_ret : MRet result := fun _ a => Ok a.
#[global] Instance result_bind : MBind result := fun _ _ f m =>
  match m with
  | Ok a => f a
  | Raise e => Raise e
  end.

Definition is_ok {A} (r : result A) : bool :=
  match r with Ok _ => true | Raise _ => false end.

(** ** Python values read from JSON *)

Inductive pyval : Type :=
  | PNone
  | PBool (b : bool)
  | PInt (z : Z)
  | PStr (s : string)
  | PList (items : list pyval)
  | PDict (items : list (string * pyval)).

(** Lookup in a dict held as its list of items, in insertion order. *)
Fixpoint assoc (k : string) (d : list (string * pyval)) : option pyval :=
  match d with
  | [] => None
  | (k', v) :: r => if String.eqb k k' then Some v else assoc k r
  end.

Definition is_PStr (k : string) (v : pyval) : bool :=
  match v with PStr s => String.eqb k s | _ => false end.

(** [k in v] for a string [k]: key of a dict, substring of a string,
    element of a list; the other values are not iterable. *)
Definition py_in (k : string) (v : pyval) : result bool :=
  match v with
  | PDict d => Ok (bool_decide (is_Some (assoc k d)))
  | PStr s => Ok (contains k s)
  | PList l => Ok (existsb (is_PStr k) l)
  | _ => Raise TypeError
  end.

(** [v[k]] for a string [k] *)
Definition py_getitem (v : pyval) (k : string) : result pyval :=
  match v with
  | PDict d => match assoc k d with Some x => Ok x | None => Raise (KeyError k) end
  | _ => Raise TypeError
  end.

(** [v.get(k, dflt)] *)
Definition py_get (v : pyval) (k : string) (dflt : pyval) : result pyval :=
  match v with
  | PDict d => Ok (default dflt (assoc k d))
  | _ => Raise AttributeError
  end.

(** [bool(v)] *)
Definition py_truthy (v : pyval) : bool :=
  match v with
  | PNone => false
  | PBool b => b
  | PInt z => negb (z =? 0)%Z
  | PStr s => negb (String.eqb s "")
  | PList l => match l with [] => false | _ => true end
  | PDict d => match d with [] => false | _ => true end
  end.

(** A string method called on a value: an [AttributeError] unless the
    value is a string. *)
Definition py_str_method (f : string -> string) (v : pyval) : result string :=
  match v with
  | PStr s => Ok (f s)
  | _ => Raise AttributeError
  end.

(** [repr(s)] of a string: single quotes unless the string has a single
    quote and no double quote; backslash, the quote and the control
    characters escaped. *)
Definition hex_digit (n : nat) : ascii :=
  ascii_of_nat (if (n <? 10)%nat then 48 + n else 87 + n).
Definition repr_char (q : ascii) (c : ascii) : string :=
  let n := nat_of_ascii c in
  if Ascii.eqb c q then backslash ++ String c ""
  else if (n =? 92)%nat then backslash ++ backslash
  else if (n =? 10)%nat then backslash ++ "n"
  else if (n =? 13)%nat then backslash ++ "r"
  else if (n =? 9)%nat then backslash ++ "t"
  else if (n <? 32)%nat || (n =? 127)%nat
       then backslash ++ "x" ++ String (hex_digit (n / 16)) (String (hex_digit (n mod 16)) "")
  else String c "".
Fixpoint repr_chars (q : ascii) (s : string) : string :=
  match s with
  | EmptyString => ""
  | String c r => repr_char q c ++ repr_chars q r
  end.
Definition repr_string (s : string) : string :=
  let q := if contains "'" s && negb (contains dquote s)
           then ascii_of_nat 34 else ascii_of_nat 39 in
  String q "" ++ repr_chars q s ++ String q "".

(** [repr(v)] *)
Fixpoint py_repr (v : pyval) : string :=
  match v with
  | PNone => "None"
  | PBool true => "True"
  | PBool false => "False"
  | PInt z => pretty z
  | PStr s => repr_string s
  | PList l => "[" ++ join ", " (map py_repr l) ++ "]"
  | PDict d =>
      "{" ++ join ", " (map (fun kv => repr_string (fst kv) ++ ": " ++ py_repr (snd kv)) d) ++ "}"
  end.

(** [str(v)], which is what an f-string field [{v}] prints *)
Definition py_str (v : pyval) : string :=
  match v with
  | PStr s => s
  | _ => py_repr v
  end.

(** ** FieldOperation *)

Record FieldOperation : Type := mkFieldOperation {
  action : string;
  field_data : pyval
}.

Definition valid_actions : list string := ["add"; "update"; "remove"].
Definition required_fields : list string := ["name"; "type"; "javaType"].

(** [all(field in v for field in keys)] *)
Fixpoint all_in (keys : list string) (v : pyval) : result bool :=
  match keys with
  | [] => Ok true
  | k :: r => b ← py_in k v; if b : bool then all_in r v else Ok false
  end.

Definition validate (self : FieldOperation) : result unit :=
  if negb (bool_decide (action self ∈ valid_actions)) then
    Raise (ValueError ("Invalid action: " ++ action self
                       ++ ". Must be one of ['add', 'update', 'remove']"))
  else if String.eqb (action self) "add" then
    fld ← py_get (field_data self) "field" (PDict []);
    ok ← all_in required_fields fld;
    if negb ok then Raise (ValueError "Add operation requires: ['name', 'type', 'javaType']")
    else Ok tt
  else if String.eqb (action self) "update" then
    has_name ← py_in "field_name" (field_data self);
    if negb has_name then Raise (ValueError "Update operation requires 'field_name'")
    else
      has_changes ← py_in "changes" (field_data self);
      if negb has_changes then Raise (ValueError "Update operation requires 'changes'")
      else Ok tt
  else if String.eqb (action self) "remove" then
    has_name ← py_in "field_name" (field_data self);
    if negb has_name then Raise (ValueError "Remove operation requires 'field_name'")
    else Ok tt
  else Ok tt.

(** [FieldOperation(action, field_data)] *)
Definition FieldOperation_init (action_arg : pyval) (payload : pyval) : result FieldOperation :=
  a ← py_str_method lower action_arg;
  let self := mkFieldOperation a payload in
  _ ← validate self;
  Ok self.

(** [l.append(x)] *)
Definition py_append {A : Type} (l : list A) (x : A) : list A := (l ++ [x])%list.

(** [for x in l: a = f(a, x)] with exceptions *)
Fixpoint fold_result {A B : Type} (f : A -> B -> result A) (a : A) (l : list B) : result A :=
  match l with
  | [] => Ok a
  | x :: r => a' ← f a x; fold_result f a' r
  end.

(** [for x in reversed(l): a = f(a, x)] with exceptions: the elements
    are taken from the last one down to the first. *)
Fixpoint for_reversed {A B : Type} (f : A -> B -> result A) (a : A) (l : list B)
    : result A :=
  match l with
  | [] => Ok a
  | x :: r => a' ← for_reversed f a r; f a' x
  end.

(** [[f(x) for x in l]] with exceptions *)
Fixpoint map_result {A B : Type} (f : A -> result B) (l : list A) : result (list B) :=
  match l with
  | [] => Ok []
  | x :: r => y ← f x; ys ← map_result f r; Ok (y :: ys)
  end.

(** ** The file tree *)

Inductive node : Type :=
  | File (data : string)
  | Dir (entries : gmap string node).

(** A path is the list of its components, outermost first. *)
Abbreviation path := (list string).

Fixpoint lookup_path (p : path) (n : node) : option node :=
  match p with
  | [] => Some n
  | x :: q =>
      match n with
      | Dir m => match m !! x with Some c => lookup_path q c | None => None end
      | File _ => None
      end
  end.

(** [p.exists()], [p.is_dir()] *)
Definition path_exists (fs : node) (p : path) : bool :=
  bool_decide (is_Some (lookup_path p fs)).
Definition is_dir_node (n : node) : bool :=
  match n with Dir _ => true | File _ => false end.
Definition path_is_dir (fs : node) (p : path) : bool :=
  match lookup_path p fs with Some n => is_dir_node n | None => false end.

(** The entries of a directory, as [iterdir] and [glob] enumerate them;
    a path that is not a directory has none. *)
Definition dir_entries (fs : node) (p : path) : list (string * node) :=
  match lookup_path p fs with
  | Some (Dir m) => map_to_list m
  | _ => []
  end.

(** [open(p).read()]: fails on a directory and on a missing file *)
Definition read_node (n : node) : result string :=
  match n with
  | File data => Ok data
  | Dir _ => Raise (OSError "Is a directory")
  end.

Definition migration_path : path := ["src"; "main"; "resources"; "db"; "migration"].

(** ** ImpactAnalyzer *)

Record migration_change : Type := mkChange {
  mc_type : string;
  mc_field_name : pyval;
  mc_sql : string
}.

Record Analysis : Type := mkAnalysis {
  service_name : pyval;
  table_name : pyval;
  operations_count : nat;
  files_to_modify : list string;
  migration_changes : list migration_change;
  potential_risks : list string;
  dependency_impacts : list string;
  breaking_changes : list string;
  validation_results : list string
}.

Definition add_change (a : Analysis) (c : migration_change) : Analysis :=
  mkAnalysis (service_name a) (table_name a) (operations_count a) (files_to_modify a)
    (py_append (migration_changes a) c) (potential_risks a) (dependency_impacts a)
    (breaking_changes a) (validation_results a).
Definition add_risk (a : Analysis) (r : string) : Analysis :=
  mkAnalysis (service_name a) (table_name a) (operations_count a) (files_to_modify a)
    (migration_changes a) (py_append (potential_risks a) r) (dependency_impacts a)
    (breaking_changes a) (validation_results a).
Definition add_breaking (a : Analysis) (r : string) : Analysis :=
  mkAnalysis (service_name a) (table_name a) (operations_count a) (files_to_modify a)
    (migration_changes a) (potential_risks a) (dependency_impacts a)
    (py_append (breaking_changes a) r) (validation_results a).
Definition set_files (a : Analysis) (fs : list string) : Analysis :=
  mkAnalysis (service_name a) (table_name a) (operations_count a) fs
    (migration_changes a) (potential_risks a) (dependency_impacts a)
    (breaking_changes a) (validation_results a).

Definition _analyze_single_operation (analysis : Analysis) (service_info : pyval)
    (operation : FieldOperation) : result Analysis :=
  if String.eqb (action operation) "add" then
    field ← py_getitem (field_data operation) "field";
    name ← py_getitem field "name";
    table ← py_getitem service_info "table";
    name' ← py_getitem field "name";
    ty ← py_getitem field "type";
    let analysis := add_change analysis
      (mkChange "ADD_COLUMN" name
         ("ALTER TABLE " ++ py_str table ++ " ADD COLUMN " ++ py_str name' ++ " " ++ py_str ty)) in
    nullable ← py_get field "nullable" (PBool true);
    no_default ← (if negb (py_truthy nullable)
                  then b ← py_in "default_value" field; Ok (negb b)
                  else Ok false);
    if no_default : bool then
      name'' ← py_getitem field "name";
      Ok (add_risk analysis
            ("Adding non-nullable field '" ++ py_str name''
             ++ "' without default value may fail if table has data"))
    else Ok analysis
  else if String.eqb (action operation) "update" then
    field_name ← py_getitem (field_data operation) "field_name";
    changes ← py_getitem (field_data operation) "changes";
    has_type ← py_in "type" changes;
    if has_type : bool then
      table ← py_getitem service_info "table";
      ty ← py_getitem changes "type";
      let analysis := add_change analysis
        (mkChange "MODIFY_COLUMN" field_name
           ("ALTER TABLE " ++ py_str table ++ " ALTER COLUMN " ++ py_str field_name
            ++ " TYPE " ++ py_str ty)) in
      Ok (add_risk analysis
            ("Changing type of field '" ++ py_str field_name
             ++ "' may cause data loss if incompatible"))
    else Ok analysis
  else if String.eqb (action operation) "remove" then
    field_name ← py_getitem (field_data operation) "field_name";
    table ← py_getitem service_info "table";
    let analysis := add_change analysis
      (mkChange "DROP_COLUMN" field_name
         ("-- ALTER TABLE " ++ py_str table ++ " DROP COLUMN " ++ py_str field_name
          ++ "; -- REQUIRES MANUAL CONFIRMATION")) in
    Ok (add_breaking analysis
          ("Removing field '" ++ py_str field_name
           ++ "' will break any code that references it"))
  else Ok analysis.

(** [service_info.get('entity', service_info['name'].capitalize())]: the
    default is computed before [get] is called. *)
Definition entity_name_of (service_info : pyval) : result pyval :=
  name ← py_getitem service_info "name";
  cap ← py_str_method capitalize name;
  py_get service_info "entity" (PStr cap).

Definition _get_affected_files (service_info : pyval) : result (list string) :=
  service_name ← py_getitem service_info "name";
  entity_name ← entity_name_of service_info;
  let s := py_str service_name in
  let e := py_str entity_name in
  entity_lower ← py_str_method lower entity_name;
  Ok [ "src/main/java/com/vira/" ++ s ++ "/model/" ++ e ++ ".java";
       "src/main/java/com/vira/" ++ s ++ "/dto/" ++ e ++ "Request.java";
       "src/main/java/com/vira/" ++ s ++ "/dto/" ++ e ++ "Response.java";
       "src/main/java/com/vira/" ++ s ++ "/service/" ++ e ++ "Service.java";
       "src/main/java/com/vira/" ++ s ++ "/repository/" ++ e ++ "Repository.java";
       "src/main/java/com/vira/" ++ s ++ "/controller/" ++ e ++ "Controller.java";
       "src/test/java/com/vira/" ++ s ++ "/service/" ++ e ++ "ServiceTest.java";
       "src/test/java/com/vira/" ++ s ++ "/controller/" ++ e ++ "ControllerTest.java";
       "src/main/resources/frontend/api/" ++ entity_lower ++ "ApiService.js" ].

Definition analyze_field_operations (service_info : pyval)
    (operations : list FieldOperation) : result Analysis :=
  sn ← py_getitem service_info "name";
  tn ← py_getitem service_info "table";
  let analysis := mkAnalysis sn tn (length operations) [] [] [] [] [] [] in
  analysis ← fold_result (fun a op => _analyze_single_operation a service_info op)
                   analysis operations;
  files ← _get_affected_files service_info;
  Ok (set_files analysis files).

(** ** DependencyChecker *)

Definition _is_primary_key (field_name : pyval) : result bool :=
  l ← py_str_method lower field_name;
  Ok (bool_decide (l ∈ ["id"; "uuid"])).

(** One migration file of the scan: an entry that cannot be read is
    skipped. *)
Definition file_mentions (pattern : string) (entry : string * node) : bool :=
  match read_node (snd entry) with
  | Ok content => contains pattern content
  | Raise _ => false
  end.

Definition _has_foreign_key_references (fs : node) (field_name : pyval)
    (service_info : pyval) (project_root : path) : result bool :=
  let migration_dir := (project_root ++ migration_path)%list in
  if negb (path_exists fs migration_dir) then Ok false
  else
    table_name ← py_getitem service_info "table";
    let reference_pattern :=
      "REFERENCES " ++ py_str table_name ++ "(" ++ py_str field_name ++ ")" in
    Ok (existsb (file_mentions reference_pattern)
          (filter (fun e => endswith (fst e) ".sql") (dir_entries fs migration_dir))).

Definition _is_type_change_safe (new_type : pyval) : result bool :=
  u ← py_str_method upper new_type;
  Ok (contains "VARCHAR" u).

Definition validate_operation_safety (fs : node) (operation : FieldOperation)
    (service_info : pyval) (project_root : path) : result (list string) :=
  let errors : list string := [] in
  if String.eqb (action operation) "remove" then
    field_name ← py_getitem (field_data operation) "field_name";
    pk ← _is_primary_key field_name;
    let errors := if pk : bool
      then py_append errors ("Cannot remove primary key field: " ++ py_str field_name)
      else errors in
    fk ← _has_foreign_key_references fs field_name service_info project_root;
    let errors := if fk : bool
      then py_append errors ("Field " ++ py_str field_name
                              ++ " is referenced by foreign keys in other tables")
      else errors in
    Ok errors
  else if String.eqb (action operation) "update" then
    field_name ← py_getitem (field_data operation) "field_name";
    changes ← py_getitem (field_data operation) "changes";
    pk ← _is_primary_key field_name;
    let errors := if pk : bool
      then py_append errors ("Cannot modify primary key field: " ++ py_str field_name)
      else errors in
    has_type ← py_in "type" changes;
    if has_type : bool then
      new_type ← py_getitem changes "type";
      safe ← _is_type_change_safe new_type;
      if safe : bool then Ok errors
      else Ok (py_append errors ("Type change for field " ++ py_str field_name
                                      ++ " may cause data loss"))
    else Ok errors
  else Ok errors.

(** ** Writing to the file tree *)

(** [os.makedirs(p, exist_ok=True)]: the directories on the way are
    created; a component that exists and is not a directory is an error. *)
Fixpoint makedirs (p : path) (n : node) : result node :=
  match n with
  | File _ => Raise (OSError "File exists")
  | Dir m =>
      match p with
      | [] => Ok n
      | k :: q =>
          c ← makedirs q (default (Dir ∅) (m !! k));
          Ok (Dir (<[k := c]> m))
      end
  end.

(** The tree with [x] put at [p], whatever was there; the directories on
    the way are created, and a regular file on the way is an error. *)
Fixpoint write_path (p : path) (x : node) (n : node) : result node :=
  match p with
  | [] => Ok x
  | k :: q =>
      match n with
      | File _ => Raise (OSError "Not a directory")
      | Dir m =>
          c ← write_path q x (default (Dir ∅) (m !! k));
          Ok (Dir (<[k := c]> m))
      end
  end.

(** The tree without the entry at [p]. *)
Fixpoint remove_path (p : path) (n : node) : node :=
  match p, n with
  | [k], Dir m => Dir (delete k m)
  | k :: q, Dir m =>
      match m !! k with
      | Some c => Dir (<[k := remove_path q c]> m)
      | None => n
      end
  | _, _ => n
  end.

(** [shutil.rmtree(p)]: [p] has to be a directory. *)
Definition rmtree (p : path) (n : node) : result node :=
  match lookup_path p n with
  | Some (Dir _) => Ok (remove_path p n)
  | Some (File _) => Raise (OSError "Not a directory")
  | None => Raise (OSError "No such file or directory")
  end.

(** Copying the entries of [src] over the entries of [dst]; [clash] tells
    whether a file would land on a directory or a directory on a file. *)
Fixpoint clash (src dst : node) {struct src} : bool :=
  match src, dst with
  | File _, File _ => false
  | Dir ms, Dir md =>
      map_fold (fun k s acc =>
                  acc || match md !! k with Some d => clash s d | None => false end)
               false ms
  | _, _ => true
  end.
Fixpoint overlay (src dst : node) {struct src} : node :=
  match src with
  | File d => File d
  | Dir ms =>
      match dst with
      | Dir md =>
          Dir (merge (fun s d => match s, d with
                                 | Some s', Some d' => Some (overlay s' d')
                                 | Some s', None => Some s'
                                 | None, _ => d
                                 end) ms md)
      | File _ => src
      end
  end.

(** [shutil.copytree(src, dst, dirs_exist_ok=...)] for a source directory
    whose content is [src]: a missing destination is created with its
    parents and receives a copy of the source; an existing one is an
    error, or with [dirs_exist_ok] the source is copied over it. *)
Definition copytree (src : node) (dst : path) (dirs_exist_ok : bool) (n : node)
    : result node :=
  match lookup_path dst n with
  | None => write_path dst src n
  | Some d =>
      if dirs_exist_ok && negb (clash src d) then write_path dst (overlay src d) n
      else Raise (OSError "File exists")
  end.

(** The last component of a path. *)
Definition basename (p : path) : string := List.last p "".
Definition parent (p : path) : path := removelast p.

(** Writing the regular file [p]: its directory has to exist and [p] must
    not be a directory. *)
Definition write_file (p : path) (data : string) (n : node) : result node :=
  match lookup_path (parent p) n, lookup_path p n, p with
  | Some (Dir _), Some (Dir _), _ => Raise (OSError "Is a directory")
  | Some (Dir _), _, _ :: _ => write_path p (File data) n
  | _, _, _ => Raise (OSError "No such file or directory")
  end.

(** [shutil.copy2(src, dst)] for a source file with content [data]: into
    the directory [dst] under the source's name when [dst] is a directory,
    else as the file [dst]. *)
Definition copy2 (src_name : string) (data : string) (dst : path) (n : node)
    : result node :=
  match lookup_path dst n with
  | Some (Dir _) => write_file (dst ++ [src_name])%list data n
  | _ => write_file dst data n
  end.

(** [Path(s)]: the components of a relative path written with slashes;
    empty components and [.] are dropped. *)
Definition parse_path (s : string) : path :=
  filter (fun c => negb (String.eqb c "") && negb (String.eqb c ".")) (split_on "/" s).

(** ** BackupManager *)

Record Manifest : Type := mkManifest {
  backup_id : string;
  manifest_service_name : pyval;
  timestamp : string;
  files_backed_up : list string;
  manifest_project_root : path
}.

(** One directory [backups/<id>]: the copied tree, and [manifest.json]
    once it has been written. *)
Record Backup : Type := mkBackup {
  snapshot : node;
  manifest : option Manifest
}.

(** The disk: the live file tree, and the backup directory, which lies
    outside the paths that are backed up. *)
Record World : Type := mkWorld {
  live : node;
  backups : gmap string Backup
}.

(** Computations that read and write the disk and may raise: the state
    is kept when an exception is raised. *)
Definition IO (A : Type) : Type := World -> result A * World.

Definition io_ret {A} (a : A) : IO A := fun w => (Ok a, w).
Definition io_raise {A} (e : exn) : IO A := fun w => (Raise e, w).
Definition io_bind {A B} (m : IO A) (f : A -> IO B) : IO B := fun w =>
  match m w with
  | (Ok a, w') => f a w'
  | (Raise e, w') => (Raise e, w')
  end.
Definition io_lift {A} (r : result A) : IO A := fun w => (r, w).
(** [try: m except Exception as e: h(e)] *)
Definition io_try {A} (m : IO A) (h : exn -> IO A) : IO A := fun w =>
  match m w with
  | (Ok a, w') => (Ok a, w')
  | (Raise e, w') => h e w'
  end.
Definition get_live : IO node := fun w => (Ok (live w), w).
Definition get_backups : IO (gmap string Backup) := fun w => (Ok (backups w), w).
(** A step on the live tree; the tree is unchanged when the step fails. *)
Definition on_live (f : node -> result node) : IO unit := fun w =>
  match f (live w) with
  | Ok n => (Ok tt, mkWorld n (backups w))
  | Raise e => (Raise e, w)
  end.
Definition set_backup (id : string) (b : Backup) : IO unit := fun w =>
  (Ok tt, mkWorld (live w) (<[id := b]> (backups w))).
Definition delete_backup (id : string) : IO unit := fun w =>
  (Ok tt, mkWorld (live w) (delete id (backups w))).

Notation "x <<- m ; k" := (io_bind m (fun x => k))
  (at level 20, m at level 100, k at level 200, only parsing).
Notation "m ;;; k" := (io_bind m (fun _ => k))
  (at level 100, k at level 200, right associativity, only parsing).

(** [for x in l: body(x)] *)
Fixpoint io_for {A} (l : list A) (body : A -> IO unit) : IO unit :=
  match l with
  | [] => io_ret tt
  | x :: r => body x ;;; io_for r body
  end.

Definition files_to_backup (service_name : pyval) : list string :=
  [ "src/main/java/com/vira/" ++ py_str service_name;
    "src/test/java/com/vira/" ++ py_str service_name;
    "src/main/resources/frontend/api";
    "src/main/resources/db/migration" ].

(** A step on the tree of the backup [id]. *)
Definition on_snapshot (id : string) (f : node -> result node) : IO unit :=
  bs <<- get_backups;
  match bs !! id with
  | None => io_raise (OSError "No such file or directory")
  | Some b =>
      match f (snapshot b) with
      | Ok n => set_backup id (mkBackup n (manifest b))
      | Raise e => io_raise e
      end
  end.

Definition backup_one (id : string) (project_root : path) (file_path : string)
    : IO unit :=
  fs <<- get_live;
  let source_path := (project_root ++ parse_path file_path)%list in
  let dest_path := parse_path file_path in
  match lookup_path source_path fs with
  | None => io_ret tt
  | Some (Dir m) =>
      on_snapshot id (makedirs (parent dest_path)) ;;;
      on_snapshot id (copytree (Dir m) dest_path true)
  | Some (File data) =>
      on_snapshot id (makedirs (parent dest_path)) ;;;
      on_snapshot id (copy2 (basename source_path) data dest_path)
  end.

(** [create_backup(service_name, project_root)]; [now] is the clock
    reading, already formatted. *)
Definition create_backup (now : string) (service_name : pyval) (project_root : path)
    : IO string :=
  let timestamp := now in
  let backup_id := "field_modification_" ++ py_str service_name ++ "_" ++ timestamp in
  io_try
    (bs <<- get_backups;
     (match bs !! backup_id with
      | Some _ => io_raise (OSError "File exists")
      | None => set_backup backup_id (mkBackup (Dir ∅) None)
      end) ;;;
     let files := files_to_backup service_name in
     io_for files (backup_one backup_id project_root) ;;;
     let manifest := mkManifest backup_id service_name timestamp files project_root in
     bs <<- get_backups;
     (match bs !! backup_id with
      | Some b => set_backup backup_id (mkBackup (snapshot b) (Some manifest))
      | None => io_raise (OSError "No such file or directory")
      end) ;;;
     io_ret backup_id)
    (fun e =>
       bs <<- get_backups;
       (if bool_decide (is_Some (bs !! backup_id)) then delete_backup backup_id
        else io_ret tt) ;;;
       io_raise e).

Definition restore_one (b : Backup) (project_root : path) (file_path : string)
    : IO unit :=
  let backup_file := parse_path file_path in
  let target_file := (project_root ++ parse_path file_path)%list in
  match lookup_path backup_file (snapshot b) with
  | None => io_ret tt
  | Some (Dir m) =>
      fs <<- get_live;
      (if path_exists fs target_file then on_live (rmtree target_file)
       else io_ret tt) ;;;
      on_live (copytree (Dir m) target_file false)
  | Some (File data) =>
      on_live (makedirs (parent target_file)) ;;;
      on_live (copy2 (basename backup_file) data target_file)
  end.

(** [restore_backup(backup_id)] *)
Definition restore_backup (id : string) : IO bool :=
  bs <<- get_backups;
  match bs !! id with
  | None => io_ret false
  | Some b =>
      io_try
        (m <<- io_lift (match manifest b with
                        | Some m => Ok m
                        | None => Raise (OSError "No such file or directory")
                        end);
         io_for (files_backed_up m) (restore_one b (manifest_project_root m)) ;;;
         io_ret true)
        (fun _ => io_ret false)
  end.

(** ** ConfirmationManager *)

(** [confirm_operations]: the answers typed by the operator are read one
    by one until one of them is a yes or a no; running out of input is
    the [EOFError] of [input()]. *)
Fixpoint confirm_operations (answers : list string) : result bool :=
  match answers with
  | [] => Raise EOFError
  | line :: rest =>
      let response := strip (lower line) in
      if bool_decide (response ∈ ["yes"; "y"]) then Ok true
      else if bool_decide (response ∈ ["no"; "n"]) then Ok false
      else confirm_operations rest
  end.

(** ** FieldModifier *)

(** What the migration template is rendered with. *)
Record MigrationVars : Type := mkMigrationVars {
  migration_version : string;
  mv_service_name : pyval;
  mv_table_name : pyval;
  service_description : pyval;
  operations_summary : string;
  generation_date : string;
  add_operations : list FieldOperation;
  update_operations : list FieldOperation;
  remove_operations : list FieldOperation;
  fields_with_updated_at : bool
}.

(** The modifier object: its project root and its collaborators, which
    are the template engine and the rewriting of the dependent source
    files (steps 2 to 8 of [_apply_field_operations]). *)
Record FieldModifier : Type := mkFieldModifier {
  project_root : path;
  templates_dir_exists : bool;
  get_template : result unit;
  render : MigrationVars -> result string;
  update_dependent_files : pyval -> list FieldOperation -> IO unit
}.

Definition _validate_operations_file (data : pyval) : result unit :=
  _ ← fold_result (fun (_ : unit) field =>
               b ← py_in field data;
               if b : bool then Ok tt
               else Raise (ValueError ("Missing required field: " ++ field)))
            tt ["operation_type"; "target_service"; "field_operations"];
  operation_type ← py_getitem data "operation_type";
  if negb (is_PStr "modify_service" operation_type) then
    Raise (ValueError ("Invalid operation_type: " ++ py_str operation_type))
  else
    target_service ← py_getitem data "target_service";
    _ ← fold_result (fun (_ : unit) field =>
                 b ← py_in field target_service;
                 if b : bool then Ok tt
                 else Raise (ValueError ("Missing required target_service field: " ++ field)))
              tt ["name"; "table"];
    field_operations ← py_getitem data "field_operations";
    if negb (py_truthy field_operations) then
      Raise (ValueError "No field operations specified")
    else Ok tt.

(** [[FieldOperation(op['action'], op) for op in v]]: the items of a
    list; the elements of a string or the keys of a dict are strings,
    which have no ['action']. *)
Definition build_operations (v : pyval) : result (list FieldOperation) :=
  match v with
  | PList items =>
      map_result (fun op => a ← py_getitem op "action"; FieldOperation_init a op) items
  | PDict [] | PStr "" => Ok []
  | _ => Raise TypeError
  end.

(** The digits of a version and their value, [int(...)]. *)
Fixpoint span_digits (s : string) : string * string :=
  match s with
  | EmptyString => ("", "")
  | String c r =>
      if is_digit_char c then let '(d, t) := span_digits r in (String c d, t)
      else ("", s)
  end.
Fixpoint int_of_digits (acc : Z) (s : string) : Z :=
  match s with
  | EmptyString => acc
  | String c r => int_of_digits (10 * acc + Z.of_nat (nat_of_ascii c - 48)) r
  end.
(** The part of a string before its first line feed, which is as far as
    [.*] reaches. *)
Fixpoint first_line (s : string) : string :=
  match s with
  | EmptyString => ""
  | String c r => if Ascii.eqb c (ascii_of_nat 10) then "" else String c (first_line r)
  end.

(** [re.match(r'V(\d+)__.*\.sql', name)] and [int(match.group(1))] *)
Definition version_of (name : string) : option Z :=
  match name with
  | String "V" rest =>
      let '(digits, tail) := span_digits rest in
      if String.eqb digits "" then None
      else match tail with
           | String "_" (String "_" r) =>
               if contains ".sql" (first_line r) then Some (int_of_digits 0 digits)
               else None
           | _ => None
           end
  | _ => None
  end.

(** [migration_dir.glob("V*.sql")], by name *)
Definition existing_migrations (fs : node) (migration_dir : path) : list string :=
  filter (fun name => startswith name "V" && endswith name ".sql")
         (map fst (dir_entries fs migration_dir)).

(** [max(l)] of a non-empty list given as head and tail *)
Definition py_max (x : Z) (l : list Z) : Z := fold_left Z.max l x.

Definition next_version (existing : list string) : Z :=
  match existing with
  | [] => 1
  | _ =>
      let version_numbers := omap version_of existing in
      match version_numbers with
      | [] => 1
      | v :: vs => py_max v vs + 1
      end
  end.

Definition has_action (a : string) (op : FieldOperation) : bool :=
  String.eqb (action op) a.

(** [f"{verb} {len(ops)} field{'s' if len(ops) > 1 else ''}"] *)
Definition op_count (verb : string) (ops : list FieldOperation) : list string :=
  match ops with
  | [] => []
  | _ => [verb ++ " " ++ pretty (length ops) ++ " field"
          ++ (if (1 <? length ops)%nat then "s" else "")]
  end.

(** [any(op.field_data.get("field", {}).get("name") == "updated_at" ...)] *)
Fixpoint any_updated_at (ops : list FieldOperation) : result bool :=
  match ops with
  | [] => Ok false
  | op :: r =>
      field ← py_get (field_data op) "field" (PDict []);
      name ← py_get field "name" PNone;
      if is_PStr "updated_at" name then Ok true else any_updated_at r
  end.

Definition migration_filename (version : string) (service_info : pyval) : result string :=
  name ← py_getitem service_info "name";
  table ← py_getitem service_info "table";
  Ok (version ++ "__Update_" ++ py_str name ++ "_" ++ py_str table ++ "_fields.sql").

Definition _generate_migration_file (self : FieldModifier) (now : string)
    (service_info : pyval) (operations : list FieldOperation) (analysis : Analysis)
    : IO unit :=
  io_try
    (let migration_dir := (project_root self ++ migration_path)%list in
     on_live (makedirs migration_dir) ;;;
     fs <<- get_live;
     let next_version := next_version (existing_migrations fs migration_dir) in
     let migration_version := "V" ++ pretty next_version in
     let add_operations := filter (has_action "add") operations in
     let update_operations := filter (has_action "update") operations in
     let remove_operations := filter (has_action "remove") operations in
     let op_counts := (op_count "Add" add_operations ++ op_count "Update" update_operations
                       ++ op_count "Remove" remove_operations)%list in
     let operations_summary := join ", " op_counts in
     if templates_dir_exists self then
       io_lift (get_template self) ;;;
       name <<- io_lift (py_getitem service_info "name");
       table <<- io_lift (py_getitem service_info "table");
       name' <<- io_lift (py_getitem service_info "name");
       description <<- io_lift (py_get service_info "description"
                                  (PStr (py_str name' ++ " service")));
       updated_at <<- io_lift (any_updated_at add_operations);
       migration_content <<- io_lift (render self
         (mkMigrationVars migration_version name table description operations_summary
            now add_operations update_operations remove_operations updated_at));
       migration_filename <<- io_lift (migration_filename migration_version service_info);
       let migration_file := (migration_dir ++ parse_path migration_filename)%list in
       on_live (write_file migration_file migration_content)
     else io_ret tt)
    (fun e => io_raise e).

Definition _apply_field_operations (self : FieldModifier) (now : string)
    (service_info : pyval) (operations : list FieldOperation) (analysis : Analysis)
    : IO unit :=
  io_try
    (_generate_migration_file self now service_info operations analysis ;;;
     update_dependent_files self service_info operations)
    (fun e => io_raise e).

(** The safety errors of all the operations, in order. *)
Fixpoint safety_errors (fs : node) (operations : list FieldOperation)
    (service_info : pyval) (root : path) : result (list string) :=
  match operations with
  | [] => Ok []
  | op :: r =>
      errors ← validate_operation_safety fs op service_info root;
      rest ← safety_errors fs r service_info root;
      Ok (errors ++ rest)%list
  end.

(** [process_field_operations]: [loaded] is what opening and parsing the
    operations file gives, [answers] what the operator types, [now] the
    clock reading. *)
Definition process_field_operations (self : FieldModifier) (loaded : result pyval)
    (answers : list string) (now : string) : IO bool :=
  io_try
    (operations_data <<- io_lift loaded;
     io_lift (_validate_operations_file operations_data) ;;;
     service_info <<- io_lift (py_getitem operations_data "target_service");
     ops <<- io_lift (py_getitem operations_data "field_operations");
     field_operations <<- io_lift (build_operations ops);
     options <<- io_lift (py_get operations_data "options" (PDict []));
     analysis <<- io_lift (analyze_field_operations service_info field_operations);
     fs <<- get_live;
     validation_errors <<- io_lift (safety_errors fs field_operations service_info
                                      (project_root self));
     match validation_errors with
     | _ :: _ => io_ret false
     | [] =>
         dry_run <<- io_lift (py_get options "dry_run" (PBool false));
         if py_truthy dry_run then io_ret true
         else
           auto_confirm <<- io_lift (py_get options "auto_confirm" (PBool false));
           proceed <<- (if negb (py_truthy auto_confirm)
                        then io_lift (confirm_operations answers)
                        else io_ret true);
           if negb proceed then io_ret false
           else
             name <<- io_lift (py_getitem service_info "name");
             backup_id <<- create_backup now name (project_root self);
             io_try
               (_apply_field_operations self now service_info field_operations analysis ;;;
                io_ret true)
               (fun e => restore_backup backup_id ;;; io_ret false)
     end)
    (fun e => io_ret false).

(** ** JavaFileUpdater *)

(** One field of a parsed file, and the parsed file, as [parse_java_file]
    returns them (the entries the rewriting reads). *)
Record FieldInfo : Type := mkFieldInfo {
  fi_name : string;
  fi_type : string;
  fi_annotations : list string;
  fi_javadoc : list string;
  line_number : nat
}.
Record Structure : Type := mkStructure {
  lines : list string;
  fields : list FieldInfo
}.

(** [l.insert(i, x)]: a negative index counts from the end, and an index
    out of range is brought back to the nearest end. *)
Definition py_insert {A : Type} (i : Z) (x : A) (l : list A) : list A :=
  let len := Z.of_nat (length l) in
  let i := if (i <? 0)%Z then Z.max 0 (i + len) else Z.min i len in
  let k := Z.to_nat i in
  (take k l ++ x :: drop k l)%list.

(** [l.pop(i)] for an index in range, [l[i]] with its [IndexError] *)
Definition py_pop {A : Type} (i : nat) (l : list A) : list A :=
  (take i l ++ drop (S i) l)%list.
Definition py_index {A : Type} (l : list A) (i : nat) : result A :=
  match l !! i with
  | Some x => Ok x
  | None => Raise IndexError
  end.

(** [for j, x in enumerate(xs): l.insert(i + j, x)] *)
Fixpoint insert_all {A : Type} (i : Z) (xs : list A) (l : list A) : list A :=
  match xs with
  | [] => l
  | x :: r => insert_all (i + 1) r (py_insert i x l)
  end.

(** [existing_fields]: the last field of a name wins; and the test
    [field_name in existing_fields] for a value read from JSON, where a
    list or a dict cannot be hashed. *)
Definition find_field (fs : list FieldInfo) (name : string) : option FieldInfo :=
  List.find (fun f => String.eqb (fi_name f) name) (rev fs).
Definition existing_field (fs : list FieldInfo) (field_name : pyval)
    : result (option FieldInfo) :=
  match field_name with
  | PStr s => Ok (find_field fs s)
  | PList _ | PDict _ => Raise TypeError
  | _ => Ok None
  end.

Definition _to_camel_case (snake_str : pyval) : result string :=
  match snake_str with
  | PStr s =>
      match split_on "_" s with
      | [] => Raise IndexError
      | c :: r => Ok (c ++ join "" (map capitalize r))
      end
  | _ => Raise AttributeError
  end.
Definition _to_pascal_case (snake_str : pyval) : result string :=
  match snake_str with
  | PStr s => Ok (join "" (map capitalize (split_on "_" s)))
  | _ => Raise AttributeError
  end.

(** [name.replace("_", " ").title()] *)
Definition field_title (name : pyval) : result string :=
  py_str_method (fun s => title (replace_char "_" " " s)) name.

Definition _sql_to_java_type (sql_type : pyval) : result string :=
  base_type ← py_str_method (fun s => upper (List.hd "" (split_on "(" s))) sql_type;
  Ok (if String.eqb base_type "BIGSERIAL" then "Long"
      else if String.eqb base_type "BIGINT" then "Long"
      else if String.eqb base_type "INTEGER" then "Integer"
      else if String.eqb base_type "DECIMAL" then "BigDecimal"
      else if String.eqb base_type "VARCHAR" then "String"
      else if String.eqb base_type "TEXT" then "String"
      else if String.eqb base_type "TIMESTAMP" then "LocalDateTime"
      else if String.eqb base_type "DATE" then "LocalDate"
      else if String.eqb base_type "BOOLEAN" then "Boolean"
      else "String").

(** [a and b] where only the truth of the outcome is used *)
Definition is_not_none (v : pyval) : bool :=
  match v with PNone => false | _ => true end.

Definition _generate_model_field_code (field_data : pyval) : result string :=
  name ← py_getitem field_data "name";
  description ← py_get field_data "description" name;
  let code_lines := ["    /**"; "     * " ++ py_str description; "     */"] in
  primaryKey ← py_get field_data "primaryKey" PNone;
  code_lines ← (if py_truthy primaryKey then
                  let code_lines := py_append code_lines "    @Id" in
                  autoGenerated ← py_get field_data "autoGenerated" PNone;
                  Ok (if py_truthy autoGenerated
                      then py_append code_lines
                             "    @GeneratedValue(strategy = GenerationType.IDENTITY)"
                      else code_lines)
                else Ok code_lines);
  name1 ← py_get field_data "name" PNone;
  created ← (if is_PStr "created_at" name1
             then v ← py_get field_data "autoGenerated" PNone; Ok (py_truthy v)
             else Ok false);
  code_lines ← (if created : bool then Ok (py_append code_lines "    @CreationTimestamp")
                else
                  name2 ← py_get field_data "name" PNone;
                  updated ← (if is_PStr "updated_at" name2
                             then v ← py_get field_data "updateOnModify" PNone;
                                  Ok (py_truthy v)
                             else Ok false);
                  Ok (if updated : bool then py_append code_lines "    @UpdateTimestamp"
                      else code_lines));
  name3 ← py_getitem field_data "name";
  let column_parts := ["name = " ++ dquote ++ py_str name3 ++ dquote] in
  nullable ← py_get field_data "nullable" (PBool true);
  let column_parts := if negb (py_truthy nullable)
                      then py_append column_parts "nullable = false" else column_parts in
  validation0 ← py_get field_data "validation" (PDict []);
  maxLength0 ← py_get validation0 "maxLength" PNone;
  column_parts ← (if py_truthy maxLength0 then
                    v ← py_getitem field_data "validation";
                    m ← py_getitem v "maxLength";
                    Ok (py_append column_parts ("length = " ++ py_str m))
                  else Ok column_parts);
  let code_lines := py_append code_lines ("    @Column(" ++ join ", " column_parts ++ ")") in
  validation ← py_get field_data "validation" (PDict []);
  required ← py_get validation "required" PNone;
  code_lines ← (if py_truthy required then
                  n ← py_getitem field_data "name";
                  t ← field_title n;
                  Ok (py_append code_lines
                        ("    @NotNull(message = " ++ dquote ++ t ++ " is required"
                         ++ dquote ++ ")"))
                else Ok code_lines);
  javaType ← py_getitem field_data "javaType";
  sized ← (if is_PStr "String" javaType
           then v ← py_get validation "maxLength" PNone; Ok (py_truthy v)
           else Ok false);
  code_lines ← (if sized : bool then
                  m ← py_getitem validation "maxLength";
                  n ← py_getitem field_data "name";
                  t ← field_title n;
                  m' ← py_getitem validation "maxLength";
                  Ok (py_append code_lines
                        ("    @Size(max = " ++ py_str m ++ ", message = " ++ dquote ++ t
                         ++ " cannot exceed " ++ py_str m' ++ " characters" ++ dquote ++ ")"))
                else Ok code_lines);
  javaType' ← py_getitem field_data "javaType";
  bounded ← (if is_PStr "BigDecimal" javaType' || is_PStr "Integer" javaType'
                || is_PStr "Long" javaType'
             then v ← py_get validation "min" PNone; Ok (is_not_none v)
             else Ok false);
  code_lines ← (if bounded : bool then
                  m ← py_getitem validation "min";
                  n ← py_getitem field_data "name";
                  t ← field_title n;
                  m' ← py_getitem validation "min";
                  Ok (py_append code_lines
                        ("    @DecimalMin(value = " ++ dquote ++ py_str m ++ dquote
                         ++ ", message = " ++ dquote ++ t ++ " must be at least "
                         ++ py_str m' ++ dquote ++ ")"))
                else Ok code_lines);
  java_type ← py_getitem field_data "javaType";
  n ← py_getitem field_data "name";
  camel_case_name ← _to_camel_case n;
  let code_lines := py_append code_lines
                      ("    private " ++ py_str java_type ++ " " ++ camel_case_name ++ ";") in
  let code_lines := py_append code_lines "" in
  Ok (join newline code_lines).

Definition _get_example_value (field_data : pyval) : result string :=
  java_type ← py_getitem field_data "javaType";
  field_name ← py_getitem field_data "name";
  if is_PStr "String" java_type then
    n ← py_str_method (replace_char "_" " ") field_name;
    Ok ("Sample " ++ n)
  else if is_PStr "BigDecimal" java_type then Ok "100.50"
  else if is_PStr "Integer" java_type || is_PStr "Long" java_type then Ok "1"
  else if is_PStr "Boolean" java_type then Ok "true"
  else if is_PStr "LocalDateTime" java_type then Ok "2024-01-15T10:30:00"
  else if is_PStr "LocalDate" java_type then Ok "2024-01-15"
  else Ok "sample".

Definition _generate_dto_field_code (field_data : pyval) (dto_type : string)
    : result string :=
  name ← py_getitem field_data "name";
  description ← py_get field_data "description" name;
  let code_lines := ["    /**"; "     * " ++ py_str description; "     */"] in
  example_value ← _get_example_value field_data;
  validation0 ← py_get field_data "validation" (PDict []);
  required0 ← py_get validation0 "required" PNone;
  let required := if py_truthy required0 && String.eqb dto_type "request"
                  then "true" else "false" in
  name' ← py_getitem field_data "name";
  description' ← py_get field_data "description" name';
  let code_lines := py_append code_lines
        ("    @Schema(description = " ++ dquote ++ py_str description' ++ dquote ++ ",") in
  let code_lines := py_append code_lines ("            required = " ++ required ++ ",") in
  validation1 ← py_get field_data "validation" (PDict []);
  maxLength1 ← py_get validation1 "maxLength" PNone;
  code_lines ← (if py_truthy maxLength1 then
                  v ← py_getitem field_data "validation";
                  m ← py_getitem v "maxLength";
                  Ok (py_append code_lines ("            maxLength = " ++ py_str m ++ ","))
                else Ok code_lines);
  let code_lines := py_append code_lines
        ("            example = " ++ dquote ++ example_value ++ dquote ++ ")") in
  name'' ← py_getitem field_data "name";
  let code_lines := py_append code_lines
        ("    @JsonProperty(" ++ dquote ++ py_str name'' ++ dquote ++ ")") in
  code_lines ← (if String.eqb dto_type "request" then
      validation ← py_get field_data "validation" (PDict []);
      required ← py_get validation "required" PNone;
      code_lines ← (if py_truthy required then
          n ← py_getitem field_data "name";
          t ← field_title n;
          let code_lines := py_append code_lines
                ("    @NotNull(message = " ++ dquote ++ t ++ " is required" ++ dquote ++ ")") in
          javaType ← py_getitem field_data "javaType";
          if is_PStr "String" javaType then
            n' ← py_getitem field_data "name";
            t' ← field_title n';
            Ok (py_append code_lines
                  ("    @NotBlank(message = " ++ dquote ++ t' ++ " cannot be blank"
                   ++ dquote ++ ")"))
          else Ok code_lines
        else Ok code_lines);
      javaType ← py_getitem field_data "javaType";
      sized ← (if is_PStr "String" javaType
               then v ← py_get validation "maxLength" PNone; Ok (py_truthy v)
               else Ok false);
      if sized : bool then
        m ← py_getitem validation "maxLength";
        n ← py_getitem field_data "name";
        t ← field_title n;
        m' ← py_getitem validation "maxLength";
        Ok (py_append code_lines
              ("    @Size(max = " ++ py_str m ++ ", message = " ++ dquote ++ t
               ++ " cannot exceed " ++ py_str m' ++ " characters" ++ dquote ++ ")"))
      else Ok code_lines
    else Ok code_lines);
  java_type ← py_getitem field_data "javaType";
  n ← py_getitem field_data "name";
  camel_case_name ← _to_camel_case n;
  let code_lines := py_append code_lines
                      ("    private " ++ py_str java_type ++ " " ++ camel_case_name ++ ";") in
  let code_lines := py_append code_lines "" in
  Ok (join newline code_lines).

(** The first line of the block of a field: the annotation, comment and
    blank lines right above [start_line] belong to it. *)
Fixpoint block_start (lines : list string) (start_line : nat) : result nat :=
  match start_line with
  | O => Ok O
  | S k =>
      l ← py_index lines k;
      let t := strip l in
      if startswith t "@" || startswith t "*" || startswith t "/**" || String.eqb t ""
      then block_start lines k
      else Ok start_line
  end.

(** [for _ in range(n): if start < len(lines): lines.pop(start)] *)
Fixpoint pop_n (n : nat) (start : nat) (lines : list string) : list string :=
  match n with
  | O => lines
  | S k => pop_n k start (if (start <? length lines)%nat then py_pop start lines else lines)
  end.

Definition _remove_field_block (lines : list string) (field_info : FieldInfo)
    : result (list string) :=
  start_line ← block_start lines (line_number field_info);
  let end_line := line_number field_info in
  Ok (pop_n (end_line - start_line + 1) start_line lines).

Definition validation_annotations : list string :=
  ["@NotNull"; "@Size"; "@DecimalMin"; "@DecimalMax"].

(** The loop of [_update_field_annotations] that walks up from the line
    above the field: [i] is the number of lines still above. *)
Fixpoint drop_annotations (i : nat) (lines : list string) (field_line : Z)
    : result (list string * Z) :=
  match i with
  | O => Ok (lines, field_line)
  | S k =>
      l ← py_index lines k;
      if startswith (strip l) "@" then
        if existsb (fun anno => contains anno l) validation_annotations
        then drop_annotations k (py_pop k lines) (field_line - 1)
        else drop_annotations k lines field_line
      else Ok (lines, field_line)
  end.

Definition _update_field_annotations (lines : list string) (field_info : FieldInfo)
    (validation : pyval) : result (list string) :=
  let field_line := Z.of_nat (line_number field_info) in
  '(lines, field_line) ← drop_annotations (line_number field_info) lines field_line;
  required ← py_get validation "required" PNone;
  let new_annotations :=
    if py_truthy required
    then ["    @NotNull(message = " ++ dquote ++ "Field is required" ++ dquote ++ ")"]
    else [] in
  maxLength ← py_get validation "maxLength" PNone;
  new_annotations ← (if py_truthy maxLength then
                       m ← py_getitem validation "maxLength";
                       Ok (py_append new_annotations
                             ("    @Size(max = " ++ py_str m ++ ", message = " ++ dquote
                              ++ "Field too long" ++ dquote ++ ")"))
                     else Ok new_annotations);
  Ok (insert_all field_line new_annotations lines).

(** [max] of the line numbers of the fields, as the scan of
    [_apply_model_operations] leaves it: nothing is scanned when there
    is no line. *)
Definition max_field_line (fs : list FieldInfo) : Z :=
  fold_left (fun acc f => if (acc <? Z.of_nat (line_number f))%Z
                          then Z.of_nat (line_number f) else acc) fs (-1)%Z.

(** The line of the class declaration: the last line that has
    [public class] and the entity name. *)
Fixpoint find_class_start (lines : list string) (i : Z) (service_info : pyval)
    (class_start : Z) : result Z :=
  match lines with
  | [] => Ok class_start
  | line :: r =>
      hit ← (if contains "public class" line then
               entity ← py_get service_info "entity" (PStr "");
               match entity with
               | PStr e => Ok (contains e line)
               | _ => Raise TypeError
               end
             else Ok false);
      find_class_start r (i + 1) service_info (if hit : bool then i else class_start)
  end.

Section Rewriting.

(** [re.sub(pattern, replacement, line)], of the regular-expression
    library. *)
Variable re_sub : string -> string -> string -> result string.

(** The state of the loop over the operations: the lines and the
    insertion mark. *)
Definition edit_state : Type := (list string * Z)%type.

(** One turn of the loop of [_apply_model_operations]. *)
Definition model_step (structure : Structure) (class_start : Z) (st : edit_state)
    (operation : FieldOperation) : result edit_state :=
  let '(lines, last_field_line) := st in
  if String.eqb (action operation) "add" then
    field_data ← py_getitem (field_data operation) "field";
    field_code ← _generate_model_field_code field_data;
    let insert_line := if (-1 <? last_field_line)%Z then (last_field_line + 1)%Z
                       else (class_start + 2)%Z in
    let field_lines := split_on (ascii_of_nat 10) field_code in
    Ok (insert_all insert_line field_lines lines,
        (last_field_line + Z.of_nat (length field_lines))%Z)
  else if String.eqb (action operation) "remove" then
    field_name ← py_getitem (field_data operation) "field_name";
    found ← existing_field (fields structure) field_name;
    match found with
    | Some field_info =>
        lines ← _remove_field_block lines field_info;
        Ok (lines, last_field_line)
    | None => Ok st
    end
  else if String.eqb (action operation) "update" then
    field_name ← py_getitem (field_data operation) "field_name";
    changes ← py_getitem (field_data operation) "changes";
    found ← existing_field (fields structure) field_name;
    match found with
    | Some field_info =>
        let field_line := line_number field_info in
        has_type ← py_in "type" changes;
        lines ← (if has_type : bool then
                   ty ← py_getitem changes "type";
                   java_type ← _sql_to_java_type ty;
                   let pattern := "private\s+\w+(?:<.*?>)?\s+" ++ py_str field_name ++ ";" in
                   let replacement := "private " ++ java_type ++ " " ++ py_str field_name ++ ";" in
                   old ← py_index lines field_line;
                   new ← re_sub pattern replacement old;
                   Ok (<[field_line := new]> lines)
                 else Ok lines);
        has_validation ← py_in "validation" changes;
        if has_validation : bool then
          validation ← py_getitem changes "validation";
          lines ← _update_field_annotations lines field_info validation;
          Ok (lines, last_field_line)
        else Ok (lines, last_field_line)
    | None => Ok st
    end
  else Ok st.

Definition _apply_model_operations (structure : Structure)
    (operations : list FieldOperation) (service_info : pyval) : result string :=
  let lines := lines structure in
  class_start ← find_class_start lines 0 service_info (-1);
  let last_field_line := match lines with
                         | [] => (-1)%Z
                         | _ => max_field_line (fields structure)
                         end in
  '(lines, _) ← for_reversed (model_step structure class_start) (lines, last_field_line)
                      operations;
  Ok (join newline lines).

(** One turn of the loop of [_apply_dto_operations]; the class has no
    method [_update_dto_field], so that looking it up for an update of
    an existing field raises. *)
Definition dto_step (structure : Structure) (dto_type : string) (st : edit_state)
    (operation : FieldOperation) : result edit_state :=
  let '(lines, last_field_line) := st in
  if String.eqb (action operation) "add" then
    field_data ← py_getitem (field_data operation) "field";
    skip ← (if String.eqb dto_type "request"
            then v ← py_get field_data "autoGenerated" (PBool false); Ok (py_truthy v)
            else Ok false);
    if skip : bool then Ok st
    else
      field_code ← _generate_dto_field_code field_data dto_type;
      let insert_line := if (-1 <? last_field_line)%Z then (last_field_line + 1)%Z
                         else (Z.of_nat (length lines) - 5)%Z in
      let field_lines := split_on (ascii_of_nat 10) field_code in
      Ok (insert_all insert_line field_lines lines,
          (last_field_line + Z.of_nat (length field_lines))%Z)
  else if String.eqb (action operation) "remove" then
    field_name ← py_getitem (field_data operation) "field_name";
    found ← existing_field (fields structure) field_name;
    match found with
    | Some field_info =>
        lines ← _remove_field_block lines field_info;
        Ok (lines, last_field_line)
    | None => Ok st
    end
  else if String.eqb (action operation) "update" then
    field_name ← py_getitem (field_data operation) "field_name";
    changes ← py_getitem (field_data operation) "changes";
    found ← existing_field (fields structure) field_name;
    match found with
    | Some _ => Raise AttributeError
    | None => Ok st
    end
  else Ok st.

(** The text of the accessor pair, between its triple quotes. *)
Definition getter_setter_text (d java_type pascal camel : string) : string :=
  newline ++
  "    /**" ++ newline ++
  "     * Get " ++ d ++ "." ++ newline ++
  "     * " ++ newline ++
  "     * @return " ++ d ++ newline ++
  "     */" ++ newline ++
  "    public " ++ java_type ++ " get" ++ pascal ++ "() {" ++ newline ++
  "        return " ++ camel ++ ";" ++ newline ++
  "    }" ++ newline ++
  newline ++
  "    /**" ++ newline ++
  "     * Set " ++ d ++ "." ++ newline ++
  "     * " ++ newline ++
  "     * @param " ++ camel ++ " " ++ d ++ newline ++
  "     */" ++ newline ++
  "    public void set" ++ pascal ++ "(" ++ java_type ++ " " ++ camel ++ ") {" ++ newline ++
  "        this." ++ camel ++ " = " ++ camel ++ ";" ++ newline ++
  "    }" ++ newline.

(** One turn of the loop of [_update_dto_methods]; the state holds the
    lines and [class_end]. *)
Definition dto_method_step (dto_type : string) (st : edit_state)
    (operation : FieldOperation) : result edit_state :=
  let '(lines, class_end) := st in
  if String.eqb (action operation) "add" then
    field_data ← py_getitem (field_data operation) "field";
    skip ← (if String.eqb dto_type "request"
            then v ← py_get field_data "autoGenerated" (PBool false); Ok (py_truthy v)
            else Ok false);
    if skip : bool then Ok st
    else
      n ← py_getitem field_data "name";
      camel_case_name ← _to_camel_case n;
      n' ← py_getitem field_data "name";
      pascal_case_name ← _to_pascal_case n';
      java_type ← py_getitem field_data "javaType";
      name ← py_getitem field_data "name";
      description ← py_get field_data "description" name;
      d ← py_str_method lower description;
      let getter_setter :=
        getter_setter_text d (py_str java_type) pascal_case_name camel_case_name in
      let getter_setter_lines := split_on (ascii_of_nat 10) (strip getter_setter) in
      Ok (insert_all class_end getter_setter_lines lines,
          (class_end + Z.of_nat (length getter_setter_lines))%Z)
  else Ok st.

Definition _update_dto_methods (lines : list string) (operations : list FieldOperation)
    (service_info : pyval) (dto_type : string) : result (list string) :=
  let class_end := (Z.of_nat (length lines) - 2)%Z in
  '(lines, _) ← fold_result (dto_method_step dto_type) (lines, class_end) operations;
  Ok lines.

Definition _apply_dto_operations (structure : Structure)
    (operations : list FieldOperation) (service_info : pyval) (dto_type : string)
    : result string :=
  let lines := lines structure in
  let last_field_line := max_field_line (fields structure) in
  '(lines, _) ← for_reversed (dto_step structure dto_type) (lines, last_field_line)
                      operations;
  lines ← _update_dto_methods lines operations service_info dto_type;
  Ok (join newline lines).

(** The line where the method that starts at line [j] ends: braces are
    counted from there on; [suffix] holds the lines from [j] on. *)
Fixpoint method_end (suffix : list string) (j : nat) (brace_count : Z) : nat :=
  match suffix with
  | [] => j
  | l :: r =>
      let brace_count :=
        if contains "{" l then (brace_count + Z.of_nat (count_char "{" l))%Z
        else brace_count in
      if contains "}" l then
        let brace_count := (brace_count - Z.of_nat (count_char "}" l))%Z in
        if (brace_count =? 0)%Z then j else method_end r (S j) brace_count
      else method_end r (S j) brace_count
  end.

(** Where the scan of [_add_field_validation] stops: the first line that
    names a validation method. *)
Fixpoint find_validation_method (lines : list string) (i : nat) : option nat :=
  match lines with
  | [] => None
  | line :: r =>
      if contains "validateCreateRequest" line || contains "validateUpdateRequest" line
      then Some i
      else find_validation_method r (S i)
  end.

Definition _add_field_validation (lines : list string) (field_data : pyval)
    (service_info : pyval) : result (list string) :=
  match find_validation_method lines 0 with
  | None => Ok lines
  | Some i =>
      let j := method_end (drop i lines) i 0 in
      validation ← py_get field_data "validation" (PDict []);
      required ← py_get validation "required" PNone;
      if py_truthy required then
        n ← py_getitem field_data "name";
        camel_case_name ← _to_camel_case n;
        n' ← py_getitem field_data "name";
        field_title ← field_title n';
        javaType ← py_getitem field_data "javaType";
        n2 ← py_getitem field_data "name";
        pascal ← _to_pascal_case n2;
        let validation_code :=
          if is_PStr "String" javaType then
            "        if (!StringUtils.hasText(request.get" ++ pascal ++ "())) {" ++ newline ++
            "            throw new BusinessException(" ++ dquote ++ field_title
              ++ " is required" ++ dquote ++ ");" ++ newline ++
            "        }"
          else
            "        if (request.get" ++ pascal ++ "() == null) {" ++ newline ++
            "            throw new BusinessException(" ++ dquote ++ field_title
              ++ " is required" ++ dquote ++ ");" ++ newline ++
            "        }" in
        Ok (py_insert (Z.of_nat j - 1) validation_code lines)
      else Ok lines
  end.

(** The loop of [_add_field_mapping] over the lines it is inserting
    into: [i] is the position of the iterator.  A line that is pushed
    down by the insertion is met again, so the loop need not end; it
    then eats the memory, which [fuel] measures in turns. *)
Fixpoint add_field_mapping_from (fuel : nat) (i : nat) (lines : list string)
    (field_data : pyval) (service_info : pyval) (pascal_case_name : string)
    : result (list string) :=
  match fuel with
  | O => Raise MemoryError
  | S fuel =>
      match lines !! i with
      | None => Ok lines
      | Some line =>
          if contains "createEntityFromRequest" line
             || contains "updateEntityFromRequest" line
             || contains "convertToResponse" line
          then
            let j := method_end (drop i lines) i 0 in
            creating ← (if contains "createEntityFromRequest" line
                        then v ← py_get field_data "autoGenerated" (PBool false);
                             Ok (negb (py_truthy v))
                        else Ok false);
            if creating : bool then
              entity ← py_get service_info "entity" (PStr "Entity");
              e ← py_str_method lower entity;
              let mapping := "        " ++ e ++ ".set" ++ pascal_case_name
                             ++ "(request.get" ++ pascal_case_name ++ "());" in
              add_field_mapping_from fuel (S i) (py_insert (Z.of_nat j - 1) mapping lines)
                field_data service_info pascal_case_name
            else if contains "convertToResponse" line then
              entity ← py_get service_info "entity" (PStr "Entity");
              e ← py_str_method lower entity;
              let mapping := "        response.set" ++ pascal_case_name ++ "(" ++ e
                             ++ ".get" ++ pascal_case_name ++ "());" in
              add_field_mapping_from fuel (S i) (py_insert (Z.of_nat j - 1) mapping lines)
                field_data service_info pascal_case_name
            else
              add_field_mapping_from fuel (S i) lines field_data service_info pascal_case_name
          else
            add_field_mapping_from fuel (S i) lines field_data service_info pascal_case_name
      end
  end.

Definition _add_field_mapping (fuel : nat) (lines : list string) (field_data : pyval)
    (service_info : pyval) : result (list string) :=
  n ← py_getitem field_data "name";
  camel_case_name ← _to_camel_case n;
  n' ← py_getitem field_data "name";
  pascal_case_name ← _to_pascal_case n';
  add_field_mapping_from fuel 0 lines field_data service_info pascal_case_name.

Definition _remove_field_references (lines : list string) (field_name : pyval)
    : result (list string) :=
  pascal_case_name ← _to_pascal_case field_name;
  Ok (filter (fun line => negb (contains ("get" ++ pascal_case_name ++ "()") line
                                || contains ("set" ++ pascal_case_name ++ "(") line))
             lines).

(** [_update_field_validation] changes no line; its tests can raise. *)
Definition _update_field_validation (lines : list string) (field_name : pyval)
    (changes : pyval) : result (list string) :=
  pascal_case_name ← _to_pascal_case field_name;
  _ ← fold_result (fun (_ : unit) line =>
               if contains ("get" ++ pascal_case_name ++ "()") line then
                 has_validation ← py_in "validation" changes;
                 if has_validation : bool then
                   validation ← py_get changes "validation" (PDict []);
                   _ ← py_in "maxLength" validation;
                   Ok tt
                 else Ok tt
               else Ok tt)
            tt lines;
  Ok lines.

(** One turn of the loop of [_apply_service_operations]. *)
Definition service_step (fuel : nat) (service_info : pyval) (lines : list string)
    (operation : FieldOperation) : result (list string) :=
  if String.eqb (action operation) "add" then
    field_data ← py_getitem (field_data operation) "field";
    validation ← py_get field_data "validation" (PDict []);
    required ← py_get validation "required" PNone;
    lines ← (if py_truthy required then _add_field_validation lines field_data service_info
             else Ok lines);
    _add_field_mapping fuel lines field_data service_info
  else if String.eqb (action operation) "remove" then
    field_name ← py_getitem (field_data operation) "field_name";
    _remove_field_references lines field_name
  else if String.eqb (action operation) "update" then
    field_name ← py_getitem (field_data operation) "field_name";
    changes ← py_getitem (field_data operation) "changes";
    _update_field_validation lines field_name changes
  else Ok lines.

Definition _apply_service_operations (fuel : nat) (structure : Structure)
    (operations : list FieldOperation) (service_info : pyval) : result string :=
  let lines := lines structure in
  lines ← fold_result (service_step fuel service_info) lines operations;
  Ok (join newline lines).

End Rewriting.


(** ** Values for the tests and for the front end *)

Definition _get_test_value (field_data : pyval) : result string :=
  java_type ← py_getitem field_data "javaType";
  if is_PStr "String" java_type then
    name ← py_getitem field_data "name";
    Ok (dquote ++ "test_" ++ py_str name ++ dquote)
  else if is_PStr "Boolean" java_type then Ok "true"
  else if is_PStr "Integer" java_type || is_PStr "Long" java_type then Ok "1"
  else if is_PStr "BigDecimal" java_type
       then Ok ("new BigDecimal(" ++ dquote ++ "100.00" ++ dquote ++ ")")
  else if is_PStr "LocalDateTime" java_type then Ok "LocalDateTime.now()"
  else if is_PStr "LocalDate" java_type then Ok "LocalDate.now()"
  else Ok "null".

(** [mapping.get(java_type, "any")]: a list or a dict cannot be hashed. *)
Definition _java_to_typescript_type (java_type : pyval) : result string :=
  match java_type with
  | PStr s =>
      Ok (if String.eqb s "String" then "string"
          else if String.eqb s "Boolean" then "boolean"
          else if String.eqb s "Integer" then "number"
          else if String.eqb s "Long" then "number"
          else if String.eqb s "BigDecimal" then "number"
          else if String.eqb s "LocalDateTime" then "string"
          else if String.eqb s "LocalDate" then "string"
          else "any")
  | PList _ | PDict _ => Raise TypeError
  | _ => Ok "any"
  end.

(** ** BackupManager: the list of the backups *)



(** ** FieldModifier: the repository, the tests and the front end *)

















(** ** JavaFileUpdater and FieldModifier: the files of a service *)

Section FileRewriting.

(** [re.sub], and the scan of [_extract_fields] for the declarations
    [private <type> <name>;], which rests on the regular-expression
    library. *)
Variable re_sub : string -> string -> string -> result string.
Variable _extract_fields : string -> list FieldInfo.










End FileRewriting.


(** * What the specification says, in the terms of the model *)


Definition primary_key_update_error (f : string) : string :=
  "Cannot modify primary key field: " ++ f.
Definition data_loss_error (f : string) : string :=
  "Type change for field " ++ f ++ " may cause data loss".

(** The first required attribute that the payload of an operation lacks:
    [name], [type] and [javaType] in the field descriptor of an add,
    [field_name] and [changes] for an update, [field_name] for a
    removal. *)
Definition has_key (k : string) (d : list (string * pyval)) : bool :=
  bool_decide (is_Some (assoc k d)).
Definition missing_attribute (a : string) (d : list (string * pyval)) : option string :=
  if String.eqb a "add" then
    match assoc "field" d with
    | Some (PDict fld) => List.find (fun k => negb (has_key k fld)) required_fields
    | _ => Some "name"
    end
  else if String.eqb a "update" then
    if negb (has_key "field_name" d) then Some "field_name"
    else if negb (has_key "changes" d) then Some "changes"
    else None
  else if String.eqb a "remove" then
    if negb (has_key "field_name" d) then Some "field_name" else None
  else None.

(** The condition of the specification for a construction to succeed,
    read on the action string as it is given. *)
Definition claimed_constructible (a : string) (d : list (string * pyval)) : Prop :=
  a ∈ valid_actions /\ missing_attribute a d = None.

(** The descriptor of a field, when the payload has one, is an object. *)
Definition field_is_object (d : list (string * pyval)) : Prop :=
  forall v, assoc "field" d = Some v -> exists fld, v = PDict fld.





(** The entity name of a service, when it is given, is a string. *)
Definition entity_is_string (sd : list (string * pyval)) : Prop :=
  forall v, assoc "entity" sd = Some v -> exists e, v = PStr e.





(** No proper prefix of [p] is a regular file: the directories on the
    way to [p] exist or can be made. *)
Fixpoint no_file_above (p : path) (n : node) : bool :=
  match p with
  | [] => true
  | k :: q =>
      match n with
      | File _ => false
      | Dir m => match m !! k with Some c => no_file_above q c | None => true end
      end
  end.

(** The migration directory of a project holds the entries [m]: it is a
    directory with these entries, or it is not there, can be made, and
    [m] is empty. *)
Definition migration_directory (fs : node) (root : path) (m : gmap string node) : Prop :=
  lookup_path (root ++ migration_path) fs = Some (Dir m)
  \/ (lookup_path (root ++ migration_path) fs = None
      /\ no_file_above (root ++ migration_path) fs = true
      /\ m = ∅).

(** Two paths part ways: at some depth their components differ. *)
Fixpoint diverge (p q : path) : bool :=
  match p, q with
  | a :: p', b :: q' => if String.eqb a b then diverge p' q' else true
  | _, _ => false
  end.

(** A sequence of operations applied one after the other, each to the
    outcome of the one before. *)
Definition applied_in_order {S : Type} (step : S -> FieldOperation -> result S)
    (start : S) (sequence : list FieldOperation) : result S :=
  fold_result step start sequence.

(** The rewriting of the service file as the specification has it: the
    operations applied in the reverse order of the list. *)
Definition claimed_service_rewriting (fuel : nat) (structure : Structure)
    (operations : list FieldOperation) (service_info : pyval) : result string :=
  lines ← applied_in_order (service_step fuel service_info) (lines structure)
            (rev operations);
  Ok (join newline lines).

(** A request has passed every gate of [process_field_operations]: it
    was read, its structure is valid, its operations were built and
    analysed, safety validation found no error, it is not a dry run, and
    it is auto-confirmed or the operator said yes. *)
Definition cleared (self : FieldModifier) (loaded : result pyval) (answers : list string)
    (fs : node) (service_info : pyval) (operations : list FieldOperation)
    (analysis : Analysis) : Prop :=
  exists data ops_json options dry auto,
    loaded = Ok data
    /\ _validate_operations_file data = Ok tt
    /\ py_getitem data "target_service" = Ok service_info
    /\ py_getitem data "field_operations" = Ok ops_json
    /\ build_operations ops_json = Ok operations
    /\ py_get data "options" (PDict []) = Ok options
    /\ analyze_field_operations service_info operations = Ok analysis
    /\ safety_errors fs operations service_info (project_root self) = Ok []
    /\ py_get options "dry_run" (PBool false) = Ok dry
    /\ py_truthy dry = false
    /\ py_get options "auto_confirm" (PBool false) = Ok auto
    /\ (py_truthy auto = true
        \/ (py_truthy auto = false /\ confirm_operations answers = Ok true)).

(** What [process_field_operations] does once the gates are passed: the
    snapshot, the application, and the restoration when the application
    raises. *)
Definition after_gates (self : FieldModifier) (now : string) (service_info : pyval)
    (operations : list FieldOperation) (analysis : Analysis) (name : pyval) : IO bool :=
  fun w =>
    match create_backup now name (project_root self) w with
    | (Ok id, w1) =>
        match _apply_field_operations self now service_info operations analysis w1 with
        | (Ok _, w2) => (Ok true, w2)
        | (Raise _, w2) => (Ok false, snd (restore_backup id w2))
        end
    | (Raise _, w1) => (Ok false, w1)
    end.

(** A service name that is one path component. *)
Definition plain_name (s : string) : Prop :=
  contains "/" s = false /\ s <> "" /\ s <> "." /\ s <> "..".

(** The paths that a snapshot of a service covers, below the project
    root. *)
Definition backed_up_paths (service : string) : list path :=
  [ ["src"; "main"; "java"; "com"; "vira"; service];
    ["src"; "test"; "java"; "com"; "vira"; service];
    ["src"; "main"; "resources"; "frontend"; "api"];
    ["src"; "main"; "resources"; "db"; "migration"] ].

(** Between two states of the live tree, files were modified, deleted or
    added, but nothing that was a directory became a regular file and
    nothing that was a regular file became a directory. *)
Definition kind_preserved (before after : node) : Prop :=
  forall p x y,
    lookup_path p before = Some x -> lookup_path p after = Some y ->
    is_dir_node x = is_dir_node y.

(** The paths of a list part ways two by two. *)
Fixpoint all_diverge (ps : list path) : bool :=
  match ps with
  | [] => true
  | p :: r => forallb (fun q => diverge p q && diverge q p) r && all_diverge r
  end.

(** * Further notions, in which the properties of the code are stated *)

(** The Java types that the SQL types are mapped to. *)
Definition java_types : list string :=
  ["Long"; "Integer"; "BigDecimal"; "String"; "LocalDateTime"; "LocalDate"; "Boolean"].

(** A line that belongs to the block of the field below it: an
    annotation, a line of a comment, or a blank line. *)
Definition above_field (l : string) : bool :=
  let t := strip l in
  startswith t "@" || startswith t "*" || startswith t "/**" || String.eqb t "".

(** A line that carries one of the validation annotations. *)
Definition is_validation_annotation (l : string) : bool :=
  existsb (fun anno => contains anno l) validation_annotations.

(** The annotations that [_update_field_annotations] writes for a
    validation object. *)
Definition new_validation_annotations (v : list (string * pyval)) : list string :=
  let not_null :=
    if py_truthy (default PNone (assoc "required" v))
    then ["    @NotNull(message = " ++ dquote ++ "Field is required" ++ dquote ++ ")"]
    else [] in
  let size :=
    match assoc "maxLength" v with
    | Some m =>
        if py_truthy m
        then ["    @Size(max = " ++ py_str m ++ ", message = " ++ dquote
              ++ "Field too long" ++ dquote ++ ")"]
        else []
    | None => []
    end in
  app not_null size.

(** The lines above a field, read upwards: the run of annotation lines
    right above it, from which the validation annotations are taken out,
    and the lines above that run. *)
Fixpoint annotations_above (upwards : list string) : list string * list string :=
  match upwards with
  | [] => ([], [])
  | l :: r =>
      if startswith (strip l) "@" then
        let '(rest, kept) := annotations_above r in
        (rest, if is_validation_annotation l then kept else (kept ++ [l])%list)
      else (upwards, [])
  end.

(** The accessor lines that [_update_dto_methods] writes for one
    operation: what its loop body puts into a file with no line. *)
Definition accessor_lines (dto_type : string) (operation : FieldOperation)
    : result (list string) :=
  '(lines, _) ← dto_method_step dto_type ([], 0%Z) operation;
  Ok lines.

(** The lines that [_apply_model_operations] writes for an added field. *)
Definition model_field_lines (operation : FieldOperation) : result (list string) :=
  field ← py_getitem (field_data operation) "field";
  field_code ← _generate_model_field_code field;
  Ok (split_on (ascii_of_nat 10) field_code).

(** An update whose payload is well formed: the field name is a string,
    the changes are an object, and so is their validation part when
    there is one. *)
Definition plain_update (op : FieldOperation) : Prop :=
  exists d f ch,
    field_data op = PDict d
    /\ assoc "field_name" d = Some (PStr f)
    /\ assoc "changes" d = Some (PDict ch)
    /\ forall v, assoc "validation" ch = Some v -> exists vd, v = PDict vd.

(** A removal or an update that names a field which the parsed file
    does not have. *)
Definition names_no_field (fs : list FieldInfo) (op : FieldOperation) : Prop :=
  exists d f,
    field_data op = PDict d
    /\ assoc "field_name" d = Some (PStr f)
    /\ find_field fs f = None
    /\ (action op = "remove" \/ (action op = "update" /\ is_Some (assoc "changes" d))).

(** A line that names one of the methods that the rewriting of the
    service file looks for. *)
Definition names_service_method (l : string) : bool :=
  contains "validateCreateRequest" l || contains "validateUpdateRequest" l
  || contains "createEntityFromRequest" l || contains "updateEntityFromRequest" l
  || contains "convertToResponse" l.

(** An addition whose field descriptor is well formed for the service
    file: its name is a string, and its validation part, when there is
    one, is an object. *)
Definition plain_addition (op : FieldOperation) : Prop :=
  exists d fd n,
    action op = "add"
    /\ field_data op = PDict d
    /\ assoc "field" d = Some (PDict fd)
    /\ assoc "name" fd = Some (PStr n)
    /\ forall v, assoc "validation" fd = Some v -> exists vd, v = PDict vd.

(** The lines that [_apply_dto_operations] writes for the field of an
    addition; none for an auto-generated field of a request. *)
Definition dto_field_lines (dto_type : string) (operation : FieldOperation)
    : result (list string) :=
  field ← py_getitem (field_data operation) "field";
  skip ← (if String.eqb dto_type "request"
          then v ← py_get field "autoGenerated" (PBool false); Ok (py_truthy v)
          else Ok false);
  if skip : bool then Ok []
  else
    field_code ← _generate_dto_field_code field dto_type;
    Ok (split_on (ascii_of_nat 10) field_code).

(** The first of the three top-level keys that an operations file lacks. *)
Definition first_missing_key (d : list (string * pyval)) : option string :=
  List.find (fun k => negb (has_key k d))
            ["operation_type"; "target_service"; "field_operations"].

(** An operations file that [_validate_operations_file] accepts. *)
Definition well_formed_request (d : list (string * pyval)) : Prop :=
  assoc "operation_type" d = Some (PStr "modify_service")
  /\ exists target_service field_operations,
       assoc "target_service" d = Some target_service
       /\ py_in "name" target_service = Ok true
       /\ py_in "table" target_service = Ok true
       /\ assoc "field_operations" d = Some field_operations
       /\ py_truthy field_operations = true.


(** A computation that leaves the live tree and every backup but [id]
    as they are, whether it returns or raises. *)
Definition touches_only {A : Type} (id : string) (m : IO A) : Prop :=
  forall w,
    live (snd (m w)) = live w
    /\ forall id', id' <> id -> backups (snd (m w)) !! id' = backups w !! id'.

(** A computation that leaves the backup directory as it is. *)
Definition keeps_backups {A : Type} (m : IO A) : Prop :=
  forall w, backups (snd (m w)) = backups w.



(** A computation that writes nowhere but at the paths [ps]: it leaves
    the backups as they are, and in the live tree everything that is
    apart from these paths. *)
Definition writes_only_at {A : Type} (ps : list path) (m : IO A) : Prop :=
  forall w,
    backups (snd (m w)) = backups w
    /\ forall q, Forall (fun p => diverge p q = true) ps ->
         lookup_path q (live (snd (m w))) = lookup_path q (live w).

(** * Example inputs *)

Definition dir1 (k : string) (n : node) : node := Dir (<[k := n]> ∅).

(** A project whose migration directory holds one file that refers to
    [orders(customer_id)]. *)
Definition orders_project : node :=
  dir1 "src" (dir1 "main" (dir1 "resources" (dir1 "db" (dir1 "migration"
    (dir1 "V1__init.sql" (File "customer BIGINT REFERENCES orders(customer_id),")))))).

Definition orders_service : pyval :=
  PDict [("name", PStr "order"); ("table", PStr "orders"); ("entity", PStr "Order")].

Definition remove_op (f : string) : FieldOperation :=
  mkFieldOperation "remove" (PDict [("action", PStr "remove"); ("field_name", PStr f)]).
Definition update_type_op (f ty : string) : FieldOperation :=
  mkFieldOperation "update"
    (PDict [("action", PStr "update"); ("field_name", PStr f);
            ("changes", PDict [("type", PStr ty)])]).
Definition add_op (field : list (string * pyval)) : FieldOperation :=
  mkFieldOperation "add" (PDict [("action", PStr "add"); ("field", PDict field)]).

Definition discount_rate_field : list (string * pyval) :=
  [("name", PStr "discount_rate"); ("type", PStr "DECIMAL(5,2)");
   ("javaType", PStr "BigDecimal"); ("nullable", PBool false)].
Definition add_discount_rate_payload : list (string * pyval) :=
  [("action", PStr "ADD"); ("field", PDict discount_rate_field)].

(** A modifier rooted at the top of the tree, with a template that
    renders a one-line migration and no further rewriting. *)
Definition plain_modifier : FieldModifier :=
  mkFieldModifier [] true (Ok tt)
    (fun v => Ok ("-- " ++ migration_version v ++ ": " ++ operations_summary v))
    (fun _ _ => io_ret tt).

(** A project with the migrations V1 and V3. *)
Definition two_migrations : gmap string node :=
  <["V1__init.sql" := File "CREATE TABLE orders (id BIGSERIAL);"]>
    (<["V3__add_status.sql" := File "ALTER TABLE orders ADD COLUMN status TEXT;"]> ∅).
Definition versioned_project : World :=
  mkWorld (dir1 "src" (dir1 "main" (dir1 "resources" (dir1 "db"
            (dir1 "migration" (Dir two_migrations)))))) ∅.
Definition empty_analysis : Analysis :=
  mkAnalysis (PStr "order") (PStr "orders") 1 [] [] [] [] [] [].

(** A service class with one conversion method, and two fields to add. *)
Definition order_service_file : Structure := mkStructure
  [ "public class OrderService {";
    "    private Order createEntityFromRequest(OrderRequest request) {";
    "        Order order = new Order();";
    "        return order;";
    "    }";
    "}" ] [].
Definition add_integer_field (name : string) : FieldOperation :=
  add_op [("name", PStr name); ("type", PStr "INTEGER"); ("javaType", PStr "Integer")].

(** A request to add the discount rate, auto-confirmed; the same as a
    dry run; and a modifier whose migration template cannot be loaded. *)
Definition add_request (options : list (string * pyval)) : pyval :=
  PDict [("operation_type", PStr "modify_service");
         ("target_service", orders_service);
         ("field_operations", PList [PDict add_discount_rate_payload]);
         ("options", PDict options)].
Definition confirmed_request : pyval := add_request [("auto_confirm", PBool true)].
Definition dry_run_request : pyval := add_request [("dry_run", PBool true)].
Definition broken_template_modifier : FieldModifier :=
  mkFieldModifier [] true (Raise (TemplateError "migration_alter.sql.j2"))
    (fun v => Ok "") (fun _ _ => io_ret tt).
Definition discount_operations : list FieldOperation :=
  [mkFieldOperation "add" (PDict add_discount_rate_payload)].
Definition discount_analysis : Analysis :=
  Eval vm_compute in
    match analyze_field_operations orders_service discount_operations with
    | Ok a => a
    | Raise _ => empty_analysis
    end.
Definition snapshot_time : string := "20240115_103000".
Definition snapshot_id : string := "field_modification_order_20240115_103000".
Definition after_snapshot : World :=
  Eval vm_compute in snd (create_backup snapshot_time (PStr "order") [] versioned_project).

(** Further inputs: files of the order service, and a modifier
    without templates. *)

(** A model class with two fields, the second one annotated. *)
Definition status_field : FieldInfo :=
  mkFieldInfo "status" "String" ["@Column"; "@Size(max = 50)"] [] 6.
Definition order_model_file : Structure := mkStructure
  [ "public class Order {";
    "    @Id";
    "    private Long id;";
    "";
    "    @Column";
    "    @Size(max = 50)";
    "    private String status;";
    "}" ]
  [ mkFieldInfo "id" "Long" ["@Id"] [] 2; status_field ].
Definition order_model_text : string :=
  Eval vm_compute in join newline (lines order_model_file).

(** A response DTO with one field; the file ends with a line feed. *)
Definition order_response_file : Structure := mkStructure
  [ "public class OrderResponse {";
    "    private Long id;";
    "}";
    "" ]
  [ mkFieldInfo "id" "Long" [] [] 1 ].

(** A service class with none of the methods that the rewriting looks for. *)
Definition bare_service_file : Structure := mkStructure
  [ "public class OrderService {"; "}" ] [].
Definition bare_service_text : string :=
  Eval vm_compute in join newline (lines bare_service_file).
Definition order_service_text : string :=
  Eval vm_compute in join newline (lines order_service_file).

(** A substitution that leaves the line as it is. *)
Definition no_substitution : string -> string -> string -> result string :=
  fun _ _ line => Ok line.

Definition two_additions : list FieldOperation :=
  [add_integer_field "quantity"; add_integer_field "priority"].
Definition orders_service_items : list (string * pyval) :=
  [("name", PStr "order"); ("table", PStr "orders"); ("entity", PStr "Order")].

(** A modifier whose template directory is missing. *)
Definition no_template_modifier : FieldModifier :=
  mkFieldModifier [] false (Ok tt) (fun v => Ok "") (fun _ _ => io_ret tt).



(** * Properties *)

(** Closed string comparisons are evaluated. *)
Ltac eval_eqb :=
  repeat match goal with
         | |- context [String.eqb ?a ?b] =>
             let r := eval vm_compute in (String.eqb a b) in
             change (String.eqb a b) with r
         end;
  cbv iota.

(** ** Strings *)

Lemma prefix_app (p s : string) : String.prefix p (p ++ s) = true.
Proof.
  induction p as [|c p IH]; simpl.
  - now destruct s.
  - destruct (ascii_dec c c) as [_|Hne]; [exact IH | now destruct Hne].
Qed.

Lemma contains_prefix (p s : string) : String.prefix p s = true -> contains p s = true.
Proof. intros H. destruct s; cbn [contains]; rewrite H; reflexivity. Qed.

Lemma contains_app_r (p x s : string) : contains p s = true -> contains p (x ++ s) = true.
Proof.
  intros H. induction x as [|c x IH]; [exact H|].
  change (String c x ++ s) with (String c (x ++ s)). cbn [contains].
  rewrite IH. apply orb_true_r.
Qed.

Lemma contains_middle (p x y : string) : contains p (x ++ p ++ y) = true.
Proof. apply contains_app_r, contains_prefix, prefix_app. Qed.

(** ** The error monad *)

Lemma bind_Ok {A B : Type} (a : A) (f : A -> result B) : (Ok a ≫= f) = f a.
Proof. reflexivity. Qed.

Lemma bind_Raise {A B : Type} (e : exn) (f : A -> result B) : (Raise e ≫= f) = Raise e.
Proof. reflexivity. Qed.

Lemma getitem_assoc (d : list (string * pyval)) (k : string) (v : pyval) :
  assoc k d = Some v -> py_getitem (PDict d) k = Ok v.
Proof. intros H. simpl. now rewrite H. Qed.

Lemma in_dict (d : list (string * pyval)) (k : string) :
  py_in k (PDict d) = Ok (bool_decide (is_Some (assoc k d))).
Proof. reflexivity. Qed.

(** ** Safety validation *)

(** C10: safety validation returns the empty error list for every add
    operation, whatever its field descriptor, the service and the state
    of the project tree. *)
Theorem add_operations_are_never_blocked (fs : node) (operation : FieldOperation)
    (service_info : pyval) (root : path) :
  action operation = "add" ->
  validate_operation_safety fs operation service_info root = Ok [].
Proof.
  intros Ha. unfold validate_operation_safety. rewrite Ha. reflexivity.
Qed.

Lemma lookup_path_app (p q : path) (n : node) :
  lookup_path (p ++ q) n = lookup_path p n ≫= lookup_path q.
Proof.
  revert n. induction p as [|k p IH]; intros n; [reflexivity|].
  simpl. destruct n as [|m]; [reflexivity|].
  destruct (m !! k); [apply IH | reflexivity].
Qed.

Lemma primary_key_string (f : string) :
  _is_primary_key (PStr f) = Ok (bool_decide (lower f ∈ ["id"; "uuid"])).
Proof. reflexivity. Qed.




Lemma validate_update (fs : node) (op : FieldOperation) (d ch : list (string * pyval))
    (f : string) (si : pyval) (root : path) :
  action op = "update" -> field_data op = PDict d ->
  assoc "field_name" d = Some (PStr f) -> assoc "changes" d = Some (PDict ch) ->
  validate_operation_safety fs op si root =
    let errors := if bool_decide (lower f ∈ ["id"; "uuid"])
                  then [primary_key_update_error f] else [] in
    match assoc "type" ch with
    | None => Ok errors
    | Some (PStr ty) =>
        Ok (errors ++ (if contains "VARCHAR" (upper ty) then [] else [data_loss_error f]))%list
    | Some _ => Raise AttributeError
    end.
Proof.
  intros Ha Hd Hf Hc.
  unfold validate_operation_safety. rewrite Ha, Hd. cbn [String.eqb Ascii.eqb Bool.eqb].
  rewrite (getitem_assoc _ _ _ Hf), bind_Ok, (getitem_assoc _ _ _ Hc), bind_Ok.
  rewrite primary_key_string, bind_Ok, in_dict, bind_Ok.
  destruct (assoc "type" ch) as [v|] eqn:Hty.
  - rewrite bool_decide_eq_true_2 by eauto.
    rewrite (getitem_assoc _ _ _ Hty), bind_Ok.
    destruct v; try reflexivity.
    unfold _is_type_change_safe. cbn [py_str_method]. rewrite !bind_Ok.
    destruct (contains "VARCHAR" (upper s)), (bool_decide _); reflexivity.
  - rewrite bool_decide_eq_false_2 by (intros [? ?]; discriminate).
    destruct (bool_decide _); reflexivity.
Qed.





Lemma add_operations_are_never_blocked_witness :
  validate_operation_safety orders_project
    (add_op [("name", PStr "id"); ("type", PStr "BIGINT"); ("javaType", PStr "Long");
             ("nullable", PBool false)])
    orders_service [] = Ok [].
Proof.
  apply add_operations_are_never_blocked. reflexivity.
Defined.

(** ** Construction of a field operation *)

Lemma valid_action_cases (l : string) :
  l ∈ valid_actions -> l = "add" \/ l = "update" \/ l = "remove".
Proof.
  intros H. apply list_elem_of_In in H. simpl in H.
  destruct H as [H|[H|[H|[]]]]; auto.
Qed.

Lemma validate_cases (l : string) (d : list (string * pyval)) :
  field_is_object d ->
  (validate (mkFieldOperation l (PDict d)) = Ok tt
   <-> l ∈ valid_actions /\ missing_attribute l d = None)
  /\ (l ∉ valid_actions ->
      exists msg, validate (mkFieldOperation l (PDict d)) = Raise (ValueError msg)
                  /\ contains l msg = true)
  /\ (forall k, l ∈ valid_actions -> missing_attribute l d = Some k ->
      exists msg, validate (mkFieldOperation l (PDict d)) = Raise (ValueError msg)
                  /\ contains k msg = true).
Proof.
  intros Hobj. unfold validate. cbn [action field_data].
  destruct (bool_decide (l ∈ valid_actions)) eqn:Hv.
  2:{ apply bool_decide_eq_false in Hv. cbn [negb]. split; [split|split].
      - discriminate.
      - intros [Hin _]. contradiction.
      - intros _. eexists; split; [reflexivity|].
        apply (contains_middle l "Invalid action: ").
      - intros k Hin. contradiction. }
  apply bool_decide_eq_true in Hv. cbn [negb].
  assert (Hno : l ∉ valid_actions -> False) by tauto.
  destruct (valid_action_cases l Hv) as [-> | [-> | ->]].
  - (* add *)
    unfold missing_attribute. cbn [String.eqb Ascii.eqb Bool.eqb py_get].
    rewrite bind_Ok.
    destruct (assoc "field" d) as [v|] eqn:Hfield.
    + destruct (Hobj v Hfield) as [fld ->].
      change (default (PDict []) (Some (PDict fld))) with (PDict fld).
      unfold required_fields, has_key. cbn [all_in List.find].
      rewrite !in_dict, !bind_Ok.
      destruct (bool_decide (is_Some (assoc "name" fld)));
        [destruct (bool_decide (is_Some (assoc "type" fld)));
         [destruct (bool_decide (is_Some (assoc "javaType" fld)))|]|];
        cbn; (repeat split; try discriminate; try tauto; try contradiction;
              try (intros [_ ?]; discriminate);
              try (intros k _ [= <-]; eexists; split; reflexivity)).
    + cbn. repeat split; try discriminate; try contradiction.
      * intros [_ ?]; discriminate.
      * intros k _ [= <-]. eexists; split; reflexivity.
  - (* update *)
    unfold missing_attribute, has_key. eval_eqb.
    rewrite !in_dict. cbv beta iota delta [mbind result_bind].
    destruct (bool_decide (is_Some (assoc "field_name" d)));
      [destruct (bool_decide (is_Some (assoc "changes" d)))|]; cbn [negb];
      (split; [split|split]; try discriminate; try tauto; try contradiction;
       try (intros [_ ?]; discriminate);
       try (intros k _ [= <-]; eexists; split; reflexivity)).
  - (* remove *)
    unfold missing_attribute, has_key. eval_eqb.
    rewrite !in_dict. cbv beta iota delta [mbind result_bind].
    destruct (bool_decide (is_Some (assoc "field_name" d))); cbn [negb];
      (split; [split|split]; try discriminate; try tauto; try contradiction;
       try (intros [_ ?]; discriminate);
       try (intros k _ [= <-]; eexists; split; reflexivity)).
Qed.

(** C5, as amended: for an action string and a payload object whose field
    descriptor, if any, is an object, the construction succeeds exactly
    when the lower-cased action is add, update or remove and no required
    attribute is missing; it raises a ValueError that names the
    lower-cased action when that is none of the three, and a ValueError
    that names the first missing attribute otherwise. *)
Theorem construction_succeeds_iff_well_formed (a : string) (d : list (string * pyval)) :
  field_is_object d ->
  (FieldOperation_init (PStr a) (PDict d) = Ok (mkFieldOperation (lower a) (PDict d))
   <-> lower a ∈ valid_actions /\ missing_attribute (lower a) d = None)
  /\ (lower a ∉ valid_actions ->
      exists msg, FieldOperation_init (PStr a) (PDict d) = Raise (ValueError msg)
                  /\ contains (lower a) msg = true)
  /\ (forall k, lower a ∈ valid_actions -> missing_attribute (lower a) d = Some k ->
      exists msg, FieldOperation_init (PStr a) (PDict d) = Raise (ValueError msg)
                  /\ contains k msg = true).
Proof.
  intros Hobj.
  destruct (validate_cases (lower a) d Hobj) as (Hok & Hbad & Hmiss).
  unfold FieldOperation_init. cbn [py_str_method]. rewrite bind_Ok.
  split; [split|split].
  - intros H. apply Hok.
    destruct (validate (mkFieldOperation (lower a) (PDict d))) as [[]|]; [reflexivity|].
    discriminate.
  - intros H. apply Hok in H. rewrite H. reflexivity.
  - intros H. destruct (Hbad H) as (msg & -> & Hc). eauto.
  - intros k Hin Hk. destruct (Hmiss k Hin Hk) as (msg & -> & Hc). eauto.
Qed.

Lemma add_payload_is_object : field_is_object add_discount_rate_payload.
Proof.
  intros v H. vm_compute in H. injection H as <-. eauto.
Qed.

Lemma construction_succeeds_iff_well_formed_witness :
  FieldOperation_init (PStr "ADD") (PDict add_discount_rate_payload)
    = Ok (mkFieldOperation "add" (PDict add_discount_rate_payload)).
Proof.
  apply (construction_succeeds_iff_well_formed "ADD" add_discount_rate_payload
           add_payload_is_object).
  split; [|reflexivity].
  apply list_elem_of_In. simpl. auto.
Defined.

(** C5, as it is written, fails for the action ADD: the construction
    succeeds although the action string is none of add, update and
    remove. *)
Lemma construction_counterexample :
  ~ (is_ok (FieldOperation_init (PStr "ADD") (PDict add_discount_rate_payload)) = true
     <-> claimed_constructible "ADD" add_discount_rate_payload).
Proof.
  intros [H _]. destruct (H eq_refl) as [Hin _].
  apply valid_action_cases in Hin. destruct Hin as [?|[?|?]]; discriminate.
Qed.

(** ** Impact analysis *)













(** ** More on strings *)

Lemma append_cons (c : ascii) (a b : string) : String c a ++ b = String c (a ++ b).
Proof. reflexivity. Qed.

Lemma append_nil_l (a : string) : "" ++ a = a.
Proof. reflexivity. Qed.

Lemma append_assoc (a b c : string) : (a ++ b) ++ c = a ++ b ++ c.
Proof.
  induction a as [|x a IH]; [reflexivity|]. now rewrite !append_cons, IH.
Qed.

Lemma append_nil_r (a : string) : a ++ "" = a.
Proof.
  induction a as [|x a IH]; [reflexivity|]. now rewrite append_cons, IH.
Qed.















(** ** The file tree *)

Lemma lookup_in_empty (p : path) : p <> [] -> lookup_path p (Dir ∅) = None.
Proof. destruct p as [|k q]; [congruence|]. intros _. simpl. now rewrite lookup_empty. Qed.

Lemma no_file_above_empty (p : path) : no_file_above p (Dir ∅) = true.
Proof. destruct p as [|k q]; [reflexivity|]. simpl. now rewrite lookup_empty. Qed.

Lemma lookup_no_file_above (p : path) (n y : node) :
  lookup_path p n = Some y -> no_file_above p n = true.
Proof.
  revert n. induction p as [|k q IH]; intros n H; [reflexivity|].
  simpl in *. destruct n as [|m]; [discriminate|].
  destruct (m !! k) as [c|]; [now apply IH | reflexivity].
Qed.


Lemma write_path_ok (p : path) (x n : node) :
  no_file_above p n = true -> exists n', write_path p x n = Ok n'.
Proof.
  revert n. induction p as [|k q IH]; intros n H; [now eexists|].
  simpl in *. destruct n as [|m]; [discriminate|].
  destruct (IH (default (Dir ∅) (m !! k))) as [c Hc].
  { destruct (m !! k); [exact H | apply no_file_above_empty]. }
  rewrite Hc. now eexists.
Qed.

Lemma lookup_write_eq (p : path) (x n n' : node) :
  write_path p x n = Ok n' -> lookup_path p n' = Some x.
Proof.
  revert n n'. induction p as [|k q IH]; intros n n' H.
  - simpl in H. injection H as ->. reflexivity.
  - simpl in H. destruct n as [|m]; [discriminate|].
    destruct (write_path q x (default (Dir ∅) (m !! k))) as [c|] eqn:Hc; [|discriminate].
    injection H as <-. simpl. rewrite lookup_insert_eq. exact (IH _ _ Hc).
Qed.

Lemma lookup_write_diverge (p p' : path) (x n n' : node) :
  diverge p p' = true -> write_path p x n = Ok n' ->
  lookup_path p' n' = lookup_path p' n.
Proof.
  revert p' n n'. induction p as [|k q IH]; intros p' n n' Hd H; [discriminate|].
  destruct p' as [|k' q']; [discriminate|].
  simpl in H. destruct n as [|m]; [discriminate|].
  destruct (write_path q x (default (Dir ∅) (m !! k))) as [c|] eqn:Hc; [|discriminate].
  injection H as <-. simpl in Hd |- *.
  destruct (String.eqb_spec k k') as [<-|Hne].
  - rewrite lookup_insert_eq. rewrite (IH q' _ _ Hd Hc).
    destruct (m !! k) as [c0|]; [reflexivity|].
    simpl. destruct q'; [destruct q; discriminate|]. simpl. now rewrite lookup_empty.
  - now rewrite lookup_insert_ne.
Qed.

Lemma makedirs_existing (p : path) (n : node) (m : gmap string node) :
  lookup_path p n = Some (Dir m) -> makedirs p n = Ok n.
Proof.
  revert n. induction p as [|k q IH]; intros n H.
  - simpl in H. injection H as ->. reflexivity.
  - simpl in H. destruct n as [|m0]; [discriminate|].
    destruct (m0 !! k) as [c|] eqn:Hk; [|discriminate].
    cbn [makedirs]. rewrite Hk. cbn [default from_option id]. rewrite (IH c H), bind_Ok.
    now rewrite insert_id.
Qed.

Lemma world_eta (w : World) : mkWorld (live w) (backups w) = w.
Proof. now destruct w. Qed.

(** ** The version of the generated migration *)






Lemma makedirs_absent (p : path) (n : node) :
  lookup_path p n = None -> no_file_above p n = true ->
  exists n1, makedirs p n = Ok n1 /\ lookup_path p n1 = Some (Dir ∅).
Proof.
  revert n. induction p as [|k q IH]; intros n Hl Hc; [discriminate|].
  destruct n as [d|m0]; [discriminate|]. cbn [lookup_path no_file_above] in Hl, Hc.
  assert (Hchild : exists c1, makedirs q (default (Dir ∅) (m0 !! k)) = Ok c1
                              /\ lookup_path q c1 = Some (Dir ∅)).
  { destruct (m0 !! k) as [c0|]; [now apply IH|].
    destruct q as [|k' q']; [now exists (Dir ∅)|].
    apply IH; [apply lookup_in_empty; discriminate | apply no_file_above_empty]. }
  destruct Hchild as (c1 & Hmk & Hc1).
  exists (Dir (<[k := c1]> m0)). cbn [makedirs]. rewrite Hmk, bind_Ok.
  split; [reflexivity|]. cbn [lookup_path]. now rewrite lookup_insert_eq.
Qed.

Lemma migration_directory_made (fs : node) (root : path) (m : gmap string node) :
  migration_directory fs root m ->
  exists fs1, makedirs (root ++ migration_path) fs = Ok fs1
              /\ lookup_path (root ++ migration_path) fs1 = Some (Dir m).
Proof.
  intros [Hdir | (Hnone & Hclear & ->)].
  - exists fs. split; [exact (makedirs_existing _ _ _ Hdir) | exact Hdir].
  - exact (makedirs_absent _ _ Hnone Hclear).
Qed.



(** ** The order of the rewriting *)

Lemma fold_result_app {A B : Type} (f : A -> B -> result A) (a : A) (l l' : list B) :
  fold_result f a (l ++ l') = (a' ← fold_result f a l; fold_result f a' l').
Proof.
  revert a. induction l as [|x l IH]; intros a; [reflexivity|].
  cbn [fold_result app]. destruct (f a x) as [a'|e]; [|reflexivity].
  rewrite !bind_Ok. apply IH.
Qed.

Lemma for_reversed_rev {A B : Type} (f : A -> B -> result A) (a : A) (l : list B) :
  for_reversed f a l = fold_result f a (rev l).
Proof.
  induction l as [|x l IH]; [reflexivity|].
  cbn [for_reversed rev]. rewrite fold_result_app, IH.
  destruct (fold_result f a (rev l)) as [a'|e]; [|reflexivity].
  rewrite !bind_Ok. cbn [fold_result]. now destruct (f a' x).
Qed.

(** C9, as amended: the field edits of the model file and of each DTO
    file are applied in the reverse order of the operation list, each to
    the outcome of the one before; the accessor methods of a DTO are then
    added in the order of the list; and the operations on the service
    file are applied in the order of the list. *)
Theorem rewriting_order (re_sub : string -> string -> string -> result string)
    (fuel : nat) (structure : Structure) (operations : list FieldOperation)
    (service_info : pyval) (dto_type : string) :
  _apply_model_operations re_sub structure operations service_info
  = (class_start ← find_class_start (lines structure) 0 service_info (-1);
     '(lines, _) ← applied_in_order (model_step re_sub structure class_start)
                      (lines structure,
                       match lines structure with
                       | [] => (-1)%Z
                       | _ => max_field_line (fields structure)
                       end)
                      (rev operations);
     Ok (join newline lines))
  /\ _apply_dto_operations structure operations service_info dto_type
     = ('(lines, _) ← applied_in_order (dto_step structure dto_type)
                         (lines structure, max_field_line (fields structure))
                         (rev operations);
        '(lines, _) ← applied_in_order (dto_method_step dto_type)
                         (lines, (Z.of_nat (length lines) - 2)%Z) operations;
        Ok (join newline lines))
  /\ _apply_service_operations fuel structure operations service_info
     = (lines ← applied_in_order (service_step fuel service_info) (lines structure)
                  operations;
        Ok (join newline lines)).
Proof.
  unfold applied_in_order. split; [|split].
  - unfold _apply_model_operations.
    destruct (find_class_start (lines structure) 0 service_info (-1)) as [cs|e];
      [|reflexivity].
    rewrite !bind_Ok. now rewrite for_reversed_rev.
  - unfold _apply_dto_operations, _update_dto_methods. rewrite for_reversed_rev.
    destruct (fold_result _ _ (rev operations)) as [[ls mark]|e]; [|reflexivity].
    rewrite !bind_Ok. cbv beta iota.
    destruct (fold_result (dto_method_step dto_type) _ operations) as [[ls' e']|e];
      reflexivity.
  - reflexivity.
Qed.

(** C9, as it is written, fails for the service file: with two fields to
    add, the mapping of the first is inserted first, which is not what
    applying the operations in reverse order gives. *)
Lemma service_rewriting_counterexample :
  _apply_service_operations 100 order_service_file
    [add_integer_field "amount"; add_integer_field "bonus"] orders_service
  <> claimed_service_rewriting 100 order_service_file
       [add_integer_field "amount"; add_integer_field "bonus"] orders_service.
Proof. vm_compute. discriminate. Qed.

(** ** The orchestration *)

(** One more step of a computation is decided. *)
Ltac step x H :=
  match goal with
  | |- context [match ?r with Ok _ => _ | Raise _ => _ end] =>
      destruct r as [x|?] eqn:H
  end; cbv beta iota.

Lemma restore_backup_returns (id : string) (w : World) :
  exists b w', restore_backup id w = (Ok b, w').
Proof.
  unfold restore_backup.
  cbv beta iota zeta delta [io_try io_bind io_lift io_ret get_backups].
  destruct (backups w !! id) as [b|]; [|now eauto].
  destruct (manifest b) as [m|]; [|now eauto].
  destruct (io_for (files_backed_up m) (restore_one b (manifest_project_root m)) w)
    as [[[]|e] w']; eauto.
Qed.

Lemma analysis_needs_name (service_info : pyval) (ops : list FieldOperation)
    (analysis : Analysis) :
  analyze_field_operations service_info ops = Ok analysis ->
  exists name, py_getitem service_info "name" = Ok name.
Proof.
  unfold analyze_field_operations. intros H.
  destruct (py_getitem service_info "name") as [name|]; [eauto | discriminate].
Qed.

(** Every run either passes the gates and goes on with the snapshot, or
    leaves the disk as it was. *)
Lemma process_gates (self : FieldModifier) (loaded : result pyval)
    (answers : list string) (now : string) (w : World) :
  (exists service_info operations analysis name,
      cleared self loaded answers (live w) service_info operations analysis
      /\ py_getitem service_info "name" = Ok name
      /\ process_field_operations self loaded answers now w
         = after_gates self now service_info operations analysis name w)
  \/ (exists b, process_field_operations self loaded answers now w = (Ok b, w)).
Proof.
  unfold process_field_operations.
  cbv beta iota zeta delta [io_try io_bind io_lift io_ret get_live].
  step data Hload; [|now right; eauto].
  step ok Hvalid; [|now right; eauto].
  step service_info Hsi; [|now right; eauto].
  step ops_json Hops; [|now right; eauto].
  step operations Hbuild; [|now right; eauto].
  step options Hopts; [|now right; eauto].
  step analysis Hanalysis; [|now right; eauto].
  step errors Hsafe; [|now right; eauto].
  destruct errors as [|err errs]; [|now right; eauto].
  step dry Hdry; [|now right; eauto].
  destruct (py_truthy dry) eqn:Hdry'; [now right; eauto|].
  step confirmed Hauto; [|now right; eauto].
  destruct (analysis_needs_name _ _ _ Hanalysis) as [name Hname].
  destruct ok.
  assert (Hcleared : py_truthy confirmed = true
                     \/ (py_truthy confirmed = false
                         /\ confirm_operations answers = Ok true) ->
                     cleared self (Ok data) answers (live w) service_info operations
                       analysis).
  { intros Hconf. exists data, ops_json, options, dry, confirmed.
    repeat split; assumption. }
  destruct (py_truthy confirmed) eqn:Hauto'; cbv beta iota delta [negb].
  - left. exists service_info, operations, analysis, name.
    split; [apply Hcleared; now left|]. split; [exact Hname|].
    unfold after_gates. rewrite Hname. cbv beta iota.
    destruct (create_backup now name (project_root self) w) as [[id|e] w1];
      [|reflexivity].
    cbv beta iota.
    destruct (_apply_field_operations self now service_info operations analysis w1)
      as [[[]|e] w2]; [reflexivity|].
    cbv beta iota.
    destruct (restore_backup_returns id w2) as (b & w3 & ->). reflexivity.
  - destruct (confirm_operations answers) as [[|]|e] eqn:Hconf; cbv beta iota delta [negb];
      [|now right; eauto|now right; eauto].
    left. exists service_info, operations, analysis, name.
    split; [apply Hcleared; now right|]. split; [exact Hname|].
    unfold after_gates. rewrite Hname. cbv beta iota.
    destruct (create_backup now name (project_root self) w) as [[id|e] w1];
      [|reflexivity].
    cbv beta iota.
    destruct (_apply_field_operations self now service_info operations analysis w1)
      as [[[]|e] w2]; [reflexivity|].
    cbv beta iota.
    destruct (restore_backup_returns id w2) as (b & w3 & ->). reflexivity.
Qed.

Lemma process_cleared (self : FieldModifier) (loaded : result pyval)
    (answers : list string) (now : string) (w : World) (service_info : pyval)
    (operations : list FieldOperation) (analysis : Analysis) (name : pyval) :
  cleared self loaded answers (live w) service_info operations analysis ->
  py_getitem service_info "name" = Ok name ->
  process_field_operations self loaded answers now w
  = after_gates self now service_info operations analysis name w.
Proof.
  intros (data & ops_json & options & dry & confirmed & Hload & Hvalid & Hsi & Hops
          & Hbuild & Hopts & Han & Hsafe & Hdry & Hdry' & Hauto & Hconf) Hname.
  unfold process_field_operations.
  cbv beta iota zeta delta [io_try io_bind io_lift io_ret get_live].
  rewrite Hload. cbv beta iota. rewrite Hvalid. cbv beta iota.
  rewrite Hsi. cbv beta iota. rewrite Hops. cbv beta iota.
  rewrite Hbuild. cbv beta iota. rewrite Hopts. cbv beta iota.
  rewrite Han. cbv beta iota. rewrite Hsafe. cbv beta iota.
  rewrite Hdry. cbv beta iota. rewrite Hdry'. cbv beta iota.
  rewrite Hauto. cbv beta iota.
  assert (Htail :
    forall proceed : IO bool, proceed w = (Ok true, w) ->
      (let (r, w') :=
         let (r, w') := proceed w in
         match r with
         | Ok a =>
             (if negb a then fun w0 => (Ok false, w0)
              else fun w0 =>
                let (r0, w'0) := (py_getitem service_info "name", w0) in
                match r0 with
                | Ok a0 =>
                    let (r1, w'1) := create_backup now a0 (project_root self) w'0 in
                    match r1 with
                    | Ok a1 =>
                        let (r2, w'2) :=
                          let (r2, w'2) :=
                            _apply_field_operations self now service_info operations
                              analysis w'1 in
                          match r2 with
                          | Ok _ => (Ok true, w'2)
                          | Raise e => (Raise e, w'2)
                          end in
                        match r2 with
                        | Ok a2 => (Ok a2, w'2)
                        | Raise _ =>
                            let (r3, w'3) := restore_backup a1 w'2 in
                            match r3 with
                            | Ok _ => (Ok false, w'3)
                            | Raise e => (Raise e, w'3)
                            end
                        end
                    | Raise e => (Raise e, w'1)
                    end
                | Raise e => (Raise e, w'0)
                end) w'
         | Raise e => (Raise e, w')
         end in
       match r with
       | Ok a => (Ok a, w')
       | Raise _ => (Ok false, w')
       end) = after_gates self now service_info operations analysis name w).
  { intros proceed ->. cbv beta iota delta [negb].
    unfold after_gates. rewrite Hname. cbv beta iota.
    destruct (create_backup now name (project_root self) w) as [[id|e] w1];
      [|reflexivity].
    cbv beta iota.
    destruct (_apply_field_operations self now service_info operations analysis w1)
      as [[[]|e] w2]; [reflexivity|].
    cbv beta iota.
    destruct (restore_backup_returns id w2) as (b & w3 & ->). reflexivity. }
  destruct Hconf as [Ht | [Hf Hyes]].
  - rewrite Ht. cbv beta iota delta [negb]. apply (Htail (fun w => (Ok true, w))).
    reflexivity.
  - rewrite Hf. cbv beta iota delta [negb]. rewrite Hyes.
    apply (Htail (fun w => (Ok true, w))). reflexivity.
Qed.

(** C2: a run of [process_field_operations] either has a request that
    passed every gate (read, structurally valid, built and analysed, no
    safety error, not a dry run, confirmed or auto-confirmed), or ends
    with the live tree and the backups as they were; in particular the
    disk is unchanged when safety validation reports an error, when the
    request is a dry run, and when the operator says no. *)
Theorem no_snapshot_or_mutation_before_clearance (self : FieldModifier)
    (loaded : result pyval) (answers : list string) (now : string) (w : World) :
  let w' := snd (process_field_operations self loaded answers now w) in
  ((exists service_info operations analysis,
       cleared self loaded answers (live w) service_info operations analysis)
   \/ w' = w)
  /\ (forall data service_info ops_json operations errors,
        loaded = Ok data ->
        py_getitem data "target_service" = Ok service_info ->
        py_getitem data "field_operations" = Ok ops_json ->
        build_operations ops_json = Ok operations ->
        safety_errors (live w) operations service_info (project_root self) = Ok errors ->
        errors <> [] ->
        w' = w)
  /\ (forall data options dry,
        loaded = Ok data ->
        py_get data "options" (PDict []) = Ok options ->
        py_get options "dry_run" (PBool false) = Ok dry ->
        py_truthy dry = true ->
        w' = w)
  /\ (forall data options confirmed,
        loaded = Ok data ->
        py_get data "options" (PDict []) = Ok options ->
        py_get options "auto_confirm" (PBool false) = Ok confirmed ->
        py_truthy confirmed = false ->
        confirm_operations answers = Ok false ->
        w' = w).
Proof.
  intros w'. unfold w'.
  destruct (process_gates self loaded answers now w)
    as [(si & ops & an & name & Hc & _ & _) | (b & ->)].
  2:{ cbn [snd]. repeat split; auto. }
  split; [left; eauto|].
  destruct Hc as (data & ops_json & options & dry & confirmed & Hload & Hvalid & Hsi
                  & Hops & Hbuild & Hopts & Han & Hsafe & Hdry & Hdry' & Hauto & Hconf).
  split; [|split].
  - intros data' si' ops_json' ops' errors Hl Hs Ho Hb He Hne.
    exfalso. apply Hne. congruence.
  - intros data' options' dry' Hl Ho Hd Ht. exfalso. congruence.
  - intros data' options' confirmed' Hl Ho Ha Hf Hno. exfalso.
    assert (confirmed' = confirmed) as -> by congruence.
    destruct Hconf as [Ht | [_ Hyes]]; congruence.
Qed.

Lemma no_snapshot_or_mutation_before_clearance_witness :
  snd (process_field_operations plain_modifier (Ok dry_run_request) [] snapshot_time
         versioned_project) = versioned_project.
Proof.
  apply (no_snapshot_or_mutation_before_clearance plain_modifier (Ok dry_run_request) []
           snapshot_time versioned_project)
    with (data := dry_run_request) (options := PDict [("dry_run", PBool true)])
         (dry := PBool true); reflexivity.
Defined.

(** C1: when a request has passed every gate, the snapshot has been
    created, and applying the operations then raises, the run calls
    [restore_backup] with the identifier of that snapshot on the state
    that the failed application left, and returns False whether the
    restoration reports success or failure. *)
Theorem failed_application_is_rolled_back (self : FieldModifier) (loaded : result pyval)
    (answers : list string) (now : string) (w : World) (service_info : pyval)
    (operations : list FieldOperation) (analysis : Analysis) (name : pyval)
    (id : string) (w1 : World) (e : exn) (w2 : World) :
  cleared self loaded answers (live w) service_info operations analysis ->
  py_getitem service_info "name" = Ok name ->
  create_backup now name (project_root self) w = (Ok id, w1) ->
  _apply_field_operations self now service_info operations analysis w1 = (Raise e, w2) ->
  exists restored w3,
    restore_backup id w2 = (Ok restored, w3)
    /\ process_field_operations self loaded answers now w = (Ok false, w3).
Proof.
  intros Hc Hname Hcreate Happly.
  rewrite (process_cleared self loaded answers now w service_info operations analysis
             name Hc Hname).
  unfold after_gates. rewrite Hcreate, Happly.
  destruct (restore_backup_returns id w2) as (restored & w3 & Hr).
  exists restored, w3. split; [exact Hr|]. now rewrite Hr.
Qed.

Lemma confirmed_request_cleared :
  cleared broken_template_modifier (Ok confirmed_request) [] (live versioned_project)
    orders_service discount_operations discount_analysis.
Proof.
  exists confirmed_request, (PList [PDict add_discount_rate_payload]),
    (PDict [("auto_confirm", PBool true)]), (PBool false), (PBool true).
  repeat split; try (vm_compute; reflexivity).
  left. reflexivity.
Qed.

Lemma failed_application_is_rolled_back_witness :
  exists restored w3,
    restore_backup snapshot_id
      (snd (_apply_field_operations broken_template_modifier snapshot_time orders_service
              discount_operations discount_analysis after_snapshot))
      = (Ok restored, w3)
    /\ process_field_operations broken_template_modifier (Ok confirmed_request) []
         snapshot_time versioned_project = (Ok false, w3).
Proof.
  apply (failed_application_is_rolled_back broken_template_modifier (Ok confirmed_request)
           [] snapshot_time versioned_project orders_service discount_operations
           discount_analysis (PStr "order") snapshot_id after_snapshot
           (TemplateError "migration_alter.sql.j2")).
  - exact confirmed_request_cleared.
  - reflexivity.
  - vm_compute. reflexivity.
  - vm_compute. reflexivity.
Defined.

(** ** Snapshots *)


Lemma no_file_above_write_diverge (p p' : path) (x n n' : node) :
  diverge p p' = true -> write_path p x n = Ok n' ->
  no_file_above p' n = true -> no_file_above p' n' = true.
Proof.
  revert p' n n'. induction p as [|k q IH]; intros p' n n' Hd H Hn; [discriminate|].
  destruct p' as [|k' q']; [reflexivity|].
  simpl in H. destruct n as [|m]; [discriminate|].
  destruct (write_path q x (default (Dir ∅) (m !! k))) as [c|] eqn:Hc; [|discriminate].
  injection H as <-. simpl in Hd, Hn |- *.
  destruct (String.eqb_spec k k') as [<-|Hne].
  - rewrite lookup_insert_eq. apply (IH q' _ _ Hd Hc).
    destruct (m !! k); [exact Hn | apply no_file_above_empty].
  - now rewrite lookup_insert_ne.
Qed.

Lemma diverge_app (r p q : path) : diverge (r ++ p) (r ++ q) = diverge p q.
Proof.
  induction r as [|k r IH]; [reflexivity|]. simpl. now rewrite String.eqb_refl.
Qed.

Lemma diverge_nonempty (p q : path) : diverge p q = true -> p <> [] /\ q <> [].
Proof. destruct p, q; simpl; intros H; try discriminate; split; congruence. Qed.

(** Making the directory of [p ++ [k]] first changes nothing to what a
    write at [p ++ [k]] gives. *)
Lemma makedirs_parent (p : path) (k : string) (n : node) :
  no_file_above (p ++ [k]) n = true ->
  exists n1 m1,
    makedirs p n = Ok n1
    /\ lookup_path p n1 = Some (Dir m1)
    /\ lookup_path (p ++ [k]) n1 = lookup_path (p ++ [k]) n
    /\ forall x, write_path (p ++ [k]) x n1 = write_path (p ++ [k]) x n.
Proof.
  revert n. induction p as [|a p IH]; intros n H.
  - destruct n as [|m]; [discriminate|]. exists (Dir m), m. repeat split.
  - cbn [app no_file_above] in H. destruct n as [|m]; [discriminate|].
    destruct (IH (default (Dir ∅) (m !! a))) as (c1 & m1 & Hmk & Hl & Hlk & Hw).
    { destruct (m !! a); [exact H | apply no_file_above_empty]. }
    exists (Dir (<[a := c1]> m)), m1. cbn [makedirs app]. rewrite Hmk, bind_Ok.
    split; [reflexivity|]. cbn [lookup_path]. rewrite lookup_insert_eq.
    split; [exact Hl|]. split.
    + rewrite Hlk. destruct (m !! a); [reflexivity|].
      apply lookup_in_empty. now destruct p.
    + intros x. cbn [write_path]. rewrite lookup_insert_eq.
      change (default (Dir ∅) (Some c1)) with c1. rewrite Hw.
      destruct (write_path (p ++ [k]) x (default (Dir ∅) (m !! a))) as [c|e];
        [|reflexivity].
      rewrite !bind_Ok. now rewrite insert_insert_eq.
Qed.

Lemma lookup_remove_eq (p : path) (n : node) :
  p <> [] -> lookup_path p (remove_path p n) = None.
Proof.
  revert n. induction p as [|k q IH]; intros n Hp; [congruence|].
  destruct n as [d|m]; [now destruct q|].
  destruct q as [|k' q'].
  - simpl. now rewrite lookup_delete_eq.
  - cbn [remove_path]. destruct (m !! k) as [c|] eqn:Hk.
    + cbn [lookup_path]. rewrite lookup_insert_eq. apply IH. congruence.
    + cbn [lookup_path]. now rewrite Hk.
Qed.

Lemma write_path_cons (k : string) (q : path) (x : node) (m : gmap string node) :
  write_path (k :: q) x (Dir m)
  = (c ← write_path q x (default (Dir ∅) (m !! k)); Ok (Dir (<[k := c]> m))).
Proof. reflexivity. Qed.

Lemma remove_path_cons (k : string) (q : path) (m : gmap string node) :
  q <> [] ->
  remove_path (k :: q) (Dir m)
  = match m !! k with
    | Some c => Dir (<[k := remove_path q c]> m)
    | None => Dir m
    end.
Proof. destruct q; [congruence | reflexivity]. Qed.

Lemma write_after_remove (p : path) (x y n : node) :
  p <> [] -> lookup_path p n = Some y ->
  write_path p x (remove_path p n) = write_path p x n.
Proof.
  revert n. induction p as [|k q IH]; intros n Hp Hl; [congruence|].
  destruct n as [d|m]; [discriminate|]. cbn [lookup_path] in Hl.
  destruct (m !! k) as [c|] eqn:Hk; [|discriminate].
  destruct (decide (q = [])) as [->|Hq].
  - cbn [remove_path write_path]. rewrite !bind_Ok. now rewrite insert_delete_eq.
  - rewrite (remove_path_cons k q m Hq), Hk, !write_path_cons, lookup_insert_eq, Hk.
    change (default (Dir ∅) (Some (remove_path q c))) with (remove_path q c).
    change (default (Dir ∅) (Some c)) with c.
    rewrite (IH c Hq Hl).
    destruct (write_path q x c) as [c'|e]; [|reflexivity].
    rewrite !bind_Ok. now rewrite insert_insert_eq.
Qed.

Lemma kind_preserved_no_file_above (a b : node) (p : path) (x : node) :
  kind_preserved a b -> lookup_path p a = Some x -> no_file_above p b = true.
Proof.
  revert a b. induction p as [|k q IH]; intros a b Hk Hl; [reflexivity|].
  destruct a as [d|ma]; [discriminate|]. cbn [lookup_path] in Hl.
  destruct (ma !! k) as [ca|] eqn:Hca; [|discriminate].
  pose proof (Hk [] (Dir ma) b eq_refl eq_refl) as Hroot.
  destruct b as [d|mb]; [discriminate|]. cbn [no_file_above].
  destruct (mb !! k) as [cb|] eqn:Hcb; [|reflexivity].
  apply (IH ca cb); [|exact Hl].
  intros p x' y' Hx Hy. apply (Hk (k :: p)); cbn [lookup_path].
  - now rewrite Hca.
  - now rewrite Hcb.
Qed.

Lemma split_on_nonempty (c : ascii) (s : string) : split_on c s <> [].
Proof.
  induction s as [|d s IH]; [discriminate|]. cbn [split_on].
  destruct (Ascii.eqb c d); [discriminate|]. now destruct (split_on c s).
Qed.

Lemma split_on_app (c : ascii) (a b : string) :
  split_on c (a ++ String c b) = (split_on c a ++ split_on c b)%list.
Proof.
  induction a as [|d a IH].
  - rewrite append_nil_l. cbn [split_on app]. now rewrite Ascii.eqb_refl.
  - rewrite append_cons. cbn [split_on]. destruct (Ascii.eqb c d); [now rewrite IH|].
    rewrite IH. pose proof (split_on_nonempty c a) as Hne.
    now destruct (split_on c a).
Qed.

Lemma split_on_plain (c : ascii) (s : string) :
  contains (String c "") s = false -> split_on c s = [s].
Proof.
  induction s as [|d s IH]; [reflexivity|].
  cbn [contains String.prefix split_on]. intros H.
  apply orb_false_iff in H. destruct H as [Hd Hs].
  destruct (Ascii.eqb_spec c d) as [<-|Hne].
  - destruct (ascii_dec c c) as [_|Hcc]; [|now destruct Hcc]. now destruct s.
  - now rewrite (IH Hs).
Qed.

Lemma parse_path_child (pre name : string) :
  plain_name name ->
  parse_path (pre ++ "/" ++ name) = (parse_path pre ++ [name])%list.
Proof.
  intros (Hslash & Hne & Hdot & _). unfold parse_path.
  change (pre ++ "/" ++ name) with (pre ++ String "/" name).
  rewrite split_on_app, filter_app, (split_on_plain "/" name Hslash).
  f_equal. cbn [filter list_filter].
  destruct (String.eqb_spec name "") as [->|_]; [now destruct Hne|].
  destruct (String.eqb_spec name ".") as [->|_]; [now destruct Hdot|].
  reflexivity.
Qed.

Lemma parse_files_to_backup (name : string) :
  plain_name name ->
  map parse_path (files_to_backup (PStr name)) = backed_up_paths name.
Proof.
  intros Hp. unfold files_to_backup, backed_up_paths. cbn [map py_str].
  change ("src/main/java/com/vira/" ++ name)
    with ("src/main/java/com/vira" ++ "/" ++ name).
  change ("src/test/java/com/vira/" ++ name)
    with ("src/test/java/com/vira" ++ "/" ++ name).
  rewrite !(parse_path_child _ name Hp). reflexivity.
Qed.

Lemma backed_up_paths_diverge (name : string) :
  all_diverge (backed_up_paths name) = true.
Proof. reflexivity. Qed.

Lemma path_snoc (q : path) : q <> [] -> exists p k, q = (p ++ [k])%list.
Proof.
  intros H. destruct (exists_last H) as (p & k & ->). eauto.
Qed.

Lemma parent_snoc (p : path) (k : string) : parent (p ++ [k]) = p.
Proof. apply removelast_last. Qed.

Lemma write_file_as_write_path (q : path) (data : string) (n : node)
    (m : gmap string node) :
  q <> [] -> lookup_path (parent q) n = Some (Dir m) ->
  (forall my, lookup_path q n <> Some (Dir my)) ->
  write_file q data n = write_path q (File data) n.
Proof.
  intros Hq Hp Hl. unfold write_file. rewrite Hp.
  destruct (lookup_path q n) as [[d|my]|]; [now destruct q| |now destruct q].
  now destruct (Hl my).
Qed.

(** One path of a snapshot: what is at the source is put at the same
    place of the snapshot, and the places that part ways with it are not
    touched. *)
Lemma backup_one_spec (id : string) (root : path) (file : string) (w : World)
    (S : node) (mf : option Manifest) :
  backups w !! id = Some (mkBackup S mf) ->
  parse_path file <> [] ->
  lookup_path (parse_path file) S = None ->
  no_file_above (parse_path file) S = true ->
  exists S',
    backup_one id root file w
      = (Ok tt, mkWorld (live w) (<[id := mkBackup S' mf]> (backups w)))
    /\ lookup_path (parse_path file) S' = lookup_path (root ++ parse_path file) (live w)
    /\ forall r, diverge (parse_path file) r = true ->
         lookup_path r S' = lookup_path r S
         /\ (no_file_above r S = true -> no_file_above r S' = true).
Proof.
  intros Hb Hq Hnone Hclear. unfold backup_one.
  cbv beta iota zeta delta [io_bind io_ret get_live].
  set (q := parse_path file) in *.
  destruct (lookup_path (root ++ q) (live w)) as [[data|m]|] eqn:Hsrc.
  - (* a regular file *)
    destruct (path_snoc q Hq) as (p & k & Hpk).
    destruct (makedirs_parent p k S) as (S1 & m1 & Hmk & Hdir & Hsame & Hw).
    { now rewrite <- Hpk. }
    destruct (write_path_ok q (File data) S Hclear) as [S' HS'].
    exists S'. split; [|split].
    + unfold on_snapshot.
      cbv beta iota zeta delta [io_bind io_ret io_raise get_backups set_backup].
      rewrite Hb. cbn [snapshot manifest]. rewrite Hpk, parent_snoc, Hmk.
      cbn [backups live]. rewrite lookup_insert_eq. cbn [snapshot manifest].
      unfold copy2. rewrite Hsame, <- Hpk, Hnone.
      rewrite (write_file_as_write_path q data S1 m1 Hq).
      * rewrite Hpk, Hw, <- Hpk, HS'. cbn [live backups]. now rewrite insert_insert_eq.
      * now rewrite Hpk, parent_snoc.
      * intros my. rewrite Hpk, Hsame, <- Hpk, Hnone. discriminate.
    + exact (lookup_write_eq _ _ _ _ HS').
    + intros r Hr. split.
      * exact (lookup_write_diverge _ _ _ _ _ Hr HS').
      * exact (no_file_above_write_diverge _ _ _ _ _ Hr HS').
  - (* a directory *)
    destruct (path_snoc q Hq) as (p & k & Hpk).
    destruct (makedirs_parent p k S) as (S1 & m1 & Hmk & Hdir & Hsame & Hw).
    { now rewrite <- Hpk. }
    destruct (write_path_ok q (Dir m) S Hclear) as [S' HS'].
    exists S'. split; [|split].
    + unfold on_snapshot.
      cbv beta iota zeta delta [io_bind io_ret io_raise get_backups set_backup].
      rewrite Hb. cbn [snapshot manifest]. rewrite Hpk, parent_snoc, Hmk.
      cbn [backups live]. rewrite lookup_insert_eq. cbn [snapshot manifest].
      unfold copytree. rewrite Hsame, <- Hpk, Hnone.
      rewrite Hpk, Hw, <- Hpk, HS'. cbn [live backups]. now rewrite insert_insert_eq.
    + exact (lookup_write_eq _ _ _ _ HS').
    + intros r Hr. split.
      * exact (lookup_write_diverge _ _ _ _ _ Hr HS').
      * exact (no_file_above_write_diverge _ _ _ _ _ Hr HS').
  - (* nothing there *)
    exists S. split; [|split].
    + f_equal. rewrite insert_id by exact Hb. now rewrite world_eta.
    + exact Hnone.
    + intros r _. split; auto.
Qed.

Lemma all_diverge_cons (p : path) (ps : list path) :
  all_diverge (p :: ps) = true ->
  (forall q, q ∈ ps -> diverge p q = true /\ diverge q p = true)
  /\ all_diverge ps = true.
Proof.
  cbn [all_diverge]. intros H. apply andb_true_iff in H. destruct H as [Hall Hps].
  split; [|exact Hps]. intros q Hq.
  rewrite forallb_forall in Hall. apply list_elem_of_In in Hq.
  specialize (Hall q Hq). now apply andb_true_iff in Hall.
Qed.

Lemma backup_loop (id : string) (root : path) (files : list string) :
  forall (w : World) (S : node) (mf : option Manifest),
    backups w !! id = Some (mkBackup S mf) ->
    all_diverge (map parse_path files) = true ->
    (forall f, f ∈ files ->
       lookup_path (parse_path f) S = None /\ no_file_above (parse_path f) S = true) ->
    exists S',
      io_for files (backup_one id root) w
        = (Ok tt, mkWorld (live w) (<[id := mkBackup S' mf]> (backups w)))
      /\ (forall f, f ∈ files ->
            lookup_path (parse_path f) S'
            = lookup_path (root ++ parse_path f) (live w))
      /\ (forall r, (forall f, f ∈ files -> diverge (parse_path f) r = true) ->
            lookup_path r S' = lookup_path r S).
Proof.
  induction files as [|file files IH]; intros w S mf Hb Hdiv Hfree.
  - exists S. split; [|split].
    + cbn [io_for]. unfold io_ret. f_equal.
      rewrite insert_id by exact Hb. now rewrite world_eta.
    + intros f Hf. now apply not_elem_of_nil in Hf.
    + reflexivity.
  - cbn [map] in Hdiv. apply all_diverge_cons in Hdiv. destruct Hdiv as [Hhead Hrest].
    destruct (Hfree file ltac:(left)) as [Hnone Hclear].
    assert (Hq : parse_path file <> []).
    { intros E. rewrite E in Hnone. discriminate. }
    destruct (backup_one_spec id root file w S mf Hb Hq Hnone Hclear)
      as (S1 & Hrun & Hcopy & Hother).
    set (w1 := mkWorld (live w) (<[id := mkBackup S1 mf]> (backups w))) in *.
    destruct (IH w1 S1 mf) as (S' & Hloop & Hcopies & Hkeep).
    { unfold w1. cbn [backups]. apply lookup_insert_eq. }
    { exact Hrest. }
    { intros f Hf. destruct (Hfree f ltac:(now right)) as [Hn Hc].
      destruct (Hhead (parse_path f)) as [Hd _].
      { apply list_elem_of_fmap. eauto. }
      destruct (Hother _ Hd) as [Hl Hk]. split; [now rewrite Hl | now apply Hk]. }
    exists S'. split; [|split].
    + cbn [io_for]. unfold io_bind at 1. rewrite Hrun, Hloop. unfold w1.
      cbn [live backups]. now rewrite insert_insert_eq.
    + intros f Hf. apply elem_of_cons in Hf. destruct Hf as [->|Hf].
      * rewrite <- Hcopy. apply Hkeep. intros f' Hf'.
        destruct (Hhead (parse_path f')) as [_ Hd]; [|exact Hd].
        apply list_elem_of_fmap. eauto.
      * exact (Hcopies f Hf).
    + intros r Hr. rewrite (Hkeep r).
      * apply (Hother r). apply Hr. left.
      * intros f Hf. apply Hr. now right.
Qed.

Lemma create_backup_spec (now name : string) (root : path) (w : World) :
  plain_name name ->
  backups w !! ("field_modification_" ++ name ++ "_" ++ now) = None ->
  exists S,
    create_backup now (PStr name) root w
      = (Ok ("field_modification_" ++ name ++ "_" ++ now),
         mkWorld (live w)
           (<["field_modification_" ++ name ++ "_" ++ now :=
               mkBackup S
                 (Some (mkManifest ("field_modification_" ++ name ++ "_" ++ now)
                          (PStr name) now (files_to_backup (PStr name)) root))]>
              (backups w)))
    /\ forall p, p ∈ backed_up_paths name ->
         lookup_path p S = lookup_path (root ++ p) (live w).
Proof.
  intros Hplain Hfresh.
  set (id := "field_modification_" ++ name ++ "_" ++ now) in *.
  set (w0 := mkWorld (live w) (<[id := mkBackup (Dir ∅) None]> (backups w))).
  destruct (backup_loop id root (files_to_backup (PStr name)) w0 (Dir ∅) None)
    as (S & Hloop & Hcopies & _).
  { unfold w0. cbn [backups]. apply lookup_insert_eq. }
  { rewrite (parse_files_to_backup name Hplain). apply backed_up_paths_diverge. }
  { intros f Hf.
    assert (Hin : parse_path f ∈ backed_up_paths name).
    { rewrite <- (parse_files_to_backup name Hplain). apply list_elem_of_fmap. eauto. }
    assert (Hne : parse_path f <> []).
    { unfold backed_up_paths in Hin. intros E. rewrite E in Hin.
      apply list_elem_of_In in Hin. simpl in Hin.
      repeat destruct Hin as [Hin|Hin]; try discriminate; contradiction. }
    split; [now apply lookup_in_empty | apply no_file_above_empty]. }
  exists S. split.
  - unfold create_backup. cbn [py_str]. fold id.
    cbv beta iota zeta delta [io_try io_bind io_ret io_raise get_backups set_backup].
    rewrite Hfresh. fold w0. rewrite Hloop. unfold w0. cbn [live backups].
    rewrite lookup_insert_eq. cbn [snapshot live backups].
    now rewrite !insert_insert_eq.
  - intros p Hp. rewrite <- (parse_files_to_backup name Hplain) in Hp.
    apply list_elem_of_fmap in Hp. destruct Hp as (f & -> & Hf).
    exact (Hcopies f Hf).
Qed.

(** One path of a restoration: what the snapshot holds for it replaces
    what is at the target. *)
Lemma restore_one_spec (b : Backup) (root : path) (file : string) (w : World)
    (x : node) :
  lookup_path (parse_path file) (snapshot b) = Some x ->
  parse_path file <> [] ->
  no_file_above (root ++ parse_path file) (live w) = true ->
  (forall y, lookup_path (root ++ parse_path file) (live w) = Some y ->
             is_dir_node y = is_dir_node x) ->
  exists L',
    write_path (root ++ parse_path file) x (live w) = Ok L'
    /\ restore_one b root file w = (Ok tt, mkWorld L' (backups w)).
Proof.
  intros Hsnap Hq Hclear Hkind. unfold restore_one.
  set (q := parse_path file) in *. set (t := (root ++ q)%list) in *.
  assert (Ht : t <> []).
  { unfold t. intros E. apply app_eq_nil in E. now destruct E. }
  destruct (write_path_ok t x (live w) Hclear) as [L' HL'].
  exists L'. split; [exact HL'|]. rewrite Hsnap.
  cbv beta iota zeta delta [io_bind io_ret get_live on_live].
  destruct x as [data|m].
  - (* a regular file *)
    destruct (path_snoc t Ht) as (p & k & Hpk).
    destruct (makedirs_parent p k (live w)) as (L1 & m1 & Hmk & Hdir & Hsame & Hw).
    { now rewrite <- Hpk. }
    rewrite Hpk, parent_snoc, Hmk. cbn [live backups]. unfold copy2.
    assert (Hnodir : forall my, lookup_path (p ++ [k]) L1 <> Some (Dir my)).
    { intros my E. rewrite Hsame, <- Hpk in E. specialize (Hkind _ E). discriminate. }
    assert (Hwf : write_file (p ++ [k]) data L1 = Ok L').
    { rewrite (write_file_as_write_path (p ++ [k]) data L1 m1).
      - rewrite Hw, <- Hpk. exact HL'.
      - now destruct p.
      - now rewrite parent_snoc.
      - exact Hnodir. }
    destruct (lookup_path (p ++ [k]) L1) as [[d|my]|] eqn:E.
    + now rewrite Hwf.
    + now destruct (Hnodir my).
    + now rewrite Hwf.
  - (* a directory *)
    unfold path_exists.
    destruct (lookup_path t (live w)) as [y|] eqn:Hy.
    + rewrite bool_decide_eq_true_2 by eauto.
      specialize (Hkind y eq_refl). destruct y as [d|my]; [discriminate|].
      unfold rmtree. rewrite Hy. cbn [live backups].
      unfold copytree. rewrite (lookup_remove_eq t (live w) Ht).
      rewrite (write_after_remove t (Dir m) (Dir my) (live w) Ht Hy), HL'.
      reflexivity.
    + rewrite bool_decide_eq_false_2 by (intros [? ?]; discriminate).
      unfold copytree. rewrite Hy, HL'. reflexivity.
Qed.

Lemma restore_one_skip (b : Backup) (root : path) (file : string) (w : World) :
  lookup_path (parse_path file) (snapshot b) = None ->
  restore_one b root file w = (Ok tt, w).
Proof. intros H. unfold restore_one. now rewrite H. Qed.

Lemma restore_loop (b : Backup) (root : path) (files : list string) :
  forall w : World,
    all_diverge (map parse_path files) = true ->
    (forall f x, f ∈ files -> lookup_path (parse_path f) (snapshot b) = Some x ->
       parse_path f <> []
       /\ no_file_above (root ++ parse_path f) (live w) = true
       /\ (forall y, lookup_path (root ++ parse_path f) (live w) = Some y ->
                     is_dir_node y = is_dir_node x)) ->
    exists L',
      io_for files (restore_one b root) w = (Ok tt, mkWorld L' (backups w))
      /\ (forall f x, f ∈ files ->
            lookup_path (parse_path f) (snapshot b) = Some x ->
            lookup_path (root ++ parse_path f) L' = Some x)
      /\ (forall r, (forall f, f ∈ files -> diverge (parse_path f) r = true) ->
            lookup_path (root ++ r) L' = lookup_path (root ++ r) (live w)
            /\ (no_file_above (root ++ r) (live w) = true ->
                no_file_above (root ++ r) L' = true)).
Proof.
  induction files as [|file files IH]; intros w Hdiv Hready.
  - exists (live w). split; [|split].
    + cbn [io_for]. unfold io_ret. now rewrite world_eta.
    + intros f x Hf. now apply not_elem_of_nil in Hf.
    + intros r _. split; auto.
  - cbn [map] in Hdiv. apply all_diverge_cons in Hdiv. destruct Hdiv as [Hhead Hrest].
    assert (Hstep : exists L1,
              restore_one b root file w = (Ok tt, mkWorld L1 (backups w))
              /\ (forall x, lookup_path (parse_path file) (snapshot b) = Some x ->
                            lookup_path (root ++ parse_path file) L1 = Some x)
              /\ (forall r, diverge (parse_path file) r = true ->
                    lookup_path (root ++ r) L1 = lookup_path (root ++ r) (live w)
                    /\ (no_file_above (root ++ r) (live w) = true ->
                        no_file_above (root ++ r) L1 = true))).
    { destruct (lookup_path (parse_path file) (snapshot b)) as [x|] eqn:Hsnap.
      - destruct (Hready file x ltac:(left) Hsnap) as (Hq & Hclear & Hkind).
        destruct (restore_one_spec b root file w x Hsnap Hq Hclear Hkind)
          as (L1 & Hw & Hrun).
        exists L1. split; [exact Hrun|]. split.
        + intros x' [= <-]. exact (lookup_write_eq _ _ _ _ Hw).
        + intros r Hr.
          assert (Hd : diverge (root ++ parse_path file) (root ++ r) = true)
            by now rewrite diverge_app.
          split.
          * exact (lookup_write_diverge _ _ _ _ _ Hd Hw).
          * exact (no_file_above_write_diverge _ _ _ _ _ Hd Hw).
      - exists (live w). split.
        + rewrite (restore_one_skip b root file w Hsnap). now rewrite world_eta.
        + split; [discriminate|]. intros r _. split; auto. }
    destruct Hstep as (L1 & Hrun & Hput & Hother).
    destruct (IH (mkWorld L1 (backups w)) Hrest) as (L' & Hloop & Hputs & Hkeep).
    { intros f x Hf Hsnap. cbn [live].
      destruct (Hready f x ltac:(now right) Hsnap) as (Hq & Hclear & Hkind).
      destruct (Hhead (parse_path f)) as [Hd _].
      { apply list_elem_of_fmap. eauto. }
      destruct (Hother _ Hd) as [Hl Hk].
      split; [exact Hq|]. split; [now apply Hk|]. now rewrite Hl. }
    exists L'. split; [|split].
    + cbn [io_for]. unfold io_bind at 1. now rewrite Hrun, Hloop.
    + intros f x Hf Hsnap. apply elem_of_cons in Hf. destruct Hf as [->|Hf].
      * destruct (Hkeep (parse_path file)) as [Hl _].
        { intros f' Hf'. destruct (Hhead (parse_path f')) as [_ Hd]; [|exact Hd].
          apply list_elem_of_fmap. eauto. }
        rewrite Hl. cbn [live]. exact (Hput x Hsnap).
      * exact (Hputs f x Hf Hsnap).
    + intros r Hr.
      destruct (Hkeep r) as [Hl Hk]. { intros f Hf. apply Hr. now right. }
      destruct (Hother r) as [Hl1 Hk1]. { apply Hr. left. }
      cbn [live] in Hl, Hk. split; [now rewrite Hl | auto].
Qed.

Lemma create_backup_taken (now name : string) (root : path) (w : World) (b : Backup) :
  backups w !! ("field_modification_" ++ name ++ "_" ++ now) = Some b ->
  exists e w', create_backup now (PStr name) root w = (Raise e, w').
Proof.
  intros Hb. unfold create_backup. cbn [py_str].
  cbv beta iota zeta delta [io_try io_bind io_ret io_raise get_backups delete_backup].
  rewrite Hb. cbv beta iota. rewrite Hb.
  rewrite bool_decide_eq_true_2 by eauto. eauto.
Qed.

(** C4: when [create_backup] has returned an identifier for a service
    whose name is one path component, the live tree is as it was, and
    whatever happens to the live tree afterwards, short of a directory
    becoming a regular file or the other way round, [restore_backup]
    with that identifier returns True and every file that was under one
    of the backed-up paths at the time of the snapshot is there again
    with the same content. *)
Theorem snapshot_round_trip (now name : string) (root : path) (w : World)
    (id : string) (w1 : World) :
  plain_name name ->
  create_backup now (PStr name) root w = (Ok id, w1) ->
  live w1 = live w
  /\ forall live',
       kind_preserved (live w) live' ->
       exists w2,
         restore_backup id (mkWorld live' (backups w1)) = (Ok true, w2)
         /\ backups w2 = backups w1
         /\ forall p q data,
              p ∈ backed_up_paths name ->
              lookup_path (root ++ p ++ q) (live w) = Some (File data) ->
              lookup_path (root ++ p ++ q) (live w2) = Some (File data).
Proof.
  intros Hplain Hcreate.
  destruct (backups w !! ("field_modification_" ++ name ++ "_" ++ now)) as [b0|] eqn:Hid.
  { destruct (create_backup_taken now name root w b0 Hid) as (e & w' & Hraise).
    rewrite Hraise in Hcreate. discriminate. }
  destruct (create_backup_spec now name root w Hplain Hid) as (S & Hspec & Hcopies).
  rewrite Hspec in Hcreate. injection Hcreate as <- <-.
  split; [reflexivity|]. intros live' Hkind. cbn [live backups].
  set (id := "field_modification_" ++ name ++ "_" ++ now) in *.
  set (m := mkManifest id (PStr name) now (files_to_backup (PStr name)) root).
  set (b := mkBackup S (Some m)).
  set (w' := mkWorld live' (<[id := b]> (backups w))).
  assert (Hparse : forall f, f ∈ files_to_backup (PStr name) ->
                             parse_path f ∈ backed_up_paths name).
  { intros f Hf. rewrite <- (parse_files_to_backup name Hplain).
    apply list_elem_of_fmap. eauto. }
  destruct (restore_loop b root (files_to_backup (PStr name)) w')
    as (L' & Hloop & Hputs & _).
  { rewrite (parse_files_to_backup name Hplain). apply backed_up_paths_diverge. }
  { intros f x Hf Hsnap. cbn [snapshot b] in Hsnap.
    rewrite (Hcopies _ (Hparse f Hf)) in Hsnap. cbn [live w'].
    split; [|split].
    - intros E. specialize (Hparse f Hf). rewrite E in Hparse.
      apply list_elem_of_In in Hparse. simpl in Hparse.
      repeat destruct Hparse as [Hparse|Hparse]; try discriminate; contradiction.
    - exact (kind_preserved_no_file_above _ _ _ _ Hkind Hsnap).
    - intros y Hy. symmetry. exact (Hkind _ _ _ Hsnap Hy). }
  exists (mkWorld L' (backups w')). split; [|split].
  - unfold restore_backup.
    cbv beta iota zeta delta [io_try io_bind io_ret io_lift get_backups].
    unfold w' at 1. cbn [backups]. rewrite lookup_insert_eq.
    cbn [manifest b files_backed_up manifest_project_root m].
    fold m b w'. now rewrite Hloop.
  - reflexivity.
  - intros p q data Hp Hfile. cbn [live].
    rewrite <- (parse_files_to_backup name Hplain) in Hp.
    apply list_elem_of_fmap in Hp. destruct Hp as (f & -> & Hf).
    rewrite app_assoc, lookup_path_app in Hfile |- *.
    destruct (lookup_path (root ++ parse_path f) (live w)) as [x|] eqn:Hx;
      [|discriminate].
    rewrite (Hputs f x Hf).
    + exact Hfile.
    + cbn [snapshot b]. now rewrite (Hcopies _ (Hparse f Hf)).
Qed.

Lemma order_is_plain : plain_name "order".
Proof. repeat split; discriminate. Qed.

Lemma everything_deleted : kind_preserved (live versioned_project) (Dir ∅).
Proof.
  intros p x y Hx Hy. destruct p as [|k p].
  - simpl in Hx, Hy. injection Hx as <-. injection Hy as <-. reflexivity.
  - rewrite lookup_in_empty in Hy by discriminate. discriminate.
Qed.

Lemma snapshot_round_trip_witness :
  exists w2,
    restore_backup snapshot_id (mkWorld (Dir ∅) (backups after_snapshot)) = (Ok true, w2)
    /\ lookup_path ["src"; "main"; "resources"; "db"; "migration"; "V1__init.sql"]
         (live w2)
       = Some (File "CREATE TABLE orders (id BIGSERIAL);").
Proof.
  destruct (snapshot_round_trip snapshot_time "order" [] versioned_project snapshot_id
              after_snapshot order_is_plain) as [_ Hrestore].
  - vm_compute. reflexivity.
  - destruct (Hrestore (Dir ∅) everything_deleted) as (w2 & Hrun & _ & Hfiles).
    exists w2. split; [exact Hrun|].
    apply (Hfiles ["src"; "main"; "resources"; "db"; "migration"] ["V1__init.sql"]).
    + apply list_elem_of_In. simpl. auto.
    + vm_compute. reflexivity.
Defined.

(** * Further properties of the code *)

(** ** The example inputs *)

Lemma orders_entity_is_string : entity_is_string orders_service_items.
Proof.
  intros v. unfold orders_service_items. cbn [assoc String.eqb Ascii.eqb Bool.eqb].
  intros [= <-]. now exists "Order".
Qed.

Lemma type_update_is_plain : plain_update (update_type_op "total" "DECIMAL(10,2)").
Proof.
  exists [("action", PStr "update"); ("field_name", PStr "total");
          ("changes", PDict [("type", PStr "DECIMAL(10,2)")])],
         "total", [("type", PStr "DECIMAL(10,2)")].
  repeat split. intros v. cbn [assoc String.eqb Ascii.eqb Bool.eqb]. discriminate.
Qed.

Lemma total_is_no_field (action_name : string) (payload : list (string * pyval)) :
  assoc "field_name" payload = Some (PStr "total") ->
  action_name = "remove" \/ (action_name = "update" /\ is_Some (assoc "changes" payload)) ->
  names_no_field (fields order_model_file) (mkFieldOperation action_name (PDict payload)).
Proof.
  intros Hf Ha. exists payload, "total". split; [reflexivity|]. split; [exact Hf|].
  split; [reflexivity | exact Ha].
Qed.

Lemma quantity_is_a_plain_addition : plain_addition (add_integer_field "quantity").
Proof.
  exists [("action", PStr "add");
          ("field", PDict [("name", PStr "quantity"); ("type", PStr "INTEGER");
                           ("javaType", PStr "Integer")])],
         [("name", PStr "quantity"); ("type", PStr "INTEGER"); ("javaType", PStr "Integer")],
         "quantity".
  repeat split. intros v. cbn [assoc String.eqb Ascii.eqb Bool.eqb]. discriminate.
Qed.

Lemma contains_char_cons (c d : ascii) (s : string) :
  contains (String c "") (String d s) = Ascii.eqb c d || contains (String c "") s.
Proof.
  cbn [contains String.prefix].
  destruct (ascii_dec c d) as [->|Hne].
  - rewrite Ascii.eqb_refl. now destruct s.
  - now destruct (Ascii.eqb_spec c d).
Qed.

Lemma contains_char_nil (c : ascii) : contains (String c "") "" = false.
Proof. reflexivity. Qed.

Lemma contains_char_app (c : ascii) (a b : string) :
  contains (String c "") (a ++ b) = contains (String c "") a || contains (String c "") b.
Proof.
  induction a as [|d a IH].
  - now rewrite append_nil_l.
  - rewrite append_cons, !contains_char_cons, IH. now rewrite orb_assoc.
Qed.

Lemma split_on_parts (c : ascii) (s : string) :
  Forall (fun w => contains (String c "") w = false) (split_on c s).
Proof.
  induction s as [|d s IH]; cbn [split_on].
  - repeat constructor.
  - destruct (Ascii.eqb_spec c d) as [->|Hne].
    + constructor; [reflexivity | exact IH].
    + pose proof (split_on_nonempty c s) as Hn.
      destruct (split_on c s) as [|w ws]; [now destruct Hn|].
      inversion IH as [|? ? Hw Hws]; subst. constructor; [|exact Hws].
      rewrite contains_char_cons, Hw. now destruct (Ascii.eqb_spec c d).
Qed.

Lemma map_string_keeps_char (f : ascii -> ascii) (c : ascii) (s : string) :
  (forall d, Ascii.eqb c (f d) = Ascii.eqb c d) ->
  contains (String c "") (map_string f s) = contains (String c "") s.
Proof.
  intros Hf. induction s as [|d s IH]; [reflexivity|].
  cbn [map_string]. now rewrite !contains_char_cons, IH, Hf.
Qed.

Lemma upper_char_underscore (d : ascii) : Ascii.eqb "_" (upper_char d) = Ascii.eqb "_" d.
Proof. destruct d as [[] [] [] [] [] [] [] []]; reflexivity. Qed.
Lemma lower_char_underscore (d : ascii) : Ascii.eqb "_" (lower_char d) = Ascii.eqb "_" d.
Proof. destruct d as [[] [] [] [] [] [] [] []]; reflexivity. Qed.

Lemma capitalize_underscore (w : string) :
  contains "_" (capitalize w) = contains "_" w.
Proof.
  destruct w as [|d w]; [reflexivity|]. unfold capitalize.
  rewrite !contains_char_cons, upper_char_underscore. f_equal.
  apply map_string_keeps_char, lower_char_underscore.
Qed.

Lemma join_empty_no_char (c : ascii) (ws : list string) :
  Forall (fun w => contains (String c "") w = false) ws ->
  contains (String c "") (join "" ws) = false.
Proof.
  induction 1 as [|w ws Hw Hws IH]; [reflexivity|].
  destruct ws as [|w' ws']; [exact Hw|].
  change (join "" (w :: w' :: ws')) with (w ++ "" ++ join "" (w' :: ws')).
  rewrite append_nil_l, contains_char_app, Hw, IH. reflexivity.
Qed.

Lemma capitalized_parts (s : string) :
  Forall (fun w => contains "_" w = false) (map capitalize (split_on "_" s)).
Proof.
  apply Forall_map. eapply Forall_impl; [apply split_on_parts|].
  intros w Hw. cbn beta. now rewrite capitalize_underscore.
Qed.

(** X1: [_to_camel_case] returns for every string, never with an [IndexError]; its
    result has no underscore, and converting the result again gives it back. *)
Theorem camel_case_has_no_underscore (s : string) :
  exists r,
    _to_camel_case (PStr s) = Ok r
    /\ contains "_" r = false
    /\ _to_camel_case (PStr r) = Ok r.
Proof.
  unfold _to_camel_case.
  pose proof (split_on_nonempty "_" s) as Hne.
  pose proof (split_on_parts "_" s) as Hparts.
  destruct (split_on "_" s) as [|c0 rest] eqn:Hs; [now destruct Hne|].
  inversion Hparts as [|? ? Hc0 Hrest]; subst.
  assert (Hr : contains "_" (c0 ++ join "" (map capitalize rest)) = false).
  { rewrite contains_char_app, Hc0. cbn [orb].
    apply join_empty_no_char, Forall_map.
    eapply Forall_impl; [exact Hrest|]. intros w Hw. cbn beta.
    now rewrite capitalize_underscore. }
  eexists. split; [reflexivity|]. split; [exact Hr|].
  rewrite (split_on_plain "_" _ Hr). cbn [map join]. now rewrite append_nil_r.
Qed.

(** X2: for every string, the PascalCase name is the camelCase name with its first
    component capitalized (first letter upper case, the others lower case),
    and it has no underscore. *)
Theorem pascal_case_capitalizes_camel_case (s : string) :
  exists first rest,
    split_on "_" s = first :: rest
    /\ _to_camel_case (PStr s) = Ok (first ++ join "" (map capitalize rest))
    /\ _to_pascal_case (PStr s) = Ok (capitalize first ++ join "" (map capitalize rest))
    /\ contains "_" (capitalize first ++ join "" (map capitalize rest)) = false.
Proof.
  unfold _to_camel_case, _to_pascal_case.
  pose proof (split_on_nonempty "_" s) as Hne.
  pose proof (capitalized_parts s) as Hparts.
  destruct (split_on "_" s) as [|c0 rest] eqn:Hs; [now destruct Hne|].
  exists c0, rest. split; [reflexivity|]. split; [reflexivity|].
  assert (Hj : join "" (map capitalize (c0 :: rest))
               = capitalize c0 ++ join "" (map capitalize rest)).
  { cbn [map]. destruct (map capitalize rest) as [|w ws]; [now rewrite append_nil_r|].
    reflexivity. }
  rewrite Hj. split; [reflexivity|].
  rewrite <- Hj. now apply join_empty_no_char.
Qed.

Lemma split_on_map_string (f : ascii -> ascii) (c : ascii) (s : string) :
  (forall d, Ascii.eqb c (f d) = Ascii.eqb c d) ->
  split_on c (map_string f s) = map (map_string f) (split_on c s).
Proof.
  intros Hf. induction s as [|d s IH]; [reflexivity|].
  cbn [map_string split_on]. rewrite Hf, IH.
  destruct (Ascii.eqb c d); [reflexivity|].
  now destruct (split_on c s).
Qed.

Lemma map_string_compose (f g : ascii -> ascii) (s : string) :
  map_string f (map_string g s) = map_string (fun d => f (g d)) s.
Proof. induction s as [|d s IH]; [reflexivity|]. cbn [map_string]. now rewrite IH. Qed.

Lemma map_string_ext (f g : ascii -> ascii) (s : string) :
  (forall d, f d = g d) -> map_string f s = map_string g s.
Proof.
  intros H. induction s as [|d s IH]; [reflexivity|]. cbn [map_string]. now rewrite H, IH.
Qed.

Lemma upper_char_paren (d : ascii) : Ascii.eqb "(" (upper_char d) = Ascii.eqb "(" d.
Proof. destruct d as [[] [] [] [] [] [] [] []]; reflexivity. Qed.
Lemma lower_char_paren (d : ascii) : Ascii.eqb "(" (lower_char d) = Ascii.eqb "(" d.
Proof. destruct d as [[] [] [] [] [] [] [] []]; reflexivity. Qed.
Lemma upper_upper_char (d : ascii) : upper_char (upper_char d) = upper_char d.
Proof. destruct d as [[] [] [] [] [] [] [] []]; reflexivity. Qed.
Lemma upper_lower_char (d : ascii) : upper_char (lower_char d) = upper_char d.
Proof. destruct d as [[] [] [] [] [] [] [] []]; reflexivity. Qed.

Lemma hd_map {A B : Type} (f : A -> B) (a : A) (l : list A) :
  l <> [] -> hd (f a) (map f l) = f (hd a l).
Proof. now destruct l. Qed.

(** The base type of a column type: what [_sql_to_java_type] looks up. *)
Lemma base_type_recased (f : ascii -> ascii) (s : string) :
  (forall d, Ascii.eqb "(" (f d) = Ascii.eqb "(" d) ->
  (forall d, upper_char (f d) = upper_char d) ->
  upper (hd "" (split_on "(" (map_string f s))) = upper (hd "" (split_on "(" s)).
Proof.
  intros Hp Hu. rewrite (split_on_map_string f "(" s Hp).
  change "" with (map_string f "") at 1.
  rewrite (hd_map (map_string f)) by apply split_on_nonempty.
  unfold upper. rewrite map_string_compose. now apply map_string_ext.
Qed.

Lemma base_type_arguments (s args : string) :
  hd "" (split_on "(" (s ++ "(" ++ args)) = hd "" (split_on "(" s).
Proof.
  change (s ++ "(" ++ args) with (s ++ String "(" args).
  rewrite split_on_app. pose proof (split_on_nonempty "(" s) as Hne.
  now destruct (split_on "(" s).
Qed.

Lemma sql_to_java_type_range (s : string) :
  exists j, _sql_to_java_type (PStr s) = Ok j /\ j ∈ java_types.
Proof.
  unfold _sql_to_java_type. cbn [py_str_method]. rewrite bind_Ok.
  eexists. split; [reflexivity|].
  apply list_elem_of_In. unfold java_types.
  repeat match goal with
         | |- context [if ?b then _ else _] => destruct b
         end; simpl; auto 10.
Qed.

(** X3: [_sql_to_java_type] maps every string to one of seven Java types; what
    follows the first opening parenthesis and the letter case of the type do
    not matter. *)
Theorem sql_type_is_read_by_its_base_name (s args : string) :
  exists j,
    _sql_to_java_type (PStr s) = Ok j
    /\ j ∈ java_types
    /\ _sql_to_java_type (PStr (s ++ "(" ++ args)) = Ok j
    /\ _sql_to_java_type (PStr (lower s)) = Ok j
    /\ _sql_to_java_type (PStr (upper s)) = Ok j.
Proof.
  destruct (sql_to_java_type_range s) as (j & Hj & Hin).
  exists j. split; [exact Hj|]. split; [exact Hin|].
  rewrite <- Hj. unfold _sql_to_java_type. cbn [py_str_method]. rewrite !bind_Ok.
  rewrite base_type_arguments.
  pose proof (base_type_recased lower_char s lower_char_paren upper_lower_char) as Hl.
  pose proof (base_type_recased upper_char s upper_char_paren upper_upper_char) as Hu.
  fold (lower s) in Hl. fold (upper s) in Hu. rewrite Hl, Hu. auto.
Qed.

(** X4: every Java type that [_sql_to_java_type] gives is known to the other type
    tables: the TypeScript type is not [any], the Swagger example is not the
    fallback [sample], and the test value is not [null]. *)
Theorem mapped_java_types_are_known (sql_type j n : string) (fd : list (string * pyval)) :
  _sql_to_java_type (PStr sql_type) = Ok j ->
  assoc "javaType" fd = Some (PStr j) ->
  assoc "name" fd = Some (PStr n) ->
  (exists ts, _java_to_typescript_type (PStr j) = Ok ts /\ ts <> "any")
  /\ (exists example, _get_example_value (PDict fd) = Ok example /\ example <> "sample")
  /\ (exists value, _get_test_value (PDict fd) = Ok value /\ value <> "null").
Proof.
  intros Hj Hjt Hn.
  unfold _get_example_value, _get_test_value, _java_to_typescript_type.
  rewrite !(getitem_assoc _ _ _ Hjt), !(getitem_assoc _ _ _ Hn), !bind_Ok.
  cbn [py_str_method py_str is_PStr]. rewrite ?bind_Ok.
  destruct (sql_to_java_type_range sql_type) as (j' & Hj' & Hin).
  rewrite Hj in Hj'. injection Hj' as <-.
  apply list_elem_of_In in Hin. unfold java_types in Hin. simpl in Hin.
  decompose [or] Hin; try contradiction; subst j;
    (split; [|split]); eexists; (split; [vm_compute; reflexivity|]);
    try discriminate.
  all: rewrite ?append_cons; discriminate.
Qed.

Lemma mapped_java_types_are_known_witness :
  (exists ts, _java_to_typescript_type (PStr "BigDecimal") = Ok ts /\ ts <> "any")
  /\ (exists example, _get_example_value (PDict discount_rate_field) = Ok example
                      /\ example <> "sample")
  /\ (exists value, _get_test_value (PDict discount_rate_field) = Ok value
                    /\ value <> "null").
Proof.
  apply (mapped_java_types_are_known "DECIMAL(5,2)" "BigDecimal" "discount_rate");
    reflexivity.
Defined.

Lemma py_insert_in_range {A : Type} (k : nat) (x : A) (l : list A) :
  (k <= length l)%nat -> py_insert (Z.of_nat k) x l = (take k l ++ x :: drop k l)%list.
Proof.
  intros Hk. unfold py_insert.
  destruct (Z.ltb_spec (Z.of_nat k) 0) as [Hneg|_]; [lia|].
  rewrite Z.min_l by lia. now rewrite Nat2Z.id.
Qed.

Lemma insert_all_splice {A : Type} (xs : list A) (k : nat) (l : list A) :
  (k <= length l)%nat ->
  insert_all (Z.of_nat k) xs l = (take k l ++ xs ++ drop k l)%list.
Proof.
  revert k l. induction xs as [|x xs IH]; intros k l Hk.
  - cbn [insert_all app]. now rewrite take_drop.
  - cbn [insert_all]. rewrite (py_insert_in_range k x l Hk).
    replace (Z.of_nat k + 1)%Z with (Z.of_nat (S k)) by lia.
    rewrite IH.
    + assert (Hlen : length (take k l) = k) by (rewrite length_take; lia).
      replace (S k) with (length (take k l) + 1)%nat at 1 by lia.
      rewrite take_app_add'. 2: reflexivity.
      replace (S k) with (length (take k l) + 1)%nat by lia.
      rewrite drop_app_add'. 2: reflexivity.
      cbn [take drop]. rewrite take_0, drop_0. now rewrite <- app_assoc.
    + rewrite length_app, length_take. cbn [length]. rewrite length_drop. lia.
Qed.

Lemma pop_n_spec (n start : nat) (l : list string) :
  pop_n n start l = (take start l ++ drop (start + n) l)%list.
Proof.
  revert l. induction n as [|n IH]; intros l.
  - cbn [pop_n]. now rewrite Nat.add_0_r, take_drop.
  - cbn [pop_n]. rewrite IH. destruct (Nat.ltb_spec start (length l)) as [Hlt|Hge].
    + unfold py_pop.
      assert (Hlen : length (take start l) = start) by (rewrite length_take; lia).
      rewrite take_app_le by lia. rewrite take_take, Nat.min_id.
      rewrite <- Hlen at 2. rewrite drop_app_add'. 2: reflexivity.
      rewrite drop_drop. f_equal. f_equal. lia.
    + rewrite !(drop_ge l) by lia. reflexivity.
Qed.

Lemma block_start_spec (lines : list string) (ln : nat) :
  (ln <= length lines)%nat ->
  exists s,
    block_start lines ln = Ok s
    /\ (s <= ln)%nat
    /\ (forall k l, (s <= k < ln)%nat -> lines !! k = Some l -> above_field l = true)
    /\ (forall l, (0 < s)%nat -> lines !! (s - 1)%nat = Some l -> above_field l = false).
Proof.
  induction ln as [|k IH]; intros Hlen.
  - exists 0%nat. split; [reflexivity|]. split; [lia|]. split; intros; lia.
  - cbn [block_start]. unfold py_index.
    destruct (lines !! k) as [l|] eqn:Hl.
    2:{ apply lookup_ge_None in Hl. lia. }
    rewrite bind_Ok. fold (above_field l).
    destruct (above_field l) eqn:Hab.
    + destruct IH as (s & Hs & Hle & Hblock & Hstop); [lia|].
      exists s. split; [exact Hs|]. split; [lia|]. split; [|exact Hstop].
      intros k' l' Hk' Hl'. destruct (decide (k' = k)) as [->|Hne].
      * rewrite Hl in Hl'. now injection Hl' as <-.
      * apply (Hblock k' l'); [lia | exact Hl'].
    + exists (S k). split; [reflexivity|]. split; [lia|]. split; [intros; lia|].
      intros l' _ Hl'. replace (S k - 1)%nat with k in Hl' by lia.
      rewrite Hl in Hl'. now injection Hl' as <-.
Qed.

Lemma block_start_out_of_range (lines : list string) (ln : nat) :
  (length lines < ln)%nat -> block_start lines ln = Raise IndexError.
Proof.
  intros H. destruct ln as [|k]; [lia|]. cbn [block_start]. unfold py_index.
  rewrite (proj2 (lookup_ge_None lines k)) by lia. reflexivity.
Qed.

(** X5: [_remove_field_block] on a field whose line number is within the file
    removes one run of consecutive lines: the field's line and the annotation,
    comment and blank lines right above it, and nothing else; the line above
    the run, if any, is none of these. With a line number beyond the end of
    the file it raises an [IndexError]. *)
Theorem field_block_is_cut_out (lines : list string) (field_info : FieldInfo) :
  ((line_number field_info <= length lines)%nat
   /\ exists start,
        (start <= line_number field_info)%nat
        /\ _remove_field_block lines field_info
           = Ok (take start lines ++ drop (S (line_number field_info)) lines)%list
        /\ (forall k l, (start <= k < line_number field_info)%nat ->
                        lines !! k = Some l -> above_field l = true)
        /\ (forall l, (0 < start)%nat -> lines !! (start - 1)%nat = Some l ->
                      above_field l = false))
  \/ ((length lines < line_number field_info)%nat
      /\ _remove_field_block lines field_info = Raise IndexError).
Proof.
  destruct (le_lt_dec (line_number field_info) (length lines)) as [Hlen|Hout].
  - left. split; [exact Hlen|].
    destruct (block_start_spec lines (line_number field_info) Hlen)
      as (s & Hs & Hle & Hblock & Hstop).
    exists s. split; [exact Hle|]. split; [|split; assumption].
    unfold _remove_field_block. rewrite Hs, bind_Ok, pop_n_spec.
    do 3 f_equal. lia.
  - right. split; [exact Hout|]. unfold _remove_field_block.
    now rewrite (block_start_out_of_range lines _ Hout).
Qed.

Lemma lookup_middle' {A : Type} (pre suf : list A) (x : A) :
  ((pre ++ [x]) ++ suf)%list !! length pre = Some x.
Proof. rewrite <- app_assoc. apply list_lookup_middle. reflexivity. Qed.

Lemma py_pop_middle {A : Type} (pre suf : list A) (x : A) :
  py_pop (length pre) ((pre ++ [x]) ++ suf) = (pre ++ suf)%list.
Proof.
  unfold py_pop. rewrite <- app_assoc.
  rewrite take_app_length.
  replace (S (length pre)) with (length pre + 1)%nat by lia.
  rewrite drop_app_add'. 2: reflexivity. reflexivity.
Qed.

Lemma drop_annotations_spec (pre suf : list string) (field_line : Z) :
  exists rest kept,
    annotations_above (rev pre) = (rest, kept)
    /\ (length rest + length kept <= length pre)%nat
    /\ drop_annotations (length pre) (pre ++ suf) field_line
       = Ok ((rev rest ++ kept ++ suf)%list,
             (field_line - Z.of_nat (length pre - length rest - length kept))%Z).
Proof.
  revert suf field_line. induction pre as [|l pre IH] using rev_ind; intros suf field_line.
  - exists [], []. split; [reflexivity|]. split; [simpl; lia|].
    cbn. f_equal. f_equal. lia.
  - rewrite rev_app_distr. cbn [rev app annotations_above].
    rewrite length_app. cbn [length]. rewrite Nat.add_1_r.
    cbn [drop_annotations]. unfold py_index. rewrite lookup_middle', bind_Ok.
    destruct (startswith (strip l) "@") eqn:Hat.
    + fold (is_validation_annotation l).
      destruct (is_validation_annotation l) eqn:Hval.
      * rewrite py_pop_middle.
        destruct (IH suf (field_line - 1)%Z) as (rest & kept & Hab & Hlen & Hrun).
        exists rest, kept. rewrite Hab. split; [reflexivity|]. split; [lia|].
        rewrite Hrun. f_equal. f_equal. lia.
      * rewrite <- app_assoc. cbn [app].
        destruct (IH (l :: suf) field_line) as (rest & kept & Hab & Hlen & Hrun).
        exists rest, (kept ++ [l])%list. rewrite Hab. split; [reflexivity|].
        rewrite length_app. cbn [length]. split; [lia|].
        rewrite Hrun. rewrite <- !app_assoc. cbn [app]. f_equal. f_equal. lia.
    + exists (l :: rev pre), []. split; [reflexivity|].
      cbn [length]. rewrite length_rev. split; [lia|].
      cbn [rev app]. rewrite rev_involutive. f_equal. f_equal. lia.
Qed.

(** How [annotations_above] splits the lines above a field. *)
Lemma annotations_above_split (upwards : list string) :
  exists block,
    upwards = (rev block ++ fst (annotations_above upwards))%list
    /\ Forall (fun l => startswith (strip l) "@" = true) block
    /\ snd (annotations_above upwards)
       = filter (fun l => negb (is_validation_annotation l)) block
    /\ match fst (annotations_above upwards) with
       | [] => True
       | l :: _ => startswith (strip l) "@" = false
       end.
Proof.
  induction upwards as [|l r IH].
  - exists []. repeat split; constructor.
  - cbn [annotations_above]. destruct (startswith (strip l) "@") eqn:Hat.
    + destruct IH as (block & Hsplit & Hall & Hkept & Hstop).
      destruct (annotations_above r) as [rest kept]. cbn [fst snd] in *.
      exists (block ++ [l])%list. split.
      { rewrite rev_app_distr. cbn [rev app]. now rewrite <- Hsplit. }
      split.
      { apply Forall_app. split; [exact Hall|]. now repeat constructor. }
      split; [|now destruct (is_validation_annotation l)].
      rewrite filter_app. cbn [filter list_filter].
      destruct (is_validation_annotation l); cbn.
      * rewrite Hkept. now rewrite app_nil_r.
      * now rewrite Hkept.
    + exists []. cbn [fst snd rev app]. split; [reflexivity|].
      split; [constructor|]. split; [reflexivity | exact Hat].
Qed.

(** X6: [_update_field_annotations], for a field within the file and a validation
    object, changes only the run of annotation lines right above the field:
    the lines with [@NotNull], [@Size], [@DecimalMin] or [@DecimalMax] are
    dropped from it, the other annotations stay, and the new annotations are
    put right above the field; the lines before the run, the field's line and
    the lines below are as they were. *)
Theorem validation_annotations_are_replaced (lines : list string) (field_info : FieldInfo)
    (v : list (string * pyval)) :
  (line_number field_info <= length lines)%nat ->
  exists above block,
    take (line_number field_info) lines = (above ++ block)%list
    /\ Forall (fun l => startswith (strip l) "@" = true) block
    /\ (forall l, last above = Some l -> startswith (strip l) "@" = false)
    /\ _update_field_annotations lines field_info (PDict v)
       = Ok (above ++ filter (fun l => negb (is_validation_annotation l)) block
             ++ new_validation_annotations v
             ++ drop (line_number field_info) lines)%list.
Proof.
  intros Hlen. set (ln := line_number field_info) in *.
  destruct (annotations_above_split (rev (take ln lines)))
    as (block & Hsplit & Hall & Hkept & Hstop).
  destruct (drop_annotations_spec (take ln lines) (drop ln lines) (Z.of_nat ln))
    as (rest & kept & Hab & Hle & Hrun).
  rewrite take_drop, length_take, Nat.min_l in Hrun by exact Hlen.
  rewrite Hab in Hsplit, Hkept, Hstop. cbn [fst snd] in Hsplit, Hkept, Hstop.
  assert (Htake : take ln lines = (rev rest ++ block)%list).
  { rewrite <- (rev_involutive (take ln lines)), Hsplit, rev_app_distr.
    now rewrite rev_involutive. }
  exists (rev rest), block. split; [exact Htake|]. split; [exact Hall|]. split.
  { intros l Hl. destruct rest as [|a rest']; [discriminate|].
    cbn [rev] in Hl. rewrite last_snoc in Hl. injection Hl as <-. exact Hstop. }
  unfold _update_field_annotations. fold ln. rewrite Hrun, bind_Ok.
  cbv beta iota. cbn [py_get]. rewrite !bind_Ok.
  assert (Hpos : (Z.of_nat ln - Z.of_nat (ln - length rest - length kept)
                  = Z.of_nat (length (rev rest ++ kept)))%Z).
  { rewrite length_app, length_rev.
    assert (length (take ln lines) = ln) by (rewrite length_take; lia).
    lia. }
  assert (Hsplice : forall new,
    insert_all (Z.of_nat ln - Z.of_nat (ln - length rest - length kept)) new
      (rev rest ++ kept ++ drop ln lines)
    = (rev rest ++ kept ++ new ++ drop ln lines)%list).
  { intros new. rewrite Hpos, insert_all_splice.
    - rewrite (app_assoc (rev rest) kept), take_app_length, drop_app_length.
      now rewrite <- app_assoc.
    - rewrite !length_app. lia. }
  unfold new_validation_annotations. cbv zeta. rewrite <- Hkept.
  destruct (assoc "maxLength" v) as [m|] eqn:Hm.
  - change (default PNone (Some m)) with m.
    destruct (py_truthy m) eqn:Htm.
    + rewrite (getitem_assoc _ _ _ Hm), !bind_Ok. unfold py_append. now rewrite Hsplice.
    + rewrite bind_Ok. now rewrite Hsplice, app_nil_r.
  - change (py_truthy (default PNone None)) with false. cbv iota.
    rewrite bind_Ok. now rewrite Hsplice, app_nil_r.
Qed.

Lemma validation_annotations_are_replaced_witness :
  exists above block,
    take 6 (lines order_model_file) = (above ++ block)%list
    /\ Forall (fun l => startswith (strip l) "@" = true) block
    /\ (forall l, last above = Some l -> startswith (strip l) "@" = false)
    /\ _update_field_annotations (lines order_model_file) status_field
         (PDict [("maxLength", PInt 80)])
       = Ok (above ++ filter (fun l => negb (is_validation_annotation l)) block
             ++ new_validation_annotations [("maxLength", PInt 80)]
             ++ drop 6 (lines order_model_file))%list.
Proof.
  apply (validation_annotations_are_replaced (lines order_model_file) status_field
           [("maxLength", PInt 80)]).
  cbn. lia.
Defined.

Lemma dto_method_step_splice (dto_type : string) (lines : list string) (k : nat)
    (operation : FieldOperation) :
  (k <= length lines)%nat ->
  dto_method_step dto_type (lines, Z.of_nat k) operation
  = block ← accessor_lines dto_type operation;
    Ok ((take k lines ++ block ++ drop k lines)%list, Z.of_nat (k + length block)).
Proof.
  intros Hk. unfold accessor_lines, dto_method_step.
  destruct (String.eqb (action operation) "add").
  2:{ rewrite !bind_Ok. cbn [app length]. now rewrite take_drop, Nat.add_0_r. }
  destruct (py_getitem (field_data operation) "field") as [fd|]; [|reflexivity].
  rewrite !bind_Ok.
  destruct (if String.eqb dto_type "request"
            then v ← py_get fd "autoGenerated" (PBool false); Ok (py_truthy v)
            else Ok false) as [[|]|]; rewrite ?bind_Ok, ?bind_Raise; try reflexivity.
  { cbn [app length]. now rewrite take_drop, Nat.add_0_r. }
  destruct (py_getitem fd "name") as [n|]; [|reflexivity]. rewrite !bind_Ok.
  destruct (_to_camel_case n) as [camel|]; [|reflexivity]. rewrite !bind_Ok.
  destruct (_to_pascal_case n) as [pascal|]; [|reflexivity]. rewrite !bind_Ok.
  destruct (py_getitem fd "javaType") as [jt|]; [|reflexivity]. rewrite !bind_Ok.
  destruct (py_get fd "description" n) as [desc|]; [|reflexivity]. rewrite !bind_Ok.
  destruct (py_str_method lower desc) as [d|]; [|reflexivity]. rewrite !bind_Ok.
  change 0%Z with (Z.of_nat 0).
  rewrite !insert_all_splice by (simpl; lia).
  cbn [take drop app]. rewrite app_nil_r.
  do 2 f_equal. lia.
Qed.

Lemma dto_methods_loop (dto_type : string) (ops : list FieldOperation)
    (pre suf : list string) :
  fold_result (dto_method_step dto_type) ((pre ++ suf)%list, Z.of_nat (length pre)) ops
  = blocks ← map_result (accessor_lines dto_type) ops;
    Ok ((pre ++ concat blocks ++ suf)%list,
        Z.of_nat (length pre + length (concat blocks))).
Proof.
  revert pre. induction ops as [|op ops IH]; intros pre.
  - cbn [fold_result map_result]. rewrite bind_Ok. cbn [concat app length].
    now rewrite Nat.add_0_r.
  - cbn [fold_result map_result].
    rewrite dto_method_step_splice by (rewrite length_app; lia).
    rewrite take_app_length, drop_app_length.
    destruct (accessor_lines dto_type op) as [block|e]; [|reflexivity].
    rewrite !bind_Ok.
    replace (length pre + length block)%nat with (length (pre ++ block)) by
      now rewrite length_app.
    rewrite (app_assoc pre block suf), IH.
    destruct (map_result (accessor_lines dto_type) ops) as [blocks|e]; [|reflexivity].
    rewrite !bind_Ok. cbn [concat]. rewrite !length_app, <- !app_assoc.
    do 2 f_equal. lia.
Qed.

(** X7: [_update_dto_methods] on a file of at least two lines puts the accessor
    lines of the operations, in the order of the list, before the last two
    lines of the file, leaves every other line where it was, and raises
    exactly when writing the accessors of an operation raises. *)
Theorem accessors_are_inserted_in_list_order (dto_type : string) (lines : list string)
    (ops : list FieldOperation) (service_info : pyval) :
  (2 <= length lines)%nat ->
  _update_dto_methods lines ops service_info dto_type
  = blocks ← map_result (accessor_lines dto_type) ops;
    Ok (take (length lines - 2) lines ++ concat blocks
        ++ drop (length lines - 2) lines)%list.
Proof.
  intros Hlen. unfold _update_dto_methods.
  replace (Z.of_nat (length lines) - 2)%Z with (Z.of_nat (length (take (length lines - 2) lines)))
    by (rewrite length_take; lia).
  rewrite <- (take_drop (length lines - 2) lines) at 1.
  rewrite dto_methods_loop.
  destruct (map_result (accessor_lines dto_type) ops) as [blocks|e]; reflexivity.
Qed.

Lemma accessors_are_inserted_in_list_order_witness :
  _update_dto_methods (lines order_response_file) two_additions orders_service "response"
  = blocks ← map_result (accessor_lines "response") two_additions;
    Ok (take 2 (lines order_response_file) ++ concat blocks
        ++ drop 2 (lines order_response_file))%list.
Proof.
  apply (accessors_are_inserted_in_list_order "response" (lines order_response_file)).
  cbn. lia.
Defined.

Lemma find_class_start_returns (lines : list string) (i : Z) (sd : list (string * pyval))
    (class_start : Z) :
  entity_is_string sd ->
  exists c, find_class_start lines i (PDict sd) class_start = Ok c.
Proof.
  intros He. revert i class_start. induction lines as [|l ls IH]; intros i c.
  - now exists c.
  - cbn [find_class_start]. destruct (contains "public class" l).
    + cbn [py_get]. rewrite bind_Ok.
      destruct (assoc "entity" sd) as [v|] eqn:Hv.
      * destruct (He v Hv) as [e ->]. cbn [from_option id]. rewrite bind_Ok. apply IH.
      * cbn [from_option id]. rewrite bind_Ok. apply IH.
    + rewrite bind_Ok. apply IH.
Qed.

Section ModelAdditions.

Variable re_sub : string -> string -> string -> result string.

Lemma model_step_add (structure : Structure) (class_start : Z) (pre suf : list string)
    (operation : FieldOperation) :
  action operation = "add" -> (1 <= length pre)%nat ->
  model_step re_sub structure class_start
    ((pre ++ suf)%list, (Z.of_nat (length pre) - 1)%Z) operation
  = block ← model_field_lines operation;
    Ok ((pre ++ block ++ suf)%list, (Z.of_nat (length (pre ++ block)) - 1)%Z).
Proof.
  intros Ha Hpre. unfold model_step, model_field_lines. rewrite Ha.
  cbn [String.eqb Ascii.eqb Bool.eqb].
  destruct (py_getitem (field_data operation) "field") as [fd|]; [|reflexivity].
  rewrite !bind_Ok.
  destruct (_generate_model_field_code fd) as [code|]; [|reflexivity].
  rewrite !bind_Ok.
  destruct (Z.ltb_spec (-1) (Z.of_nat (length pre) - 1)) as [_|Hneg]; [|lia].
  replace (Z.of_nat (length pre) - 1 + 1)%Z with (Z.of_nat (length pre)) by lia.
  rewrite insert_all_splice by (rewrite length_app; lia).
  rewrite take_app_length, drop_app_length.
  f_equal. f_equal. rewrite !length_app. lia.
Qed.

Lemma model_additions_loop (structure : Structure) (class_start : Z)
    (ops : list FieldOperation) (blocks : list (list string)) (pre suf : list string) :
  Forall (fun op => action op = "add") ops -> (1 <= length pre)%nat ->
  map_result model_field_lines ops = Ok blocks ->
  for_reversed (model_step re_sub structure class_start)
    ((pre ++ suf)%list, (Z.of_nat (length pre) - 1)%Z) ops
  = Ok ((pre ++ concat (rev blocks) ++ suf)%list,
        (Z.of_nat (length (pre ++ concat (rev blocks))) - 1)%Z).
Proof.
  intros Hadd Hpre. revert blocks.
  induction Hadd as [|op ops Ha Hops IH]; intros blocks Hblocks.
  - injection Hblocks as <-. cbn [for_reversed rev concat app]. now rewrite app_nil_r.
  - cbn [map_result] in Hblocks.
    destruct (model_field_lines op) as [block|] eqn:Hb; [|discriminate].
    rewrite bind_Ok in Hblocks.
    destruct (map_result model_field_lines ops) as [bs|]; [|discriminate].
    rewrite bind_Ok in Hblocks. injection Hblocks as <-.
    cbn [for_reversed]. rewrite (IH bs eq_refl), bind_Ok.
    rewrite (app_assoc pre (concat (rev bs)) suf).
    rewrite model_step_add by (try exact Ha; rewrite length_app; lia).
    rewrite Hb, bind_Ok. cbn [rev]. rewrite concat_app. cbn [concat].
    rewrite app_nil_r, <- !app_assoc. reflexivity.
Qed.

(** X8: for a list of additions to a model whose last field is within the file,
    [_apply_model_operations] inserts the blocks of the new fields right after
    the line of the last field, the block of the last operation first, and
    leaves the other lines as they were. *)
Theorem added_fields_follow_the_last_field (structure : Structure)
    (ops : list FieldOperation) (sd : list (string * pyval))
    (blocks : list (list string)) (last_field : nat) :
  Forall (fun op => action op = "add") ops ->
  max_field_line (fields structure) = Z.of_nat last_field ->
  (last_field < length (lines structure))%nat ->
  entity_is_string sd ->
  map_result model_field_lines ops = Ok blocks ->
  _apply_model_operations re_sub structure ops (PDict sd)
  = Ok (join newline (take (S last_field) (lines structure) ++ concat (rev blocks)
                      ++ drop (S last_field) (lines structure))%list).
Proof.
  intros Hadd Hmax Hlt He Hblocks. unfold _apply_model_operations.
  destruct (find_class_start_returns (lines structure) 0 sd (-1) He) as [class_start ->].
  rewrite bind_Ok.
  assert (Hlast : match lines structure with
                  | [] => (-1)%Z
                  | _ => max_field_line (fields structure)
                  end = (Z.of_nat (length (take (S last_field) (lines structure))) - 1)%Z).
  { rewrite length_take, Hmax. destruct (lines structure); [simpl in Hlt; lia|]. lia. }
  rewrite Hlast.
  rewrite <- (take_drop (S last_field) (lines structure)) at 1.
  rewrite (model_additions_loop structure class_start ops blocks) ;
    [| exact Hadd | rewrite length_take; lia | exact Hblocks].
  reflexivity.
Qed.

End ModelAdditions.

Lemma added_fields_follow_the_last_field_witness :
  exists blocks,
    map_result model_field_lines two_additions = Ok blocks
    /\ _apply_model_operations no_substitution order_model_file two_additions
         orders_service
       = Ok (join newline (take 7 (lines order_model_file) ++ concat (rev blocks)
                           ++ drop 7 (lines order_model_file))%list).
Proof.
  eexists. split.
  - vm_compute. reflexivity.
  - apply (added_fields_follow_the_last_field no_substitution order_model_file
             two_additions orders_service_items _ 6).
    + repeat constructor.
    + reflexivity.
    + cbn. lia.
    + exact orders_entity_is_string.
    + vm_compute. reflexivity.
Defined.

(** ** Reading a file into lines and writing the lines back *)

Lemma join_split (c : ascii) (s : string) : join (String c "") (split_on c s) = s.
Proof.
  induction s as [|d s IH]; [reflexivity|]. cbn [split_on].
  pose proof (split_on_nonempty c s) as Hne.
  destruct (Ascii.eqb_spec c d) as [<-|Hcd].
  - destruct (split_on c s) as [|w ws]; [now destruct Hne|].
    change (join (String c "") ("" :: w :: ws))
      with ("" ++ String c "" ++ join (String c "") (w :: ws)).
    now rewrite IH.
  - destruct (split_on c s) as [|w ws]; [now destruct Hne|].
    rewrite <- IH. destruct ws as [|w' ws']; reflexivity.
Qed.

(** ** The service file *)

Lemma update_field_validation_keeps_lines (lines r : list string) (field_name changes : pyval) :
  _update_field_validation lines field_name changes = Ok r -> r = lines.
Proof.
  unfold _update_field_validation.
  destruct (_to_pascal_case field_name) as [p|]; [|discriminate]. rewrite bind_Ok.
  destruct (fold_result _ tt lines) as [u|]; [|discriminate]. rewrite bind_Ok.
  now intros [= <-].
Qed.

Lemma update_field_validation_returns (lines : list string) (f : string)
    (ch : list (string * pyval)) :
  (forall v, assoc "validation" ch = Some v -> exists vd, v = PDict vd) ->
  _update_field_validation lines (PStr f) (PDict ch) = Ok lines.
Proof.
  intros Hv. unfold _update_field_validation. cbn [_to_pascal_case]. rewrite bind_Ok.
  set (body := fun (_ : unit) (line : string) => _).
  assert (Hfold : fold_result body tt lines = Ok tt).
  { induction lines as [|l ls IH]; [reflexivity|].
    cbn [fold_result]. replace (body tt l) with (Ok tt : result unit);
      [now rewrite bind_Ok|].
    unfold body. destruct (contains _ l); [|reflexivity].
    cbn [py_in py_get]. rewrite !bind_Ok.
    destruct (assoc "validation" ch) as [v|] eqn:Hval.
    - destruct (Hv v eq_refl) as [vd ->].
      rewrite bool_decide_eq_true_2 by eauto. reflexivity.
    - now rewrite bool_decide_eq_false_2 by (intros [? ?]; discriminate). }
  now rewrite Hfold, bind_Ok.
Qed.

Lemma service_updates_keep_lines (fuel : nat) (service_info : pyval)
    (ops : list FieldOperation) (ls ls' : list string) :
  Forall (fun op => action op = "update") ops ->
  fold_result (service_step fuel service_info) ls ops = Ok ls' -> ls' = ls.
Proof.
  intros Hupd. revert ls. induction Hupd as [|op ops Ha _ IH]; intros ls H.
  - now injection H as <-.
  - cbn [fold_result] in H.
    destruct (service_step fuel service_info ls op) as [ls1|] eqn:Hstep; [|discriminate].
    rewrite bind_Ok in H. apply IH in H. subst ls'.
    unfold service_step in Hstep. rewrite Ha in Hstep.
    cbn [String.eqb Ascii.eqb Bool.eqb] in Hstep.
    destruct (py_getitem (field_data op) "field_name") as [f|]; [|discriminate].
    rewrite bind_Ok in Hstep.
    destruct (py_getitem (field_data op) "changes") as [ch|]; [|discriminate].
    rewrite bind_Ok in Hstep.
    exact (update_field_validation_keeps_lines _ _ _ _ Hstep).
Qed.

Lemma service_updates_return (fuel : nat) (service_info : pyval)
    (ops : list FieldOperation) (ls : list string) :
  Forall (fun op => action op = "update") ops -> Forall plain_update ops ->
  fold_result (service_step fuel service_info) ls ops = Ok ls.
Proof.
  intros Hupd Hplain. induction ops as [|op ops IH]; [reflexivity|].
  apply Forall_cons in Hupd. destruct Hupd as [Ha Hupd].
  apply Forall_cons in Hplain. destruct Hplain as [Hop Hplain].
  destruct Hop as (d & f & ch & Hd & Hf & Hch & Hv).
  assert (Hstep : service_step fuel service_info ls op = Ok ls).
  { unfold service_step. rewrite Ha, Hd. cbn [String.eqb Ascii.eqb Bool.eqb].
    rewrite (getitem_assoc _ _ _ Hf), bind_Ok, (getitem_assoc _ _ _ Hch), bind_Ok.
    apply (update_field_validation_returns ls f ch Hv). }
  cbn [fold_result]. rewrite Hstep, bind_Ok. now apply IH.
Qed.

(** X9: update operations never change the service file: what
    [_apply_service_operations] returns for a list of updates is the content
    that was read, and it does return it when every update has a string for
    its field name and objects for its changes and their validation part. *)
Theorem updates_leave_the_service_file_as_it_is
    (fuel : nat) (structure : Structure) (ops : list FieldOperation)
    (service_info : pyval) (content : string) :
  lines structure = split_on (ascii_of_nat 10) content ->
  Forall (fun op => action op = "update") ops ->
  (forall r, _apply_service_operations fuel structure ops service_info = Ok r ->
             r = content)
  /\ (Forall plain_update ops ->
      _apply_service_operations fuel structure ops service_info = Ok content).
Proof.
  intros Hlines Hupd. unfold _apply_service_operations. split.
  - intros r. destruct (fold_result _ (lines structure) ops) as [ls|] eqn:Hfold;
      [|discriminate].
    rewrite bind_Ok. intros [= <-].
    rewrite (service_updates_keep_lines _ _ _ _ _ Hupd Hfold), Hlines. apply join_split.
  - intros Hplain. rewrite (service_updates_return _ _ _ _ Hupd Hplain), bind_Ok, Hlines.
    f_equal. apply join_split.
Qed.

Lemma updates_leave_the_service_file_as_it_is_witness :
  _apply_service_operations 10 order_service_file [update_type_op "total" "DECIMAL(10,2)"]
    orders_service = Ok order_service_text.
Proof.
  apply (updates_leave_the_service_file_as_it_is 10 order_service_file
           [update_type_op "total" "DECIMAL(10,2)"] orders_service order_service_text).
  - vm_compute. reflexivity.
  - repeat constructor.
  - repeat constructor. exact type_update_is_plain.
Defined.

(** ** Operations on fields that the file does not declare *)

Lemma for_reversed_idle {A B : Type} (f : A -> B -> result A) (a : A) (l : list B) :
  Forall (fun x => forall a', f a' x = Ok a') l -> for_reversed f a l = Ok a.
Proof.
  induction 1 as [|x l Hx _ IH]; [reflexivity|].
  cbn [for_reversed]. now rewrite IH, bind_Ok.
Qed.

Lemma fold_result_idle {A B : Type} (f : A -> B -> result A) (a : A) (l : list B) :
  Forall (fun x => forall a', f a' x = Ok a') l -> fold_result f a l = Ok a.
Proof.
  induction 1 as [|x l Hx _ IH]; [reflexivity|].
  cbn [fold_result]. now rewrite Hx, bind_Ok.
Qed.

Lemma not_add (op : FieldOperation) :
  action op = "remove" \/ action op = "update" -> String.eqb (action op) "add" = false.
Proof. intros [-> | ->]; reflexivity. Qed.

Section UnknownFields.

Variable re_sub : string -> string -> string -> result string.

Lemma model_step_unknown (structure : Structure) (class_start : Z)
    (op : FieldOperation) (st : edit_state) :
  names_no_field (fields structure) op ->
  model_step re_sub structure class_start st op = Ok st.
Proof.
  intros (d & f & Hd & Hf & Hnone & Hact). unfold model_step. destruct st as [ls last].
  rewrite Hd. destruct Hact as [Ha | [Ha [ch Hch]]]; rewrite Ha;
    cbn [String.eqb Ascii.eqb Bool.eqb];
    rewrite ?(getitem_assoc _ _ _ Hf), ?(getitem_assoc _ _ _ Hch), ?bind_Ok;
    cbn [existing_field]; rewrite ?bind_Ok, Hnone; reflexivity.
Qed.

Lemma dto_step_unknown (structure : Structure) (dto_type : string)
    (op : FieldOperation) (st : edit_state) :
  names_no_field (fields structure) op ->
  dto_step structure dto_type st op = Ok st.
Proof.
  intros (d & f & Hd & Hf & Hnone & Hact). unfold dto_step. destruct st as [ls last].
  rewrite Hd. destruct Hact as [Ha | [Ha [ch Hch]]]; rewrite Ha;
    cbn [String.eqb Ascii.eqb Bool.eqb];
    rewrite ?(getitem_assoc _ _ _ Hf), ?(getitem_assoc _ _ _ Hch), ?bind_Ok;
    cbn [existing_field]; rewrite ?bind_Ok, Hnone; reflexivity.
Qed.

Lemma dto_method_step_unknown (fs : list FieldInfo) (dto_type : string)
    (op : FieldOperation) (st : edit_state) :
  names_no_field fs op -> dto_method_step dto_type st op = Ok st.
Proof.
  intros (d & f & _ & _ & _ & Hact). unfold dto_method_step. destruct st as [ls c].
  rewrite not_add; [reflexivity|]. tauto.
Qed.

(** X10: removals and updates that name fields which the parsed file does not
    declare leave a model file and a DTO file as they were read. *)
Theorem operations_on_undeclared_fields_change_nothing (structure : Structure)
    (ops : list FieldOperation) (sd : list (string * pyval)) (dto_type content : string) :
  lines structure = split_on (ascii_of_nat 10) content ->
  entity_is_string sd ->
  Forall (names_no_field (fields structure)) ops ->
  _apply_model_operations re_sub structure ops (PDict sd) = Ok content
  /\ _apply_dto_operations structure ops (PDict sd) dto_type = Ok content.
Proof.
  intros Hlines He Hops. split.
  - unfold _apply_model_operations.
    destruct (find_class_start_returns (lines structure) 0 sd (-1) He) as [c ->].
    rewrite bind_Ok, for_reversed_idle, bind_Ok.
    + rewrite Hlines. f_equal. apply join_split.
    + eapply Forall_impl; [exact Hops|]. intros op Hop st.
      now apply model_step_unknown.
  - unfold _apply_dto_operations, _update_dto_methods.
    rewrite for_reversed_idle, bind_Ok.
    + rewrite fold_result_idle, !bind_Ok.
      * rewrite Hlines. f_equal. apply join_split.
      * eapply Forall_impl; [exact Hops|]. intros op Hop st.
        now apply (dto_method_step_unknown (fields structure)).
    + eapply Forall_impl; [exact Hops|]. intros op Hop st.
      now apply dto_step_unknown.
Qed.

End UnknownFields.

Lemma operations_on_undeclared_fields_change_nothing_witness :
  _apply_model_operations no_substitution order_model_file
    [remove_op "total"; update_type_op "total" "TEXT"] orders_service
  = Ok order_model_text
  /\ _apply_dto_operations order_model_file
       [remove_op "total"; update_type_op "total" "TEXT"] orders_service "request"
     = Ok order_model_text.
Proof.
  apply (operations_on_undeclared_fields_change_nothing no_substitution order_model_file
           [remove_op "total"; update_type_op "total" "TEXT"] orders_service_items
           "request" order_model_text).
  - vm_compute. reflexivity.
  - exact orders_entity_is_string.
  - apply Forall_cons_2; [|apply Forall_cons_2; [|apply Forall_nil_2]].
    + apply total_is_no_field; [reflexivity | now left].
    + apply total_is_no_field; [reflexivity|]. right. split; [reflexivity|].
      cbn [assoc String.eqb Ascii.eqb Bool.eqb]. eauto.
Defined.

(** ** The update of a field in a DTO *)

Lemma for_reversed_raises {A B : Type} (f : A -> B -> result A) (a : A) (l : list B) (x : B) :
  x ∈ l -> (forall a', exists e, f a' x = Raise e) ->
  exists e, for_reversed f a l = Raise e.
Proof.
  intros Hin Hx. induction l as [|y l IH]; [now apply not_elem_of_nil in Hin|].
  cbn [for_reversed]. apply elem_of_cons in Hin. destruct Hin as [<- | Hin].
  - destruct (for_reversed f a l) as [a'|e]; [|now exists e].
    rewrite bind_Ok. apply Hx.
  - destruct (IH Hin) as [e ->]. now exists e.
Qed.

(** X11: [_apply_dto_operations] raises whenever the list has an update of a field
    that the DTO declares: the method [_update_dto_field] that it calls for it
    does not exist. *)
Theorem update_of_a_declared_dto_field_fails (structure : Structure)
    (ops : list FieldOperation) (service_info : pyval) (dto_type : string)
    (op : FieldOperation) (d : list (string * pyval)) (f : string) (changes : pyval)
    (field_info : FieldInfo) :
  op ∈ ops ->
  action op = "update" ->
  field_data op = PDict d ->
  assoc "field_name" d = Some (PStr f) ->
  assoc "changes" d = Some changes ->
  find_field (fields structure) f = Some field_info ->
  exists e, _apply_dto_operations structure ops service_info dto_type = Raise e.
Proof.
  intros Hin Ha Hd Hf Hch Hfound. unfold _apply_dto_operations.
  destruct (for_reversed_raises (dto_step structure dto_type)
              (lines structure, max_field_line (fields structure)) ops op Hin) as [e ->].
  - intros [ls last]. exists AttributeError. unfold dto_step. rewrite Ha, Hd.
    cbn [String.eqb Ascii.eqb Bool.eqb].
    rewrite (getitem_assoc _ _ _ Hf), bind_Ok, (getitem_assoc _ _ _ Hch), bind_Ok.
    cbn [existing_field]. now rewrite bind_Ok, Hfound.
  - now exists e.
Qed.

Lemma update_of_a_declared_dto_field_fails_witness :
  exists e,
    _apply_dto_operations order_model_file
      [add_integer_field "quantity"; update_type_op "status" "TEXT"] orders_service
      "response" = Raise e.
Proof.
  apply (update_of_a_declared_dto_field_fails order_model_file
           [add_integer_field "quantity"; update_type_op "status" "TEXT"] orders_service
           "response" (update_type_op "status" "TEXT")
           [("action", PStr "update"); ("field_name", PStr "status");
            ("changes", PDict [("type", PStr "TEXT")])]
           "status" (PDict [("type", PStr "TEXT")]) status_field).
  - apply list_elem_of_In. simpl. auto.
  - reflexivity.
  - reflexivity.
  - reflexivity.
  - reflexivity.
  - reflexivity.
Defined.

Lemma camel_or_pascal (n : string) : exists c, _to_camel_case (PStr n) = Ok c.
Proof.
  unfold _to_camel_case. pose proof (split_on_nonempty "_" n) as Hne.
  destruct (split_on "_" n); [now destruct Hne | now eexists].
Qed.

(** ** Additions to the service file *)

Lemma py_insert_somewhere {A : Type} (i : Z) (x : A) (l : list A) :
  exists k, (k <= length l)%nat /\ py_insert i x l = (take k l ++ x :: drop k l)%list.
Proof.
  unfold py_insert. eexists. split; [|reflexivity].
  destruct (Z.ltb_spec i 0); lia.
Qed.

Lemma find_validation_method_none (lines : list string) (i : nat) :
  Forall (fun l => names_service_method l = false) lines ->
  find_validation_method lines i = None.
Proof.
  intros H. revert i. induction H as [|l ls Hl _ IH]; intros i; [reflexivity|].
  cbn [find_validation_method]. unfold names_service_method in Hl.
  apply orb_false_iff in Hl. destruct Hl as [Hl _].
  apply orb_false_iff in Hl. destruct Hl as [Hl _].
  apply orb_false_iff in Hl. destruct Hl as [Hl _].
  rewrite Hl. apply IH.
Qed.

Lemma add_field_mapping_idle (fuel i : nat) (lines : list string) (fd si : pyval)
    (pascal : string) :
  Forall (fun l => names_service_method l = false) lines ->
  (0 < fuel)%nat -> (length lines < fuel + i)%nat ->
  add_field_mapping_from fuel i lines fd si pascal = Ok lines.
Proof.
  intros Hall. revert i. induction fuel as [|fuel IH]; intros i Hpos Hfuel; [lia|].
  cbn [add_field_mapping_from]. destruct (lines !! i) as [l|] eqn:Hl; [|reflexivity].
  assert (Hn : names_service_method l = false).
  { rewrite Forall_forall in Hall. apply Hall. now apply list_elem_of_lookup_2 in Hl. }
  unfold names_service_method in Hn.
  repeat (apply orb_false_iff in Hn; destruct Hn as [Hn ?]).
  replace (contains "createEntityFromRequest" l) with false by congruence.
  replace (contains "updateEntityFromRequest" l) with false by congruence.
  replace (contains "convertToResponse" l) with false by congruence.
  cbn [orb]. apply lookup_lt_Some in Hl. apply IH; lia.
Qed.

Lemma service_step_idle (fuel : nat) (si : pyval) (lines : list string)
    (op : FieldOperation) :
  Forall (fun l => names_service_method l = false) lines ->
  (length lines < fuel)%nat ->
  plain_addition op ->
  service_step fuel si lines op = Ok lines.
Proof.
  intros Hall Hfuel (d & fd & n & Ha & Hd & Hfd & Hn & Hv).
  unfold service_step. rewrite Ha, Hd. cbn [String.eqb Ascii.eqb Bool.eqb].
  rewrite (getitem_assoc _ _ _ Hfd), bind_Ok. cbn [py_get]. rewrite bind_Ok.
  assert (Hval : exists vd, default (PDict []) (assoc "validation" fd) = PDict vd).
  { destruct (assoc "validation" fd) as [v|] eqn:Hvv.
    - destruct (Hv v eq_refl) as [vd ->]. now exists vd.
    - now exists []. }
  destruct Hval as [vd ->]. cbn [py_get]. rewrite bind_Ok.
  assert (Hvalidation : (if py_truthy (default PNone (assoc "required" vd))
                         then _add_field_validation lines (PDict fd) si
                         else Ok lines) = Ok lines).
  { destruct (py_truthy _); [|reflexivity].
    unfold _add_field_validation. now rewrite find_validation_method_none. }
  rewrite Hvalidation, bind_Ok.
  unfold _add_field_mapping. rewrite (getitem_assoc _ _ _ Hn), !bind_Ok.
  cbn [_to_pascal_case].
  destruct (camel_or_pascal n) as [c ->]. rewrite !bind_Ok.
  apply add_field_mapping_idle; [exact Hall | lia | lia].
Qed.

Lemma fold_result_idle_at {A B : Type} (f : A -> B -> result A) (a : A) (l : list B) :
  Forall (fun x => f a x = Ok a) l -> fold_result f a l = Ok a.
Proof.
  induction 1 as [|x l Hx _ IH]; [reflexivity|].
  cbn [fold_result]. now rewrite Hx, bind_Ok.
Qed.

(** X12: a service file in which no line names one of the validation or conversion
    methods is returned as it was read, for additions and updates that are
    well formed. *)
Theorem service_file_without_the_methods_is_left_alone
    (fuel : nat) (structure : Structure) (ops : list FieldOperation)
    (service_info : pyval) (content : string) :
  lines structure = split_on (ascii_of_nat 10) content ->
  Forall (fun l => names_service_method l = false) (lines structure) ->
  (length (lines structure) < fuel)%nat ->
  Forall (fun op => plain_addition op \/ (action op = "update" /\ plain_update op)) ops ->
  _apply_service_operations fuel structure ops service_info = Ok content.
Proof.
  intros Hlines Hall Hfuel Hops. unfold _apply_service_operations.
  rewrite fold_result_idle_at.
  - rewrite bind_Ok, Hlines. f_equal. apply join_split.
  - eapply Forall_impl; [exact Hops|]. intros op [Hadd | [Ha Hupd]].
    + now apply service_step_idle.
    + pose proof (service_updates_return fuel service_info [op] (lines structure)
               (Forall_cons_2 _ _ _ Ha (Forall_nil_2 _))
               (Forall_cons_2 _ _ _ Hupd (Forall_nil_2 _))) as H.
      cbn [fold_result] in H.
      destruct (service_step fuel service_info (lines structure) op); [exact H | discriminate].
Qed.

Lemma service_file_without_the_methods_is_left_alone_witness :
  _apply_service_operations 3 bare_service_file
    [add_integer_field "quantity"; update_type_op "total" "DECIMAL(10,2)"] orders_service
  = Ok bare_service_text.
Proof.
  apply (service_file_without_the_methods_is_left_alone 3 bare_service_file).
  - vm_compute. reflexivity.
  - repeat constructor.
  - cbn. lia.
  - apply Forall_cons_2; [|apply Forall_cons_2; [|apply Forall_nil_2]].
    + left. exact quantity_is_a_plain_addition.
    + right. split; [reflexivity | exact type_update_is_plain].
Defined.

(** X13: [_add_field_validation] changes nothing when no line names a validation
    method; and what it returns is the lines as they were, or the lines with
    one entry added, which throws a [BusinessException]. *)
Theorem validation_check_is_one_insertion (lines : list string)
    (field : pyval) (service_info : pyval) :
  (find_validation_method lines 0 = None ->
   _add_field_validation lines field service_info = Ok lines)
  /\ (forall r, _add_field_validation lines field service_info = Ok r ->
        r = lines
        \/ exists k check,
             (k <= length lines)%nat
             /\ r = (take k lines ++ check :: drop k lines)%list
             /\ contains "BusinessException" check = true).
Proof.
  unfold _add_field_validation. split.
  - now intros ->.
  - intros r. destruct (find_validation_method lines 0) as [i|]; [|intros [= <-]; now left].
    destruct (py_get field "validation" (PDict [])) as [validation|]; [|discriminate].
    rewrite bind_Ok.
    destruct (py_get validation "required" PNone) as [required|]; [|discriminate].
    rewrite bind_Ok.
    destruct (py_truthy required); [|intros [= <-]; now left].
    destruct (py_getitem field "name") as [n|]; [|discriminate]. rewrite !bind_Ok.
    destruct (_to_camel_case n) as [camel|]; [|discriminate]. rewrite !bind_Ok.
    destruct (field_title n) as [t|]; [|discriminate]. rewrite !bind_Ok.
    destruct (py_getitem field "javaType") as [jt|]; [|discriminate]. rewrite !bind_Ok.
    destruct (_to_pascal_case n) as [pascal|]; [|discriminate]. rewrite !bind_Ok.
    intros [= <-]. right.
    match goal with |- context [py_insert ?i ?x lines] =>
      destruct (py_insert_somewhere i x lines) as (k & Hk & ->); exists k, x end.
    split; [exact Hk|]. split; [reflexivity|].
    destruct (is_PStr "String" jt);
      apply contains_app_r, contains_app_r, contains_app_r, contains_app_r;
      change "            throw new BusinessException("
        with ("            throw new " ++ "BusinessException" ++ "(");
      rewrite !append_assoc; apply contains_middle.
Qed.

(** ** Additions to a DTO *)

Lemma dto_step_add (structure : Structure) (dto_type : string) (pre suf : list string)
    (operation : FieldOperation) :
  action operation = "add" -> (1 <= length pre)%nat ->
  dto_step structure dto_type ((pre ++ suf)%list, (Z.of_nat (length pre) - 1)%Z) operation
  = block ← dto_field_lines dto_type operation;
    Ok ((pre ++ block ++ suf)%list, (Z.of_nat (length (pre ++ block)) - 1)%Z).
Proof.
  intros Ha Hpre. unfold dto_step, dto_field_lines. rewrite Ha.
  cbn [String.eqb Ascii.eqb Bool.eqb].
  destruct (py_getitem (field_data operation) "field") as [fd|]; [|reflexivity].
  rewrite !bind_Ok.
  destruct (if String.eqb dto_type "request"
            then v ← py_get fd "autoGenerated" (PBool false); Ok (py_truthy v)
            else Ok false) as [[|]|]; rewrite ?bind_Ok, ?bind_Raise; try reflexivity.
  { cbn [app]. now rewrite app_nil_r. }
  destruct (_generate_dto_field_code fd dto_type) as [code|]; [|reflexivity].
  rewrite !bind_Ok.
  destruct (Z.ltb_spec (-1) (Z.of_nat (length pre) - 1)) as [_|Hneg]; [|lia].
  replace (Z.of_nat (length pre) - 1 + 1)%Z with (Z.of_nat (length pre)) by lia.
  rewrite insert_all_splice by (rewrite length_app; lia).
  rewrite take_app_length, drop_app_length.
  f_equal. f_equal. rewrite !length_app. lia.
Qed.

Lemma dto_additions_loop (structure : Structure) (dto_type : string)
    (ops : list FieldOperation) (blocks : list (list string)) (pre suf : list string) :
  Forall (fun op => action op = "add") ops -> (1 <= length pre)%nat ->
  map_result (dto_field_lines dto_type) ops = Ok blocks ->
  for_reversed (dto_step structure dto_type)
    ((pre ++ suf)%list, (Z.of_nat (length pre) - 1)%Z) ops
  = Ok ((pre ++ concat (rev blocks) ++ suf)%list,
        (Z.of_nat (length (pre ++ concat (rev blocks))) - 1)%Z).
Proof.
  intros Hadd Hpre. revert blocks.
  induction Hadd as [|op ops Ha Hops IH]; intros blocks Hblocks.
  - injection Hblocks as <-. cbn [for_reversed rev concat app]. now rewrite app_nil_r.
  - cbn [map_result] in Hblocks.
    destruct (dto_field_lines dto_type op) as [block|] eqn:Hb; [|discriminate].
    rewrite bind_Ok in Hblocks.
    destruct (map_result (dto_field_lines dto_type) ops) as [bs|]; [|discriminate].
    rewrite bind_Ok in Hblocks. injection Hblocks as <-.
    cbn [for_reversed]. rewrite (IH bs eq_refl), bind_Ok.
    rewrite (app_assoc pre (concat (rev bs)) suf).
    rewrite dto_step_add by (try exact Ha; rewrite length_app; lia).
    rewrite Hb, bind_Ok. cbn [rev]. rewrite concat_app. cbn [concat].
    rewrite app_nil_r, <- !app_assoc. reflexivity.
Qed.

Lemma update_dto_methods_spec (dto_type : string) (lines : list string)
    (ops : list FieldOperation) (service_info : pyval) :
  (2 <= length lines)%nat ->
  _update_dto_methods lines ops service_info dto_type
  = blocks ← map_result (accessor_lines dto_type) ops;
    Ok (take (length lines - 2) lines ++ concat blocks
        ++ drop (length lines - 2) lines)%list.
Proof.
  intros Hlen. unfold _update_dto_methods.
  replace (Z.of_nat (length lines) - 2)%Z with (Z.of_nat (length (take (length lines - 2) lines)))
    by (rewrite length_take; lia).
  rewrite <- (take_drop (length lines - 2) lines) at 1.
  rewrite dto_methods_loop.
  destruct (map_result (accessor_lines dto_type) ops) as [blocks|e]; reflexivity.
Qed.

(** X14: for a list of additions to a DTO whose last field is within the file,
    [_apply_dto_operations] inserts the field blocks right after the last
    field, the block of the last operation first, and then the accessor lines,
    in the order of the list, before the last two lines of the outcome. *)
Theorem added_dto_fields_and_their_accessors (structure : Structure)
    (ops : list FieldOperation) (service_info : pyval) (dto_type : string)
    (field_blocks accessor_blocks : list (list string)) (last_field : nat) :
  Forall (fun op => action op = "add") ops ->
  max_field_line (fields structure) = Z.of_nat last_field ->
  (last_field < length (lines structure))%nat ->
  (2 <= length (lines structure))%nat ->
  map_result (dto_field_lines dto_type) ops = Ok field_blocks ->
  map_result (accessor_lines dto_type) ops = Ok accessor_blocks ->
  let with_fields :=
    (take (S last_field) (lines structure) ++ concat (rev field_blocks)
     ++ drop (S last_field) (lines structure))%list in
  _apply_dto_operations structure ops service_info dto_type
  = Ok (join newline (take (length with_fields - 2) with_fields
                      ++ concat accessor_blocks
                      ++ drop (length with_fields - 2) with_fields)%list).
Proof.
  intros Hadd Hmax Hlt Hlen Hfields Haccessors with_fields.
  unfold _apply_dto_operations.
  replace (max_field_line (fields structure))
    with (Z.of_nat (length (take (S last_field) (lines structure))) - 1)%Z
    by (rewrite length_take, Hmax; lia).
  rewrite <- (take_drop (S last_field) (lines structure)) at 1.
  rewrite (dto_additions_loop structure dto_type ops field_blocks);
    [| exact Hadd | rewrite length_take; lia | exact Hfields].
  rewrite bind_Ok. fold with_fields.
  rewrite update_dto_methods_spec, Haccessors, !bind_Ok; [reflexivity|].
  unfold with_fields. rewrite !length_app, length_take, length_drop. lia.
Qed.

Lemma added_dto_fields_and_their_accessors_witness :
  exists field_blocks accessor_blocks,
    map_result (dto_field_lines "response") two_additions = Ok field_blocks
    /\ map_result (accessor_lines "response") two_additions = Ok accessor_blocks
    /\ let with_fields :=
         (take 2 (lines order_response_file) ++ concat (rev field_blocks)
          ++ drop 2 (lines order_response_file))%list in
       _apply_dto_operations order_response_file two_additions orders_service "response"
       = Ok (join newline (take (length with_fields - 2) with_fields
                           ++ concat accessor_blocks
                           ++ drop (length with_fields - 2) with_fields)%list).
Proof.
  eexists. eexists. split; [vm_compute; reflexivity|]. split; [vm_compute; reflexivity|].
  apply (added_dto_fields_and_their_accessors order_response_file two_additions
           orders_service "response" _ _ 1).
  - repeat constructor.
  - reflexivity.
  - cbn. lia.
  - cbn. lia.
  - vm_compute. reflexivity.
  - vm_compute. reflexivity.
Defined.

(** ** The structure of the operations file *)

Lemma is_PStr_eq (k : string) (v : pyval) : is_PStr k v = true <-> v = PStr k.
Proof.
  destruct v; cbn [is_PStr]; try (split; [discriminate | congruence]).
  split.
  - intros H. apply String.eqb_eq in H. now subst.
  - intros [= ->]. apply String.eqb_refl.
Qed.

(** X15: [_validate_operations_file] accepts an object exactly when its operation
    type is [modify_service], its target service has a name and a table, and
    its field operations are not empty; when one of the three top-level keys
    is missing it raises a [ValueError] that names the first missing one. *)
Theorem operations_file_is_accepted_iff_well_formed (d : list (string * pyval)) :
  (_validate_operations_file (PDict d) = Ok tt <-> well_formed_request d)
  /\ (forall k, first_missing_key d = Some k ->
        _validate_operations_file (PDict d)
        = Raise (ValueError ("Missing required field: " ++ k))).
Proof.
  unfold _validate_operations_file, well_formed_request, first_missing_key, has_key.
  cbn [fold_result List.find]. rewrite !in_dict, !bind_Ok.
  destruct (assoc "operation_type" d) as [ot|] eqn:Hot.
  2:{ rewrite (bool_decide_eq_false_2 (is_Some (@None pyval))) by (intros [? ?]; discriminate).
      cbn [negb]. rewrite !bind_Raise. split.
      - split; [discriminate|]. intros [? _]. discriminate.
      - intros k Hk. cbn [negb] in Hk. now injection Hk as <-. }
  rewrite (bool_decide_eq_true_2 (is_Some (Some _))) by eauto. cbn [negb]. rewrite !bind_Ok.
  destruct (assoc "target_service" d) as [ts|] eqn:Hts.
  2:{ rewrite (bool_decide_eq_false_2 (is_Some (@None pyval))) by (intros [? ?]; discriminate).
      cbn [negb]. rewrite !bind_Raise. split.
      - split; [discriminate|]. intros [_ (? & ? & ? & _)]. discriminate.
      - intros k Hk. cbn [negb] in Hk. now injection Hk as <-. }
  rewrite (bool_decide_eq_true_2 (is_Some (Some _))) by eauto. cbn [negb]. rewrite !bind_Ok.
  destruct (assoc "field_operations" d) as [fo|] eqn:Hfo.
  2:{ rewrite (bool_decide_eq_false_2 (is_Some (@None pyval))) by (intros [? ?]; discriminate).
      cbn [negb]. rewrite !bind_Raise. split.
      - split; [discriminate|]. intros [_ (? & ? & _ & _ & _ & ? & _)]. discriminate.
      - intros k Hk. cbn [negb] in Hk. now injection Hk as <-. }
  rewrite (bool_decide_eq_true_2 (is_Some (Some _))) by eauto. cbn [negb]. rewrite !bind_Ok.
  split; [|discriminate].
  cbn [py_getitem]. rewrite Hot, Hts, Hfo, !bind_Ok.
  destruct (is_PStr "modify_service" ot) eqn:Hmod; cbn [negb].
  2:{ split; [discriminate|]. intros [[= ->] _]. discriminate. }
  apply is_PStr_eq in Hmod. subst ot.
  assert (Hno : forall e : exn,
            (py_in "name" ts <> Ok true \/ py_in "table" ts <> Ok true
             \/ py_truthy fo <> true) ->
            (Raise e = Ok tt <->
             Some (PStr "modify_service") = Some (PStr "modify_service")
             /\ exists target_service field_operations,
                  Some ts = Some target_service
                  /\ py_in "name" target_service = Ok true
                  /\ py_in "table" target_service = Ok true
                  /\ Some fo = Some field_operations
                  /\ py_truthy field_operations = true)).
  { intros e Hwhy. split; [discriminate|].
    intros [_ (ts' & fo' & [= <-] & Hn & Ht & [= <-] & Hf)]. tauto. }
  destruct (py_in "name" ts) as [[|]|] eqn:Hname; rewrite ?bind_Ok, ?bind_Raise;
    [| apply Hno; left; congruence | apply Hno; left; congruence].
  destruct (py_in "table" ts) as [[|]|] eqn:Htable; rewrite ?bind_Ok, ?bind_Raise;
    [| apply Hno; right; left; congruence | apply Hno; right; left; congruence].
  destruct (py_truthy fo) eqn:Htruthy; cbn [negb].
  - split; [|reflexivity]. intros _. split; [reflexivity|]. now exists ts, fo.
  - apply Hno. right. right. congruence.
Qed.

(** ** The operator's answer *)




(** ** What a snapshot touches *)

Lemma touches_lift {A} id (r : result A) : touches_only id (io_lift r).
Proof. intros w. now split. Qed.









(** X19: when a backup of the same service and the same second is already there,
    [create_backup] raises and the backup that was there is removed by its
    error handler. *)
Theorem snapshot_with_a_taken_name_fails (now : string) (name : pyval) (root : path)
    (w : World) (b : Backup) :
  backups w !! ("field_modification_" ++ py_str name ++ "_" ++ now) = Some b ->
  create_backup now name root w
  = (Raise (OSError "File exists"),
     mkWorld (live w)
       (delete ("field_modification_" ++ py_str name ++ "_" ++ now) (backups w))).
Proof.
  intros Hb. unfold create_backup. cbv zeta.
  cbv beta iota delta [io_try io_bind get_backups io_raise].
  rewrite Hb. cbn [backups].
  rewrite Hb. rewrite bool_decide_eq_true_2 by eauto. reflexivity.
Qed.

Lemma snapshot_with_a_taken_name_fails_witness :
  create_backup snapshot_time (PStr "order") [] after_snapshot
  = (Raise (OSError "File exists"),
     mkWorld (live after_snapshot)
       (delete ("field_modification_" ++ py_str (PStr "order") ++ "_" ++ snapshot_time)
               (backups after_snapshot))).
Proof.
  eapply (snapshot_with_a_taken_name_fails snapshot_time (PStr "order") [] after_snapshot).
  vm_compute. reflexivity.
Defined.

(** ** What a restoration touches *)

Lemma keeps_ret {A} (a : A) : keeps_backups (io_ret a).
Proof. now intros w. Qed.
Lemma keeps_lift {A} (r : result A) : keeps_backups (io_lift r).
Proof. now intros w. Qed.
Lemma keeps_get_live : keeps_backups get_live.
Proof. now intros w. Qed.
Lemma keeps_get_backups : keeps_backups get_backups.
Proof. now intros w. Qed.
Lemma keeps_on_live (f : node -> result node) : keeps_backups (on_live f).
Proof. intros w. unfold on_live. now destruct (f (live w)). Qed.

Lemma keeps_bind {A B} (m : IO A) (f : A -> IO B) :
  keeps_backups m -> (forall a, keeps_backups (f a)) -> keeps_backups (io_bind m f).
Proof.
  intros Hm Hf w. unfold io_bind. specialize (Hm w).
  destruct (m w) as [[a|e] w1]; cbn [snd] in *; [|exact Hm].
  now rewrite Hf.
Qed.

Lemma keeps_try {A} (m : IO A) (h : exn -> IO A) :
  keeps_backups m -> (forall e, keeps_backups (h e)) -> keeps_backups (io_try m h).
Proof.
  intros Hm Hh w. unfold io_try. specialize (Hm w).
  destruct (m w) as [[a|e] w1]; cbn [snd] in *; [exact Hm|].
  now rewrite Hh.
Qed.

Lemma keeps_for {A} (l : list A) (body : A -> IO unit) :
  (forall x, keeps_backups (body x)) -> keeps_backups (io_for l body).
Proof.
  intros Hbody. induction l as [|x l IH]; cbn [io_for].
  - apply keeps_ret.
  - apply keeps_bind; [apply Hbody | intros _; exact IH].
Qed.

Lemma restore_one_keeps_backups (b : Backup) (root : path) (file : string) :
  keeps_backups (restore_one b root file).
Proof.
  unfold restore_one. destruct (lookup_path _ (snapshot b)) as [[data|m]|].
  - apply keeps_bind; [apply keeps_on_live | intros _; apply keeps_on_live].
  - apply keeps_bind; [apply keeps_get_live|]. intros fs.
    apply keeps_bind; [|intros _; apply keeps_on_live].
    destruct (path_exists fs _); [apply keeps_on_live | apply keeps_ret].
  - apply keeps_ret.
Qed.

Lemma restore_backup_keeps_backups (id : string) : keeps_backups (restore_backup id).
Proof.
  unfold restore_backup. apply keeps_bind; [apply keeps_get_backups|]. intros bs.
  destruct (bs !! id) as [b|]; [|apply keeps_ret].
  apply keeps_try; [|intros _; apply keeps_ret].
  apply keeps_bind; [apply keeps_lift|]. intros m.
  apply keeps_bind; [|intros _; apply keeps_ret].
  apply keeps_for. intros file. apply restore_one_keeps_backups.
Qed.

(** X20: [restore_backup] never raises and never changes the backup directory; for
    an id that has no backup, or a backup without manifest, it returns [False]
    and touches nothing. *)
Theorem restoration_returns_and_keeps_the_backups (id : string) (w : World) :
  exists b w',
    restore_backup id w = (Ok b, w')
    /\ backups w' = backups w
    /\ ((backups w !! id = None
         \/ exists bk, backups w !! id = Some bk /\ manifest bk = None) ->
        b = false /\ w' = w).
Proof.
  pose proof (restore_backup_keeps_backups id w) as Hkeep.
  destruct (restore_backup_returns id w) as (b & w' & Hrun).
  rewrite Hrun in Hkeep. cbn [snd] in Hkeep.
  exists b, w'. split; [exact Hrun|]. split; [exact Hkeep|].
  revert Hrun. unfold restore_backup.
  cbv beta iota zeta delta [io_try io_bind io_lift io_ret get_backups].
  intros Hrun [Hnone | (bk & Hbk & Hman)].
  - rewrite Hnone in Hrun. now injection Hrun as <- <-.
  - rewrite Hbk, Hman in Hrun. now injection Hrun as <- <-.
Qed.

(** ** The migration file *)

(** X21: when the template directory is missing, [_generate_migration_file] returns
    without an error and writes no migration: the migration directory holds
    what it held, the backups are untouched, and nothing at all changes when
    the directory was already there. *)
Theorem without_templates_no_migration_is_written (self : FieldModifier) (now : string)
    (service_info : pyval) (ops : list FieldOperation) (analysis : Analysis)
    (w : World) (m : gmap string node) :
  templates_dir_exists self = false ->
  migration_directory (live w) (project_root self) m ->
  exists w',
    _generate_migration_file self now service_info ops analysis w = (Ok tt, w')
    /\ lookup_path (project_root self ++ migration_path) (live w') = Some (Dir m)
    /\ backups w' = backups w
    /\ (lookup_path (project_root self ++ migration_path) (live w) = Some (Dir m) ->
        w' = w).
Proof.
  intros Htpl Hstate.
  destruct (migration_directory_made _ _ _ Hstate) as (fs1 & Hmk & Hdir).
  exists (mkWorld fs1 (backups w)).
  unfold _generate_migration_file.
  cbv beta iota zeta delta [io_try io_bind on_live get_live io_lift io_ret].
  rewrite Hmk, Htpl. split; [reflexivity|]. split; [exact Hdir|]. split; [reflexivity|].
  intros Hthere. rewrite (makedirs_existing _ _ _ Hthere) in Hmk.
  injection Hmk as <-. apply world_eta.
Qed.

Lemma without_templates_no_migration_is_written_witness :
  exists w',
    _generate_migration_file no_template_modifier "2024-01-15 10:30:00" orders_service
      [add_op discount_rate_field] empty_analysis versioned_project = (Ok tt, w')
    /\ lookup_path (project_root no_template_modifier ++ migration_path) (live w')
       = Some (Dir two_migrations)
    /\ backups w' = backups versioned_project
    /\ (lookup_path (project_root no_template_modifier ++ migration_path)
          (live versioned_project) = Some (Dir two_migrations) ->
        w' = versioned_project).
Proof.
  apply (without_templates_no_migration_is_written no_template_modifier).
  - reflexivity.
  - left. vm_compute. reflexivity.
Defined.

(** *** Version numbers are written and read back *)











(** ** What safety validation lets through *)




(** X24: safety validation returns no error for an update exactly when the field is
    not named id or uuid, in any letter case, and the changes carry no type or
    a type that is a string whose upper case contains VARCHAR. *)
Theorem update_is_cleared_iff_harmless (fs : node) (op : FieldOperation)
    (d ch : list (string * pyval)) (f : string) (si : pyval) (root : path) :
  action op = "update" ->
  field_data op = PDict d ->
  assoc "field_name" d = Some (PStr f) ->
  assoc "changes" d = Some (PDict ch) ->
  validate_operation_safety fs op si root = Ok []
  <-> lower f <> "id" /\ lower f <> "uuid"
      /\ (assoc "type" ch = None
          \/ exists ty, assoc "type" ch = Some (PStr ty)
                        /\ contains "VARCHAR" (upper ty) = true).
Proof.
  intros Ha Hd Hf Hch.
  rewrite (validate_update fs op d ch f si root Ha Hd Hf Hch). cbv zeta.
  destruct (bool_decide (lower f ∈ ["id"; "uuid"])) eqn:Hpk.
  - apply bool_decide_eq_true in Hpk.
    assert (Hno : ~ (lower f <> "id" /\ lower f <> "uuid"
                     /\ (assoc "type" ch = None
                         \/ exists ty, assoc "type" ch = Some (PStr ty)
                                       /\ contains "VARCHAR" (upper ty) = true))).
    { intros (Hid & Huuid & _). apply list_elem_of_In in Hpk. simpl in Hpk.
      intuition congruence. }
    destruct (assoc "type" ch) as [[| | |ty| |]|]; (split; [|tauto]); discriminate.
  - apply bool_decide_eq_false in Hpk.
    assert (Hnot : lower f <> "id" /\ lower f <> "uuid").
    { split; intros E; apply Hpk, list_elem_of_In; rewrite E; simpl; auto. }
    destruct Hnot as [Hid Huuid].
    destruct (assoc "type" ch) as [v|] eqn:Hty.
    + destruct v as [| | |ty| |];
        try (split; [discriminate|];
             intros (_ & _ & [Hn | (ty' & Hs & _)]); discriminate).
      destruct (contains "VARCHAR" (upper ty)) eqn:Hv.
      * split; [|reflexivity]. intros _. split; [exact Hid|]. split; [exact Huuid|].
        right. now exists ty.
      * split; [discriminate|].
        intros (_ & _ & [Hn | (ty' & [= <-] & Hs)]); [discriminate | congruence].
    + split; [|reflexivity]. intros _. split; [exact Hid|]. split; [exact Huuid|].
      now left.
Qed.

Lemma update_is_cleared_iff_harmless_witness :
  validate_operation_safety orders_project (update_type_op "status" "VARCHAR(80)")
    orders_service [] = Ok []
  <-> lower "status" <> "id" /\ lower "status" <> "uuid"
      /\ (assoc "type" [("type", PStr "VARCHAR(80)")] = None
          \/ exists ty, assoc "type" [("type", PStr "VARCHAR(80)")] = Some (PStr ty)
                        /\ contains "VARCHAR" (upper ty) = true).
Proof.
  apply (update_is_cleared_iff_harmless orders_project
           (update_type_op "status" "VARCHAR(80)")
           [("action", PStr "update"); ("field_name", PStr "status");
            ("changes", PDict [("type", PStr "VARCHAR(80)")])]
           [("type", PStr "VARCHAR(80)")] "status" orders_service []); reflexivity.
Defined.

(** ** The verdict of a run *)

(** X25: [process_field_operations] never raises: every run returns a boolean; and
    when the operations file cannot be read or its structure is not valid, it
    returns [False] and the disk is as it was. *)
Theorem run_always_returns_a_verdict (self : FieldModifier) (loaded : result pyval)
    (answers : list string) (now : string) (w : World) :
  exists b w',
    process_field_operations self loaded answers now w = (Ok b, w')
    /\ ((forall data, loaded = Ok data -> _validate_operations_file data <> Ok tt) ->
        b = false /\ w' = w).
Proof.
  assert (Hret : exists b w',
             process_field_operations self loaded answers now w = (Ok b, w')).
  { destruct (process_gates self loaded answers now w)
      as [(si & ops & a & name & _ & _ & ->) | [b ->]]; [|now eauto].
    unfold after_gates.
    destruct (create_backup now name (project_root self) w) as [[id|e] w1]; [|now eauto].
    destruct (_apply_field_operations self now si ops a w1) as [[u|e] w2]; now eauto. }
  destruct Hret as (b & w' & Hrun). exists b, w'. split; [exact Hrun|].
  intros Hbad. revert Hrun. unfold process_field_operations.
  cbv beta iota zeta delta [io_try io_bind io_lift io_ret].
  destruct loaded as [data|e].
  - specialize (Hbad data eq_refl).
    destruct (_validate_operations_file data) as [[]|e]; [now destruct Hbad|].
    now intros [= <- <-].
  - now intros [= <- <-].
Qed.











Lemma writes_lift {A} ps (r : result A) : writes_only_at ps (io_lift r).
Proof. intros w. now split. Qed.















(** ** The files of a service *)

Section FileRewritingProperties.

Variable re_sub : string -> string -> string -> result string.
Variable _extract_fields : string -> list FieldInfo.







End FileRewritingProperties.

